(** * cloudflare-ddns: a shallow embedding of [cloudflare-ddns.py]

    The script polls the public IPv4/IPv6 address of the host and reconciles
    the DNS records of the configured Cloudflare zones with it.  This file
    embeds the reconciliation engine ([getIPs], [deleteEntries],
    [commitRecord], [prepareDNSRecord], [processDNSRecord], [cf_api],
    [buildHeaders], [updateIPs] and the body of the poll loop) and proves
    properties of it.

    Modelling conventions.
    - JSON data (provider responses, subdomain entries of the configuration)
      are values of [pyval]; Python's dynamic operations on them ([x[k]],
      [x.get(k, d)], truthiness, [==], iteration, [str], [repr]) are written
      out with the exceptions they raise.  Floats are not modelled.
    - A Python [str] is modelled by the [string] of its UTF-8 encoding.
      [str.strip] and [str.lower] work on the code points, with Python's own
      set of whitespace characters and Unicode's lowercase mapping (the
      final-sigma rule included); [str.split] on an ASCII separator and
      string comparison work on the bytes.  [repr] escapes the ASCII control
      characters only.
    - The network is an oracle [net]: the outcome of the [n]-th HTTP request of
      the run.  Every request issued is recorded in the state, as are the
      lines printed, the sleeps, and the three warn-once globals.
    - Python exceptions are values of [exn]; effectful code lives in the
      state-and-exception monad [M]. *)

From Stdlib Require Import String Ascii List NArith ZArith Lia Bool DecimalString.
Import ListNotations.
Open Scope string_scope.
Open Scope Z_scope.

(** ** UTF-8 *)

(** A Python [str] is a sequence of code points; a [string] of the model
    holds its UTF-8 encoding. *)
Module Utf8.

Definition continuation (b : ascii) : option N :=
  let n := N_of_ascii b in
  if ((128 <=? n) && (n <? 192))%N then Some (n - 128)%N else None.

(** A byte that starts no well-formed sequence is kept apart from the code
    points, above U+10FFFF. *)
Definition stray (n : N) : N := (1114112 + n)%N.

Fixpoint decode (s : string) : list N :=
  match s with
  | EmptyString => []
  | String b1 r1 =>
      let n1 := N_of_ascii b1 in
      let skip := stray n1 :: decode r1 in
      if (n1 <? 128)%N then n1 :: decode r1
      else
        match r1 with
        | String b2 r2 =>
            match continuation b2 with
            | Some c2 =>
                if ((194 <=? n1) && (n1 <? 224))%N
                then ((n1 - 192) * 64 + c2)%N :: decode r2
                else
                  match r2 with
                  | String b3 r3 =>
                      match continuation b3 with
                      | Some c3 =>
                          let v3 := ((n1 - 224) * 4096 + c2 * 64 + c3)%N in
                          if ((224 <=? n1) && (n1 <? 240) && (2048 <=? v3))%N
                          then v3 :: decode r3
                          else
                            match r3 with
                            | String b4 r4 =>
                                match continuation b4 with
                                | Some c4 =>
                                    let v4 := ((n1 - 240) * 262144 + c2 * 4096
                                               + c3 * 64 + c4)%N in
                                    if ((240 <=? n1) && (n1 <? 245)
                                        && (65536 <=? v4) && (v4 <? 1114112))%N
                                    then v4 :: decode r4
                                    else skip
                                | None => skip
                                end
                            | EmptyString => skip
                            end
                      | None => skip
                      end
                  | EmptyString => skip
                  end
            | None => skip
            end
        | EmptyString => skip
        end
  end.

Definition byte (n : N) : ascii := ascii_of_N n.

(** The encoding of one code point, in front of [rest]. *)
Definition encode_cp (c : N) (rest : string) : string :=
  if (c <? 128)%N then String (byte c) rest
  else if (c <? 2048)%N then
    String (byte (192 + c / 64)) (String (byte (128 + c mod 64)) rest)
  else if (c <? 65536)%N then
    String (byte (224 + c / 4096))
      (String (byte (128 + (c / 64) mod 64)) (String (byte (128 + c mod 64)) rest))
  else if (c <? 1114112)%N then
    String (byte (240 + c / 262144))
      (String (byte (128 + (c / 4096) mod 64))
         (String (byte (128 + (c / 64) mod 64)) (String (byte (128 + c mod 64)) rest)))
  else String (byte (c - 1114112)) rest.

Definition encode (cps : list N) : string := fold_right encode_cp EmptyString cps.

Definition code_point (c : N) : bool := (c <? 1114112)%N.

(** [s] is the encoding of a sequence of code points. *)
Definition well_formed (s : string) : bool := forallb code_point (decode s).

End Utf8.

(** ** Unicode character data

    The character properties [str.strip] and [str.lower] consult, of the
    Unicode Character Database, version 14.0.0 (CPython 3.11). *)

Module Unicode.

Definition in_ranges (rs : list (N * N)) (c : N) : bool :=
  existsb (fun r => ((fst r <=? c) && (c <=? snd r))%N) rs.

(** The characters [str.isspace] holds of: bidirectional type WS, B or S, or
    category Zs. *)
Definition whitespace : list (N * N) :=
  [(9, 13); (28, 32); (133, 133); (160, 160); (5760, 5760); (8192, 8202);
   (8232, 8233); (8239, 8239); (8287, 8287); (12288, 12288)]%N.

Definition is_space (c : N) : bool := in_ranges whitespace c.

(** The code points that have a lowercase mapping of one code point, as runs
    [(first, count, step, image of first)]: the code points
    [first + i * step], for [i < count], map to [image + i * step]. *)
Definition lower_runs : list (N * N * N * N) :=
  [
   (65, 26, 1, 97); (192, 23, 1, 224); (216, 7, 1, 248); (256, 24, 2, 257);
   (306, 3, 2, 307); (313, 8, 2, 314); (330, 23, 2, 331); (376, 1, 1, 255);
   (377, 3, 2, 378); (385, 1, 1, 595); (386, 2, 2, 387); (390, 1, 1, 596);
   (391, 1, 1, 392); (393, 2, 1, 598); (395, 1, 1, 396); (398, 1, 1, 477);
   (399, 1, 1, 601); (400, 1, 1, 603); (401, 1, 1, 402); (403, 1, 1, 608);
   (404, 1, 1, 611); (406, 1, 1, 617); (407, 1, 1, 616); (408, 1, 1, 409);
   (412, 1, 1, 623); (413, 1, 1, 626); (415, 1, 1, 629); (416, 3, 2, 417);
   (422, 1, 1, 640); (423, 1, 1, 424); (425, 1, 1, 643); (428, 1, 1, 429);
   (430, 1, 1, 648); (431, 1, 1, 432); (433, 2, 1, 650); (435, 2, 2, 436);
   (439, 1, 1, 658); (440, 1, 1, 441); (444, 1, 1, 445); (452, 1, 1, 454);
   (453, 1, 1, 454); (455, 1, 1, 457); (456, 1, 1, 457); (458, 1, 1, 460);
   (459, 9, 2, 460); (478, 9, 2, 479); (497, 1, 1, 499); (498, 2, 2, 499);
   (502, 1, 1, 405); (503, 1, 1, 447); (504, 20, 2, 505); (544, 1, 1, 414);
   (546, 9, 2, 547); (570, 1, 1, 11365); (571, 1, 1, 572); (573, 1, 1, 410);
   (574, 1, 1, 11366); (577, 1, 1, 578); (579, 1, 1, 384); (580, 1, 1, 649);
   (581, 1, 1, 652); (582, 5, 2, 583); (880, 2, 2, 881); (886, 1, 1, 887);
   (895, 1, 1, 1011); (902, 1, 1, 940); (904, 3, 1, 941); (908, 1, 1, 972);
   (910, 2, 1, 973); (913, 17, 1, 945); (931, 9, 1, 963); (975, 1, 1, 983);
   (984, 12, 2, 985); (1012, 1, 1, 952); (1015, 1, 1, 1016); (1017, 1, 1, 1010);
   (1018, 1, 1, 1019); (1021, 3, 1, 891); (1024, 16, 1, 1104); (1040, 32, 1, 1072);
   (1120, 17, 2, 1121); (1162, 27, 2, 1163); (1216, 1, 1, 1231); (1217, 7, 2, 1218);
   (1232, 48, 2, 1233); (1329, 38, 1, 1377); (4256, 38, 1, 11520); (4295, 1, 1, 11559);
   (4301, 1, 1, 11565); (5024, 80, 1, 43888); (5104, 6, 1, 5112); (7312, 43, 1, 4304);
   (7357, 3, 1, 4349); (7680, 75, 2, 7681); (7838, 1, 1, 223); (7840, 48, 2, 7841);
   (7944, 8, 1, 7936); (7960, 6, 1, 7952); (7976, 8, 1, 7968); (7992, 8, 1, 7984);
   (8008, 6, 1, 8000); (8025, 4, 2, 8017); (8040, 8, 1, 8032); (8072, 8, 1, 8064);
   (8088, 8, 1, 8080); (8104, 8, 1, 8096); (8120, 2, 1, 8112); (8122, 2, 1, 8048);
   (8124, 1, 1, 8115); (8136, 4, 1, 8050); (8140, 1, 1, 8131); (8152, 2, 1, 8144);
   (8154, 2, 1, 8054); (8168, 2, 1, 8160); (8170, 2, 1, 8058); (8172, 1, 1, 8165);
   (8184, 2, 1, 8056); (8186, 2, 1, 8060); (8188, 1, 1, 8179); (8486, 1, 1, 969);
   (8490, 1, 1, 107); (8491, 1, 1, 229); (8498, 1, 1, 8526); (8544, 16, 1, 8560);
   (8579, 1, 1, 8580); (9398, 26, 1, 9424); (11264, 48, 1, 11312); (11360, 1, 1, 11361);
   (11362, 1, 1, 619); (11363, 1, 1, 7549); (11364, 1, 1, 637); (11367, 3, 2, 11368);
   (11373, 1, 1, 593); (11374, 1, 1, 625); (11375, 1, 1, 592); (11376, 1, 1, 594);
   (11378, 1, 1, 11379); (11381, 1, 1, 11382); (11390, 2, 1, 575); (11392, 50, 2, 11393);
   (11499, 2, 2, 11500); (11506, 1, 1, 11507); (42560, 23, 2, 42561); (42624, 14, 2, 42625);
   (42786, 7, 2, 42787); (42802, 31, 2, 42803); (42873, 2, 2, 42874); (42877, 1, 1, 7545);
   (42878, 5, 2, 42879); (42891, 1, 1, 42892); (42893, 1, 1, 613); (42896, 2, 2, 42897);
   (42902, 10, 2, 42903); (42922, 1, 1, 614); (42923, 1, 1, 604); (42924, 1, 1, 609);
   (42925, 1, 1, 620); (42926, 1, 1, 618); (42928, 1, 1, 670); (42929, 1, 1, 647);
   (42930, 1, 1, 669); (42931, 1, 1, 43859); (42932, 8, 2, 42933); (42948, 1, 1, 42900);
   (42949, 1, 1, 642); (42950, 1, 1, 7566); (42951, 2, 2, 42952); (42960, 1, 1, 42961);
   (42966, 2, 2, 42967); (42997, 1, 1, 42998); (65313, 26, 1, 65345); (66560, 40, 1, 66600);
   (66736, 36, 1, 66776); (66928, 11, 1, 66967); (66940, 15, 1, 66979); (66956, 7, 1, 66995);
   (66964, 2, 1, 67003); (68736, 51, 1, 68800); (71840, 32, 1, 71872); (93760, 32, 1, 93792);
   (125184, 34, 1, 125218)
  ]%N.

(** The code points that are cased and not case-ignorable, as ranges. *)
Definition cased : list (N * N) :=
  [
   (65, 90); (97, 122); (170, 170); (181, 181); (186, 186); (192, 214);
   (216, 246); (248, 442); (444, 447); (452, 659); (661, 687); (880, 883);
   (886, 887); (891, 893); (895, 895); (902, 902); (904, 906); (908, 908);
   (910, 929); (931, 1013); (1015, 1153); (1162, 1327); (1329, 1366); (1376, 1416);
   (4256, 4293); (4295, 4295); (4301, 4301); (4304, 4346); (4349, 4351); (5024, 5109);
   (5112, 5117); (7296, 7304); (7312, 7354); (7357, 7359); (7424, 7467); (7531, 7543);
   (7545, 7578); (7680, 7957); (7960, 7965); (7968, 8005); (8008, 8013); (8016, 8023);
   (8025, 8025); (8027, 8027); (8029, 8029); (8031, 8061); (8064, 8116); (8118, 8124);
   (8126, 8126); (8130, 8132); (8134, 8140); (8144, 8147); (8150, 8155); (8160, 8172);
   (8178, 8180); (8182, 8188); (8450, 8450); (8455, 8455); (8458, 8467); (8469, 8469);
   (8473, 8477); (8484, 8484); (8486, 8486); (8488, 8488); (8490, 8493); (8495, 8500);
   (8505, 8505); (8508, 8511); (8517, 8521); (8526, 8526); (8544, 8575); (8579, 8580);
   (9398, 9449); (11264, 11387); (11390, 11492); (11499, 11502); (11506, 11507); (11520, 11557);
   (11559, 11559); (11565, 11565); (42560, 42605); (42624, 42651); (42786, 42863); (42865, 42887);
   (42891, 42894); (42896, 42954); (42960, 42961); (42963, 42963); (42965, 42969); (42997, 42998);
   (43002, 43002); (43824, 43866); (43872, 43880); (43888, 43967); (64256, 64262); (64275, 64279);
   (65313, 65338); (65345, 65370); (66560, 66639); (66736, 66771); (66776, 66811); (66928, 66938);
   (66940, 66954); (66956, 66962); (66964, 66965); (66967, 66977); (66979, 66993); (66995, 67001);
   (67003, 67004); (68736, 68786); (68800, 68850); (71840, 71903); (93760, 93823); (119808, 119892);
   (119894, 119964); (119966, 119967); (119970, 119970); (119973, 119974); (119977, 119980); (119982, 119993);
   (119995, 119995); (119997, 120003); (120005, 120069); (120071, 120074); (120077, 120084); (120086, 120092);
   (120094, 120121); (120123, 120126); (120128, 120132); (120134, 120134); (120138, 120144); (120146, 120485);
   (120488, 120512); (120514, 120538); (120540, 120570); (120572, 120596); (120598, 120628); (120630, 120654);
   (120656, 120686); (120688, 120712); (120714, 120744); (120746, 120770); (120772, 120779); (122624, 122633);
   (122635, 122654); (125184, 125251); (127280, 127305); (127312, 127337); (127344, 127369)
  ]%N.

(** The case-ignorable code points, as ranges. *)
Definition case_ignorable : list (N * N) :=
  [
   (39, 39); (46, 46); (58, 58); (94, 94); (96, 96); (168, 168);
   (173, 173); (175, 175); (180, 180); (183, 184); (688, 879); (884, 885);
   (890, 890); (900, 901); (903, 903); (1155, 1161); (1369, 1369); (1375, 1375);
   (1425, 1469); (1471, 1471); (1473, 1474); (1476, 1477); (1479, 1479); (1524, 1524);
   (1536, 1541); (1552, 1562); (1564, 1564); (1600, 1600); (1611, 1631); (1648, 1648);
   (1750, 1757); (1759, 1768); (1770, 1773); (1807, 1807); (1809, 1809); (1840, 1866);
   (1958, 1968); (2027, 2037); (2042, 2042); (2045, 2045); (2070, 2093); (2137, 2139);
   (2184, 2184); (2192, 2193); (2200, 2207); (2249, 2306); (2362, 2362); (2364, 2364);
   (2369, 2376); (2381, 2381); (2385, 2391); (2402, 2403); (2417, 2417); (2433, 2433);
   (2492, 2492); (2497, 2500); (2509, 2509); (2530, 2531); (2558, 2558); (2561, 2562);
   (2620, 2620); (2625, 2626); (2631, 2632); (2635, 2637); (2641, 2641); (2672, 2673);
   (2677, 2677); (2689, 2690); (2748, 2748); (2753, 2757); (2759, 2760); (2765, 2765);
   (2786, 2787); (2810, 2815); (2817, 2817); (2876, 2876); (2879, 2879); (2881, 2884);
   (2893, 2893); (2901, 2902); (2914, 2915); (2946, 2946); (3008, 3008); (3021, 3021);
   (3072, 3072); (3076, 3076); (3132, 3132); (3134, 3136); (3142, 3144); (3146, 3149);
   (3157, 3158); (3170, 3171); (3201, 3201); (3260, 3260); (3263, 3263); (3270, 3270);
   (3276, 3277); (3298, 3299); (3328, 3329); (3387, 3388); (3393, 3396); (3405, 3405);
   (3426, 3427); (3457, 3457); (3530, 3530); (3538, 3540); (3542, 3542); (3633, 3633);
   (3636, 3642); (3654, 3662); (3761, 3761); (3764, 3772); (3782, 3782); (3784, 3789);
   (3864, 3865); (3893, 3893); (3895, 3895); (3897, 3897); (3953, 3966); (3968, 3972);
   (3974, 3975); (3981, 3991); (3993, 4028); (4038, 4038); (4141, 4144); (4146, 4151);
   (4153, 4154); (4157, 4158); (4184, 4185); (4190, 4192); (4209, 4212); (4226, 4226);
   (4229, 4230); (4237, 4237); (4253, 4253); (4348, 4348); (4957, 4959); (5906, 5908);
   (5938, 5939); (5970, 5971); (6002, 6003); (6068, 6069); (6071, 6077); (6086, 6086);
   (6089, 6099); (6103, 6103); (6109, 6109); (6155, 6159); (6211, 6211); (6277, 6278);
   (6313, 6313); (6432, 6434); (6439, 6440); (6450, 6450); (6457, 6459); (6679, 6680);
   (6683, 6683); (6742, 6742); (6744, 6750); (6752, 6752); (6754, 6754); (6757, 6764);
   (6771, 6780); (6783, 6783); (6823, 6823); (6832, 6862); (6912, 6915); (6964, 6964);
   (6966, 6970); (6972, 6972); (6978, 6978); (7019, 7027); (7040, 7041); (7074, 7077);
   (7080, 7081); (7083, 7085); (7142, 7142); (7144, 7145); (7149, 7149); (7151, 7153);
   (7212, 7219); (7222, 7223); (7288, 7293); (7376, 7378); (7380, 7392); (7394, 7400);
   (7405, 7405); (7412, 7412); (7416, 7417); (7468, 7530); (7544, 7544); (7579, 7679);
   (8125, 8125); (8127, 8129); (8141, 8143); (8157, 8159); (8173, 8175); (8189, 8190);
   (8203, 8207); (8216, 8217); (8228, 8228); (8231, 8231); (8234, 8238); (8288, 8292);
   (8294, 8303); (8305, 8305); (8319, 8319); (8336, 8348); (8400, 8432); (11388, 11389);
   (11503, 11505); (11631, 11631); (11647, 11647); (11744, 11775); (11823, 11823); (12293, 12293);
   (12330, 12333); (12337, 12341); (12347, 12347); (12441, 12446); (12540, 12542); (40981, 40981);
   (42232, 42237); (42508, 42508); (42607, 42610); (42612, 42621); (42623, 42623); (42652, 42655);
   (42736, 42737); (42752, 42785); (42864, 42864); (42888, 42890); (42994, 42996); (43000, 43001);
   (43010, 43010); (43014, 43014); (43019, 43019); (43045, 43046); (43052, 43052); (43204, 43205);
   (43232, 43249); (43263, 43263); (43302, 43309); (43335, 43345); (43392, 43394); (43443, 43443);
   (43446, 43449); (43452, 43453); (43471, 43471); (43493, 43494); (43561, 43566); (43569, 43570);
   (43573, 43574); (43587, 43587); (43596, 43596); (43632, 43632); (43644, 43644); (43696, 43696);
   (43698, 43700); (43703, 43704); (43710, 43711); (43713, 43713); (43741, 43741); (43756, 43757);
   (43763, 43764); (43766, 43766); (43867, 43871); (43881, 43883); (44005, 44005); (44008, 44008);
   (44013, 44013); (64286, 64286); (64434, 64450); (65024, 65039); (65043, 65043); (65056, 65071);
   (65106, 65106); (65109, 65109); (65279, 65279); (65287, 65287); (65294, 65294); (65306, 65306);
   (65342, 65342); (65344, 65344); (65392, 65392); (65438, 65439); (65507, 65507); (65529, 65531);
   (66045, 66045); (66272, 66272); (66422, 66426); (67456, 67461); (67463, 67504); (67506, 67514);
   (68097, 68099); (68101, 68102); (68108, 68111); (68152, 68154); (68159, 68159); (68325, 68326);
   (68900, 68903); (69291, 69292); (69446, 69456); (69506, 69509); (69633, 69633); (69688, 69702);
   (69744, 69744); (69747, 69748); (69759, 69761); (69811, 69814); (69817, 69818); (69821, 69821);
   (69826, 69826); (69837, 69837); (69888, 69890); (69927, 69931); (69933, 69940); (70003, 70003);
   (70016, 70017); (70070, 70078); (70089, 70092); (70095, 70095); (70191, 70193); (70196, 70196);
   (70198, 70199); (70206, 70206); (70367, 70367); (70371, 70378); (70400, 70401); (70459, 70460);
   (70464, 70464); (70502, 70508); (70512, 70516); (70712, 70719); (70722, 70724); (70726, 70726);
   (70750, 70750); (70835, 70840); (70842, 70842); (70847, 70848); (70850, 70851); (71090, 71093);
   (71100, 71101); (71103, 71104); (71132, 71133); (71219, 71226); (71229, 71229); (71231, 71232);
   (71339, 71339); (71341, 71341); (71344, 71349); (71351, 71351); (71453, 71455); (71458, 71461);
   (71463, 71467); (71727, 71735); (71737, 71738); (71995, 71996); (71998, 71998); (72003, 72003);
   (72148, 72151); (72154, 72155); (72160, 72160); (72193, 72202); (72243, 72248); (72251, 72254);
   (72263, 72263); (72273, 72278); (72281, 72283); (72330, 72342); (72344, 72345); (72752, 72758);
   (72760, 72765); (72767, 72767); (72850, 72871); (72874, 72880); (72882, 72883); (72885, 72886);
   (73009, 73014); (73018, 73018); (73020, 73021); (73023, 73029); (73031, 73031); (73104, 73105);
   (73109, 73109); (73111, 73111); (73459, 73460); (78896, 78904); (92912, 92916); (92976, 92982);
   (92992, 92995); (94031, 94031); (94095, 94111); (94176, 94177); (94179, 94180); (110576, 110579);
   (110581, 110587); (110589, 110590); (113821, 113822); (113824, 113827); (118528, 118573); (118576, 118598);
   (119143, 119145); (119155, 119170); (119173, 119179); (119210, 119213); (119362, 119364); (121344, 121398);
   (121403, 121452); (121461, 121461); (121476, 121476); (121499, 121503); (121505, 121519); (122880, 122886);
   (122888, 122904); (122907, 122913); (122915, 122916); (122918, 122922); (123184, 123197); (123566, 123566);
   (123628, 123631); (125136, 125142); (125252, 125259); (127995, 127999); (917505, 917505); (917536, 917631);
   (917760, 917999)
  ]%N.

Fixpoint run_lookup (runs : list (N * N * N * N)) (c : N) : option N :=
  match runs with
  | [] => None
  | (first, count, step, image) :: rest =>
      if ((first <=? c) && (c <? first + count * step)
          && ((c - first) mod step =? 0))%N
      then Some (image + (c - first))%N
      else run_lookup rest c
  end.

(** The lowercase mapping of one code point; U+0130 is the one code point
    whose mapping has two. *)
Definition lower_cp (c : N) : list N :=
  if (c =? 304)%N then [105; 775]%N
  else match run_lookup lower_runs c with
       | Some image => [image]
       | None => [c]
       end.

(** The first code point of [cps] that is not case-ignorable is cased. *)
Fixpoint cased_first (cps : list N) : bool :=
  match cps with
  | [] => false
  | c :: r => if in_ranges case_ignorable c then cased_first r else in_ranges cased c
  end.

(** A capital sigma (U+03A3) is final when a cased letter comes before it and
    none comes after it, case-ignorable characters apart. *)
Definition final_sigma (before_rev after : list N) : bool :=
  cased_first before_rev && negb (cased_first after).

Fixpoint lower_from (before_rev cps : list N) : list N :=
  match cps with
  | [] => []
  | c :: r =>
      ((if (c =? 931)%N
        then [if final_sigma before_rev r then 962 else 963]%N
        else lower_cp c)
       ++ lower_from (c :: before_rev) r)%list
  end.

(** [s.lower()], on code points *)
Definition lower (cps : list N) : list N := lower_from [] cps.

Fixpoint lstrip (cps : list N) : list N :=
  match cps with
  | [] => []
  | c :: r => if is_space c then lstrip r else cps
  end.

Fixpoint rstrip (cps : list N) : list N :=
  match cps with
  | [] => []
  | c :: r =>
      match rstrip r with
      | [] => if is_space c then [] else [c]
      | r' => c :: r'
      end
  end.

(** [s.strip()], on code points *)
Definition strip (cps : list N) : list N := rstrip (lstrip cps).

End Unicode.

(** ** Python strings *)

Module PyStr.

(** [s.strip()] *)
Definition strip (s : string) : string :=
  Utf8.encode (Unicode.strip (Utf8.decode s)).

(** [s.lower()] *)
Definition lower (s : string) : string :=
  Utf8.encode (Unicode.lower (Utf8.decode s)).

(** [s.split(sep)] for a one-character separator: never the empty list. *)
Fixpoint split (sep : ascii) (s : string) : list string :=
  match s with
  | EmptyString => [EmptyString]
  | String c r =>
      if Ascii.eqb c sep then EmptyString :: split sep r
      else match split sep r with
           | h :: t => String c h :: t
           | [] => [String c EmptyString]
           end
  end.

Fixpoint contains_char (c : ascii) (s : string) : bool :=
  match s with
  | EmptyString => false
  | String d r => Ascii.eqb c d || contains_char c r
  end.

Definition hex_digit (n : nat) : ascii :=
  if (n <? 10)%nat then ascii_of_nat (48 + n) else ascii_of_nat (87 + n).

(** One character of [repr(s)], for the quote character [q]. *)
Definition repr_char (q c : ascii) : string :=
  let n := nat_of_ascii c in
  if Ascii.eqb c q || Ascii.eqb c "\"%char then String "\"%char (String c EmptyString)
  else if (n =? 9)%nat then "\t"
  else if (n =? 10)%nat then "\n"
  else if (n =? 13)%nat then "\r"
  else if (n <? 32)%nat || (n =? 127)%nat then
    String "\"%char (String "x"%char
      (String (hex_digit (n / 16)) (String (hex_digit (n mod 16)) EmptyString)))
  else String c EmptyString.

Fixpoint repr_body (q : ascii) (s : string) : string :=
  match s with
  | EmptyString => EmptyString
  | String c r => repr_char q c ++ repr_body q r
  end.

(** [repr(s)]: single quotes, unless the string has a single quote and no
    double quote. *)
Definition double_quote : ascii := "034"%char.

Definition repr (s : string) : string :=
  let q := if contains_char "'"%char s && negb (contains_char double_quote s)
           then double_quote else "'"%char in
  String q (repr_body q s ++ String q EmptyString).

(** [str(z)] for an integer. *)
Definition of_Z (z : Z) : string := NilZero.string_of_int (Z.to_int z).

End PyStr.

(** ** Python values and exceptions *)

#[warnings="-register-all"]
Inductive pyval : Type :=
| PNone
| PBool (b : bool)
| PInt (z : Z)
| PStr (s : string)
| PList (l : list pyval)
| PDict (d : list (string * pyval)).

Inductive exn_class : Type :=
| ConnectionError   (* requests: transport failures, timeouts *)
| HTTPError         (* requests: raise_for_status *)
| JSONDecodeError   (* requests: Response.json on a malformed body *)
| KeyError
| AttributeError
| TypeError
| ValueError
| NameError
| IndexError
| PlainException.   (* raise Exception(...) *)

Record exn : Type := mkExn { exn_cls : exn_class; exn_msg : string }.

(** [isinstance(e, requests.exceptions.RequestException)] *)
Definition isinstance_RequestException (e : exn) : bool :=
  match exn_cls e with
  | ConnectionError | HTTPError | JSONDecodeError => true
  | _ => false
  end.

(** [isinstance(e, Exception)]: every modelled exception. *)
Definition isinstance_Exception (e : exn) : bool := true.

Inductive result (A : Type) : Type :=
| Ok (a : A)
| Raise (e : exn).
Arguments Ok {A} a.
Arguments Raise {A} e.

Definition rbind {A B} (r : result A) (k : A -> result B) : result B :=
  match r with
  | Ok a => k a
  | Raise e => Raise e
  end.

Module Py.

Definition type_name (v : pyval) : string :=
  match v with
  | PNone => "NoneType"
  | PBool _ => "bool"
  | PInt _ => "int"
  | PStr _ => "str"
  | PList _ => "list"
  | PDict _ => "dict"
  end.

(** [bool(v)] *)
Definition truthy (v : pyval) : bool :=
  match v with
  | PNone => false
  | PBool b => b
  | PInt z => negb (z =? 0)
  | PStr s => negb (String.eqb s "")
  | PList l => match l with [] => false | _ => true end
  | PDict d => match d with [] => false | _ => true end
  end.

Fixpoint lookup (k : string) (d : list (string * pyval)) : option pyval :=
  match d with
  | [] => None
  | (k', v) :: r => if String.eqb k k' then Some v else lookup k r
  end.

(** [a == b].  [bool] is a subclass of [int]; dictionaries compare as
    mappings. *)
Fixpoint eq (a b : pyval) {struct a} : bool :=
  match a, b with
  | PNone, PNone => true
  | PBool x, PBool y => Bool.eqb x y
  | PBool x, PInt y => (if x then 1 else 0) =? y
  | PInt x, PBool y => x =? (if y then 1 else 0)
  | PInt x, PInt y => x =? y
  | PStr x, PStr y => String.eqb x y
  | PList x, PList y =>
      (fix eq_list (x y : list pyval) {struct x} : bool :=
         match x, y with
         | [], [] => true
         | u :: x', v :: y' => eq u v && eq_list x' y'
         | _, _ => false
         end) x y
  | PDict x, PDict y =>
      (length x =? length y)%nat &&
      (fix eq_dict (x : list (string * pyval)) {struct x} : bool :=
         match x with
         | [] => true
         | (k, u) :: x' =>
             match lookup k y with
             | Some v => eq u v && eq_dict x'
             | None => false
             end
         end) x
  | _, _ => false
  end.

Fixpoint join (sep : string) (l : list string) : string :=
  match l with
  | [] => ""
  | [x] => x
  | x :: r => x ++ sep ++ join sep r
  end.

(** [repr(v)] *)
Fixpoint repr (v : pyval) : string :=
  match v with
  | PNone => "None"
  | PBool b => if b then "True" else "False"
  | PInt z => PyStr.of_Z z
  | PStr s => PyStr.repr s
  | PList l => "[" ++ join ", " (map repr l) ++ "]"
  | PDict d =>
      "{" ++ join ", "
        ((fix items (d : list (string * pyval)) : list string :=
            match d with
            | [] => []
            | (k, x) :: r => (PyStr.repr k ++ ": " ++ repr x) :: items r
            end) d) ++ "}"
  end.

(** [str(v)], as an f-string interpolates it. *)
Definition str (v : pyval) : string :=
  match v with
  | PStr s => s
  | _ => repr v
  end.

(** [v[k]] for a string key [k]. *)
Definition getitem (v : pyval) (k : string) : result pyval :=
  match v with
  | PDict d =>
      match lookup k d with
      | Some x => Ok x
      | None => Raise (mkExn KeyError (PyStr.repr k))
      end
  | PList _ =>
      Raise (mkExn TypeError "list indices must be integers or slices, not str")
  | PStr _ =>
      Raise (mkExn TypeError "string indices must be integers, not 'str'")
  | _ =>
      Raise (mkExn TypeError ("'" ++ type_name v ++ "' object is not subscriptable"))
  end.

(** [v.get(k, default)] *)
Definition get (v : pyval) (k : string) (default : pyval) : result pyval :=
  match v with
  | PDict d =>
      match lookup k d with
      | Some x => Ok x
      | None => Ok default
      end
  | _ =>
      Raise (mkExn AttributeError
               ("'" ++ type_name v ++ "' object has no attribute 'get'"))
  end.

(** The characters of a string, each as a string of length one. *)
Definition chars (s : string) : list pyval :=
  map (fun c => PStr (Utf8.encode [c])) (Utf8.decode s).

(** The elements a [for] loop over [v] visits. *)
Definition iter (v : pyval) : result (list pyval) :=
  match v with
  | PList l => Ok l
  | PDict d => Ok (map (fun kv => PStr (fst kv)) d)
  | PStr s => Ok (chars s)
  | _ => Raise (mkExn TypeError ("'" ++ type_name v ++ "' object is not iterable"))
  end.

(** [v.strip()] *)
Definition strip (v : pyval) : result string :=
  match v with
  | PStr s => Ok (PyStr.strip s)
  | _ =>
      Raise (mkExn AttributeError
               ("'" ++ type_name v ++ "' object has no attribute 'strip'"))
  end.

End Py.

(** ** The world: HTTP requests, responses, program state *)

Record request : Type := mkRequest {
  req_method : string;
  req_url : string;
  req_headers : list (string * string);
  req_json : option pyval;     (* the [json=] argument *)
  req_timeout : option Z       (* the [timeout=] argument *)
}.

(** A response as the script reads it.  [json_body] is what [Response.json()]
    makes of the body: [inr v] for a body that decodes to [v], [inl msg] for a
    malformed body, with the decoder's message. *)
Record response : Type := mkResponse {
  status_code : Z;
  reason : string;
  text : string;
  json_body : string + pyval
}.

(** What [requests.request] does with a request: it raises an exception of
    the [RequestException] family (connection refused, timeout, ...) or it
    returns a response. *)
Inductive http_outcome : Type :=
| TransportError (msg : string)
| Answered (r : response).

(** The network: the outcome of the [n]-th request of the run. *)
Definition network : Type := nat -> request -> http_outcome.

(** The mutable part of the process.  The warn-once globals are [None] as long
    as the name is not bound in the module. *)
Record state : Type := mkState {
  shown_ipv4_warning : option bool;
  shown_ipv6_warning : option bool;
  shown_ipv6_warning_secondary : option bool;
  calls : list request;     (* requests issued, oldest first *)
  stdout : list string;     (* lines printed, oldest first *)
  sleeps : list Z           (* arguments of time.sleep, oldest first *)
}.

(** ** Configuration *)

Record authentication_t : Type := mkAuth {
  api_token : option string;
  api_key : option (string * string)    (* account_email, api_key *)
}.

(** One entry of [config["cloudflare"]]. *)
Record account : Type := mkAccount {
  zone_id : string;
  authentication : authentication_t;
  proxied : option pyval;     (* the "proxied" key, when present *)
  subdomains : list pyval
}.

Record config_t : Type := mkConfig {
  cloudflare : list account;
  config_ttl : option Z;      (* the "ttl" key, when present *)
  config_other : list (string * pyval)
                              (* the other keys of config.json; the script
                                 reads none of them *)
}.

(** The module globals that are set once in [__main__]. *)
Record globals : Type := mkGlobals {
  config : config_t;
  ttl : Z;
  ipv4_enabled : bool;
  ipv6_enabled : bool;
  purgeUnknownRecords : bool
}.

(** A detected address: [{"type": ..., "ip": ...}]. *)
Record ip_t : Type := mkIp {
  ip_type : string;
  ip_addr : pyval
}.

(** The dictionary [prepareDNSRecord] builds. *)
Record record_t : Type := mkRecord {
  rec_type : string;
  rec_name : pyval;
  rec_content : pyval;
  rec_proxied : pyval;
  rec_ttl : Z
}.

Definition record_json (r : record_t) : pyval :=
  PDict [("type", PStr (rec_type r)); ("name", rec_name r);
         ("content", rec_content r); ("proxied", rec_proxied r);
         ("ttl", PInt (rec_ttl r))].

Definition ip_json (ip : ip_t) : pyval :=
  PDict [("type", PStr (ip_type ip)); ("ip", ip_addr ip)].

(** ** The state-and-exception monad *)

Definition M (A : Type) : Type := state -> result A * state.

Definition ret {A} (a : A) : M A := fun s => (Ok a, s).

Definition bind {A B} (m : M A) (k : A -> M B) : M B :=
  fun s =>
    match m s with
    | (Ok a, s') => k a s'
    | (Raise e, s') => (Raise e, s')
    end.

Definition raise {A} (e : exn) : M A := fun s => (Raise e, s).

Definition lift {A} (r : result A) : M A := fun s => (r, s).

(** [try: m  except C as e: h e], where [handles] decides [isinstance(e, C)]. *)
Definition try_except {A} (m : M A) (handles : exn -> bool) (h : exn -> M A) : M A :=
  fun s =>
    match m s with
    | (Ok a, s') => (Ok a, s')
    | (Raise e, s') => if handles e then h e s' else (Raise e, s')
    end.

Declare Scope monad_scope.
Delimit Scope monad_scope with monad.
Notation "x <- m ;; k" := (bind m (fun x => k))
  (at level 61, m at next level, right associativity) : monad_scope.
Notation "m ;; k" := (bind m (fun _ => k))
  (at level 61, right associativity) : monad_scope.
Open Scope monad_scope.

Fixpoint for_each {A} (l : list A) (body : A -> M unit) : M unit :=
  match l with
  | [] => ret tt
  | x :: r => body x ;; for_each r body
  end.

Definition add_line (line : string) (s : state) : state :=
  mkState (shown_ipv4_warning s) (shown_ipv6_warning s)
    (shown_ipv6_warning_secondary s) (calls s) (stdout s ++ [line]) (sleeps s).

Definition print (line : string) : M unit := fun s => (Ok tt, add_line line s).

Definition time_sleep (seconds : Z) : M unit :=
  fun s => (Ok tt, mkState (shown_ipv4_warning s) (shown_ipv6_warning s)
                     (shown_ipv6_warning_secondary s) (calls s)
                     (stdout s) (sleeps s ++ [seconds])).

Definition record_call (r : request) (s : state) : state :=
  mkState (shown_ipv4_warning s) (shown_ipv6_warning s)
    (shown_ipv6_warning_secondary s) (calls s ++ [r]) (stdout s) (sleeps s).

(** Reading a global: [NameError] when the name is not bound. *)
Definition read_global (field : state -> option bool) (name : string) : M bool :=
  fun s =>
    match field s with
    | Some b => (Ok b, s)
    | None => (Raise (mkExn NameError ("name '" ++ name ++ "' is not defined")), s)
    end.

Definition set_shown_ipv4_warning (b : bool) : M unit :=
  fun s => (Ok tt, mkState (Some b) (shown_ipv6_warning s)
                     (shown_ipv6_warning_secondary s) (calls s) (stdout s) (sleeps s)).

Definition set_shown_ipv6_warning (b : bool) : M unit :=
  fun s => (Ok tt, mkState (shown_ipv4_warning s) (Some b)
                     (shown_ipv6_warning_secondary s) (calls s) (stdout s) (sleeps s)).

Definition set_shown_ipv6_warning_secondary (b : bool) : M unit :=
  fun s => (Ok tt, mkState (shown_ipv4_warning s) (shown_ipv6_warning s)
                     (Some b) (calls s) (stdout s) (sleeps s)).

(** ** The [requests] library, as far as the script uses it *)

(** [Response.raise_for_status()]: [HTTPError] for the statuses 400 to 599,
    nothing for any other status. *)
Definition raise_for_status (url : string) (r : response) : result unit :=
  if (400 <=? status_code r) && (status_code r <? 500) then
    Raise (mkExn HTTPError (PyStr.of_Z (status_code r) ++ " Client Error: "
                              ++ reason r ++ " for url: " ++ url))
  else if (500 <=? status_code r) && (status_code r <? 600) then
    Raise (mkExn HTTPError (PyStr.of_Z (status_code r) ++ " Server Error: "
                              ++ reason r ++ " for url: " ++ url))
  else Ok tt.

(** [Response.json()]: the decoded body, or
    [requests.exceptions.JSONDecodeError], which is a [RequestException]
    (requests 2.27 and later). *)
Definition response_json (r : response) : result pyval :=
  match json_body r with
  | inr v => Ok v
  | inl msg => Raise (mkExn JSONDecodeError msg)
  end.

(** ** The script *)

Section Script.

Variable net : network.
Variable g : globals.

(** [requests.request(method, url, headers=..., json=..., timeout=...)]:
    the request is recorded, the network decides its outcome. *)
Definition requests_request (req : request) : M response :=
  fun s =>
    match net (length (calls s)) req with
    | TransportError msg => (Raise (mkExn ConnectionError msg), record_call req s)
    | Answered r => (Ok r, record_call req s)
    end.

(** [requests.get(url, timeout=...)] *)
Definition requests_get (url : string) (timeout : option Z) : M response :=
  requests_request (mkRequest "GET" url [] None timeout).

(** [[
    def buildHeaders(config):
        if "api_token" in config["authentication"]:
            return {"Authorization": f"Bearer {config['authentication']['api_token']}"}
        else:
            return {
                "X-Auth-Email": config["authentication"]["api_key"]["account_email"],
                "X-Auth-Key": config["authentication"]["api_key"]["api_key"],
            }
    ]] *)
Definition buildHeaders (config : account) : result (list (string * string)) :=
  match api_token (authentication config) with
  | Some token => Ok [("Authorization", "Bearer " ++ token)]
  | None =>
      match api_key (authentication config) with
      | Some (account_email, key) =>
          Ok [("X-Auth-Email", account_email); ("X-Auth-Key", key)]
      | None => Raise (mkExn KeyError "'api_key'")
      end
  end.

(** [[
    def cf_api(endpoint, method, config, headers={}, data=None):
        headers = buildHeaders(config)
        url = f"https://api.cloudflare.com/client/v4/{endpoint}"
        try:
            response = requests.request(method, url, headers=headers, json=data)
            response.raise_for_status()
            return response.json()
        except requests.exceptions.RequestException as e:
            print(f"😡 Error with {method} request to {url}: {e}")
            return None
    ]]
    The [headers] argument is overwritten before it is read. *)
Definition api_url (endpoint : string) : string :=
  "https://api.cloudflare.com/client/v4/" ++ endpoint.

Definition cf_api (endpoint method : string) (config : account)
    (headers : list (string * string)) (data : option pyval) : M pyval :=
  headers <- lift (buildHeaders config) ;;
  let url := api_url endpoint in
  try_except
    (response <- requests_request (mkRequest method url headers data None) ;;
     lift (raise_for_status url response) ;;
     lift (response_json response))
    isinstance_RequestException
    (fun e =>
       print ("😡 Error with " ++ method ++ " request to " ++ url ++ ": " ++ exn_msg e) ;;
       ret PNone).

(** [answer and answer.get("result")] *)
Definition and_get_result (answer : pyval) : result pyval :=
  if Py.truthy answer then Py.get answer "result" PNone else Ok answer.

(** [[
    def deleteEntries(type):
        for option in config["cloudflare"]:
            answer = cf_api(f"zones/{option['zone_id']}/dns_records?per_page=100&type={type}", "GET", option)
            if answer and answer.get("result"):
                for record in answer["result"]:
                    identifier = record["id"]
                    cf_api(f"zones/{option['zone_id']}/dns_records/{identifier}", "DELETE", option)
                    print(f"🗑️ Deleted stale record {identifier}")
    ]]
    [deleteEntries_option] is the body of the outer loop,
    [deleteEntries_record] the body of the inner one. *)
Definition deleteEntries_record (option : account) (record : pyval) : M unit :=
  identifier <- lift (Py.getitem record "id") ;;
  cf_api ("zones/" ++ zone_id option ++ "/dns_records/" ++ Py.str identifier)
    "DELETE" option [] None ;;
  print ("🗑️ Deleted stale record " ++ Py.str identifier).

Definition deleteEntries_option (type : string) (option : account) : M unit :=
  answer <- cf_api ("zones/" ++ zone_id option ++ "/dns_records?per_page=100&type=" ++ type)
              "GET" option [] None ;;
  c <- lift (and_get_result answer) ;;
  if Py.truthy c then
    result <- lift (Py.getitem answer "result") ;;
    records <- lift (Py.iter result) ;;
    for_each records (deleteEntries_record option)
  else ret tt.

Definition deleteEntries (type : string) : M unit :=
  for_each (cloudflare (config g)) (deleteEntries_option type).

Definition ip_detection_services : list string :=
  ["https://api.ipify.org"; "https://icanhazip.com"; "https://ifconfig.me"].

(** [[
    def get_public_ip():
        for service in ip_detection_services:
            try:
                response = requests.get(service, timeout=5)
                if response.status_code == 200:
                    return response.text.strip()
            except requests.RequestException as e:
                print(f"Error with {service}: {e}")
        raise Exception("Failed to detect public IP from all services.")
    ]] *)
Fixpoint get_public_ip_from (services : list string) : M string :=
  match services with
  | [] => raise (mkExn PlainException "Failed to detect public IP from all services.")
  | service :: rest =>
      found <- try_except
                 (response <- requests_get service (Some 5) ;;
                  if status_code response =? 200
                  then ret (Some (PyStr.strip (text response)))
                  else ret None)
                 isinstance_RequestException
                 (fun e => print ("Error with " ++ service ++ ": " ++ exn_msg e) ;;
                           ret None) ;;
      match found with
      | Some ip => ret ip
      | None => get_public_ip_from rest
      end
  end.

Definition get_public_ip : M string := get_public_ip_from ip_detection_services.

(** [lines.pop()]: the list without its last element. *)
Definition list_pop (lines : list string) : result (list string) :=
  match lines with
  | [] => Raise (mkExn IndexError "pop from empty list")
  | _ => Ok (removelast lines)
  end.

(** [dict(s.split("=") for s in lines)]: every element must have exactly two
    parts; a later binding of a key replaces an earlier one. *)
Fixpoint trace_dict (i : nat) (lines : list string) (acc : list (string * string))
    : result (list (string * string)) :=
  match lines with
  | [] => Ok acc
  | s :: rest =>
      match PyStr.split "="%char s with
      | [k; v] => trace_dict (S i) rest ((k, v) :: acc)
      | parts =>
          Raise (mkExn ValueError
                   ("dictionary update sequence element #" ++ PyStr.of_Z (Z.of_nat i)
                      ++ " has length " ++ PyStr.of_Z (Z.of_nat (length parts))
                      ++ "; 2 is required"))
      end
  end.

(** [d["ip"]] on the dictionary built above ([acc] holds the bindings, the
    latest first). *)
Fixpoint trace_lookup (k : string) (acc : list (string * string)) : result string :=
  match acc with
  | [] => Raise (mkExn KeyError (PyStr.repr k))
  | (k', v) :: r => if String.eqb k k' then Ok v else trace_lookup k r
  end.

Definition PStrs (lines : list string) : pyval := PList (map PStr lines).

(** One attempt at the trace endpoint, the body of each [try] of the IPv6
    branch:
    [[
        aaaa = requests.get(url).text.split("\n")
        aaaa.pop()
        aaaa = dict(s.split("=") for s in aaaa)["ip"]
    ]]
    The result is the value of the local [aaaa] when the block is left, and
    the exception that left it, if any: an exception raised after the first
    assignment leaves the list of lines in [aaaa]. *)
Definition trace_attempt (url : string) (aaaa : pyval) : M (pyval * option exn) :=
  fun s =>
    match requests_get url None s with
    | (Raise e, s') => (Ok (aaaa, Some e), s')
    | (Ok response, s') =>
        let lines := PyStr.split "010"%char (text response) in
        match list_pop lines with
        | Raise e => (Ok (PStrs lines, Some e), s')
        | Ok lines' =>
            match rbind (trace_dict 0 lines' []) (trace_lookup "ip") with
            | Raise e => (Ok (PStrs lines', Some e), s')
            | Ok ip => (Ok (PStr ip, None), s')
            end
        end
    end.

Definition when (b : bool) (m : M unit) : M unit := if b then m else ret tt.

(** [[
    def getIPs():
        a = None
        aaaa = None
        if ipv4_enabled:
            try:
                a = get_public_ip()
            except Exception as e:
                global shown_ipv4_warning
                if not shown_ipv4_warning:
                    shown_ipv4_warning = True
                    print(f"🧩 IPv4 detection failed: {e}")
                if purgeUnknownRecords:
                    deleteEntries("A")
        if ipv6_enabled:
            try:
                (trace attempt on 2606:4700:4700::1111)
            except Exception:
                global shown_ipv6_warning
                if not shown_ipv6_warning:
                    shown_ipv6_warning = True
                    print("🧩 IPv6 not detected via 1.1.1.1, trying 1.0.0.1")
                try:
                    (trace attempt on 2606:4700:4700::1001)
                except Exception:
                    global shown_ipv6_warning_secondary
                    if not shown_ipv6_warning_secondary:
                        shown_ipv6_warning_secondary = True
                        print("🧩 IPv6 not detected via 1.0.0.1. ...")
                    if purgeUnknownRecords:
                        deleteEntries("AAAA")
        ips = {}
        if a is not None:
            ips["ipv4"] = {"type": "A", "ip": a}
        if aaaa is not None:
            ips["ipv6"] = {"type": "AAAA", "ip": aaaa}
        return ips
    ]] *)
Definition getIPs_ipv4 : M pyval :=
  if ipv4_enabled g then
    try_except
      (a <- get_public_ip ;; ret (PStr a))
      isinstance_Exception
      (fun e =>
         shown <- read_global shown_ipv4_warning "shown_ipv4_warning" ;;
         when (negb shown)
           (set_shown_ipv4_warning true ;;
            print ("🧩 IPv4 detection failed: " ++ exn_msg e)) ;;
         when (purgeUnknownRecords g) (deleteEntries "A") ;;
         ret PNone)
  else ret PNone.

Definition getIPs_ipv6 : M pyval :=
  if ipv6_enabled g then
    r1 <- trace_attempt "https://[2606:4700:4700::1111]/cdn-cgi/trace" PNone ;;
    match r1 with
    | (aaaa, None) => ret aaaa
    | (aaaa, Some _) =>
        shown <- read_global shown_ipv6_warning "shown_ipv6_warning" ;;
        when (negb shown)
          (set_shown_ipv6_warning true ;;
           print "🧩 IPv6 not detected via 1.1.1.1, trying 1.0.0.1") ;;
        r2 <- trace_attempt "https://[2606:4700:4700::1001]/cdn-cgi/trace" aaaa ;;
        match r2 with
        | (aaaa, None) => ret aaaa
        | (aaaa, Some _) =>
            shown <- read_global shown_ipv6_warning_secondary
                       "shown_ipv6_warning_secondary" ;;
            when (negb shown)
              (set_shown_ipv6_warning_secondary true ;;
               print "🧩 IPv6 not detected via 1.0.0.1. Verify your ISP or DNS provider isn't blocking Cloudflare's IPs.") ;;
            when (purgeUnknownRecords g) (deleteEntries "AAAA") ;;
            ret aaaa
        end
    end
  else ret PNone.

Definition is_not_None (v : pyval) : bool :=
  match v with PNone => false | _ => true end.

Definition getIPs : M (list (string * ip_t)) :=
  a <- getIPs_ipv4 ;;
  aaaa <- getIPs_ipv6 ;;
  ret ((if is_not_None a then [("ipv4", mkIp "A" a)] else [])
         ++ (if is_not_None aaaa then [("ipv6", mkIp "AAAA" aaaa)] else []))%list.

(** [[
    def prepareDNSRecord(subdomain, base_domain_name, ip, option):
        name = subdomain.get("name", subdomain).strip().lower()
        proxied = subdomain.get("proxied", option["proxied"])
        fqdn = f"{name}.{base_domain_name}" if name and name != '@' else base_domain_name
        record = {"type": ip["type"], "name": fqdn, "content": ip["ip"], "proxied": proxied, "ttl": ttl}
        return fqdn, record
    ]] *)
Definition fqdn_of (name : string) (base_domain_name : pyval) : pyval :=
  if negb (String.eqb name "") && negb (String.eqb name "@")
  then PStr (name ++ "." ++ Py.str base_domain_name)
  else base_domain_name.

(** [option["proxied"]] *)
Definition option_proxied (option : account) : result pyval :=
  match proxied option with
  | Some p => Ok p
  | None => Raise (mkExn KeyError "'proxied'")
  end.

Definition prepareDNSRecord (subdomain base_domain_name : pyval) (ip : ip_t)
    (option : account) : result (pyval * record_t) :=
  rbind (Py.get subdomain "name" subdomain) (fun raw =>
  rbind (Py.strip raw) (fun stripped =>
  let name := PyStr.lower stripped in
  rbind (option_proxied option) (fun default =>
  rbind (Py.get subdomain "proxied" default) (fun proxied =>
  let fqdn := fqdn_of name base_domain_name in
  let record := mkRecord (ip_type ip) fqdn (ip_addr ip) proxied (ttl g) in
  Ok (fqdn, record))))).

(** The loop of [processDNSRecord], one record of the listing:
    [[
        if r["name"] == fqdn:
            identifier = r["id"]
            modified = r['content'] != record['content'] or r['proxied'] != record['proxied']
    ]] *)
Definition match_record (fqdn : pyval) (record : record_t)
    (found : pyval * bool) (r : pyval) : result (pyval * bool) :=
  rbind (Py.getitem r "name") (fun name =>
  if Py.eq name fqdn then
    rbind (Py.getitem r "id") (fun identifier =>
    rbind (Py.getitem r "content") (fun content =>
    if negb (Py.eq content (rec_content record)) then Ok (identifier, true)
    else
      rbind (Py.getitem r "proxied") (fun p =>
      Ok (identifier, negb (Py.eq p (rec_proxied record))))))
  else Ok found).

Fixpoint match_records (fqdn : pyval) (record : record_t)
    (found : pyval * bool) (rs : list pyval) : result (pyval * bool) :=
  match rs with
  | [] => Ok found
  | r :: rest =>
      rbind (match_record fqdn record found r) (fun found' =>
      match_records fqdn record found' rest)
  end.

(** What [processDNSRecord] does once the listing call has returned
    [dns_records]. *)
Definition processDNSRecord_listed (fqdn : pyval) (record : record_t)
    (option : account) (dns_records : pyval) : M unit :=
  c <- lift (and_get_result dns_records) ;;
  if Py.truthy c then
    result <- lift (Py.getitem dns_records "result") ;;
    rs <- lift (Py.iter result) ;;
    found <- lift (match_records fqdn record (PNone, false) rs) ;;
    let '(identifier, modified) := found in
    if Py.truthy identifier && modified then
      print ("📡 Updating record " ++ Py.repr (record_json record)) ;;
      cf_api ("zones/" ++ zone_id option ++ "/dns_records/" ++ Py.str identifier)
        "PUT" option [] (Some (record_json record)) ;;
      ret tt
    else if negb (Py.truthy identifier) then
      print ("➕ Adding new record " ++ Py.repr (record_json record)) ;;
      cf_api ("zones/" ++ zone_id option ++ "/dns_records")
        "POST" option [] (Some (record_json record)) ;;
      ret tt
    else ret tt
  else ret tt.

(** [[
    def processDNSRecord(fqdn, record, record_type, option):
        dns_records = cf_api(f"zones/{option['zone_id']}/dns_records?per_page=100&type={record_type}", "GET", option)
        if dns_records and dns_records.get("result"):
            identifier = None
            modified = False
            for r in dns_records["result"]:
                (match_record)
            if identifier and modified:
                print(f"📡 Updating record {record}")
                cf_api(f"zones/{option['zone_id']}/dns_records/{identifier}", "PUT", option, {}, record)
            elif not identifier:
                print(f"➕ Adding new record {record}")
                cf_api(f"zones/{option['zone_id']}/dns_records", "POST", option, {}, record)
    ]] *)
Definition processDNSRecord (fqdn : pyval) (record : record_t)
    (record_type : string) (option : account) : M unit :=
  dns_records <- cf_api ("zones/" ++ zone_id option
                           ++ "/dns_records?per_page=100&type=" ++ record_type)
                   "GET" option [] None ;;
  processDNSRecord_listed fqdn record option dns_records.

(** [[
    def commitRecord(ip):
        for option in config["cloudflare"]:
            subdomains = option["subdomains"]
            response = cf_api(f"zones/{option['zone_id']}", "GET", option)
            if response and response.get("result"):
                base_domain_name = response["result"]["name"]
                for subdomain in subdomains:
                    fqdn, record = prepareDNSRecord(subdomain, base_domain_name, ip, option)
                    processDNSRecord(fqdn, record, ip["type"], option)
    ]] *)
Definition commitRecord (ip : ip_t) : M unit :=
  for_each (cloudflare (config g)) (fun option =>
    response <- cf_api ("zones/" ++ zone_id option) "GET" option [] None ;;
    c <- lift (and_get_result response) ;;
    if Py.truthy c then
      result <- lift (Py.getitem response "result") ;;
      base_domain_name <- lift (Py.getitem result "name") ;;
      for_each (subdomains option) (fun subdomain =>
        p <- lift (prepareDNSRecord subdomain base_domain_name ip option) ;;
        let '(fqdn, record) := p in
        processDNSRecord fqdn record (ip_type ip) option)
    else ret tt).

Definition ips_json (ips : list (string * ip_t)) : pyval :=
  PDict (map (fun kv => (fst kv, ip_json (snd kv))) ips).

(** [[
    def updateIPs(ips):
        print(f"🔄 Updating IPs: {ips}")
        for ip in ips.values():
            try:
                commitRecord(ip)
                print(f"✅ Successfully updated {ip['type']} record to {ip['ip']}")
            except Exception as e:
                print(f"❌ Failed to update {ip['type']} record: {e}")
    ]] *)
Definition updateIPs (ips : list (string * ip_t)) : M unit :=
  print ("🔄 Updating IPs: " ++ Py.repr (ips_json ips)) ;;
  for_each (map snd ips) (fun ip =>
    try_except
      (commitRecord ip ;;
       print ("✅ Successfully updated " ++ ip_type ip ++ " record to "
                ++ Py.str (ip_addr ip)))
      isinstance_Exception
      (fun e => print ("❌ Failed to update " ++ ip_type ip ++ " record: " ++ exn_msg e))).

(** One turn of the loop of [__main__]:
    [[
        ips = getIPs()
        updateIPs(ips)
        time.sleep(ttl)
    ]] *)
Definition poll_cycle : M unit :=
  ips <- getIPs ;;
  updateIPs ips ;;
  time_sleep (ttl g).

(** [while not killer.kill_now.is_set(): ...], where [kill_now] lists what
    [is_set()] answers at the top of each turn.  An exception leaves the
    loop: nothing in [__main__] catches it. *)
Fixpoint poll_loop (kill_now : list bool) : M unit :=
  match kill_now with
  | [] => ret tt
  | true :: _ => ret tt
  | false :: later => poll_cycle ;; poll_loop later
  end.

End Script.

(** [__main__], after the configuration is loaded:
    [[
        ipv4_enabled = True
        ipv6_enabled = True
        purgeUnknownRecords = False
        ...
        ttl = config.get("ttl", 300)
        ttl = max(ttl, 1)
    ]] *)
Definition main_ttl (cfg : config_t) : Z :=
  let ttl := match config_ttl cfg with Some t => t | None => 300 end in
  Z.max ttl 1.

Definition main_globals (cfg : config_t) : globals :=
  mkGlobals cfg (main_ttl cfg) true true false.

(** The state in which the loop starts: the warn-once names are not bound
    anywhere in the module.  The lines printed while the configuration is
    loaded are not recorded. *)
Definition initial_state : state := mkState None None None [] [] [].

(** The whole run, for a given network and schedule of the stop flag. *)
Definition main (net : network) (cfg : config_t) (kill_now : list bool)
    : result unit * state :=
  poll_loop net (main_globals cfg) kill_now initial_state.

(** * Vocabulary of the properties *)

(** ** The provider client *)

Definition error_line (method url msg : string) : string :=
  "😡 Error with " ++ method ++ " request to " ++ url ++ ": " ++ msg.

(** The exception, if any, that the [try] block of [cf_api] raises on a given
    outcome of the request. *)
Definition failure_of (url : string) (o : http_outcome) : option exn :=
  match o with
  | TransportError msg => Some (mkExn ConnectionError msg)
  | Answered r =>
      match raise_for_status url r with
      | Raise e => Some e
      | Ok _ =>
          match response_json r with
          | Raise e => Some e
          | Ok _ => None
          end
      end
  end.

(** The request [cf_api] sends, given the headers of the account. *)
Definition cf_request (h : list (string * string)) (endpoint method : string)
    (data : option pyval) : request :=
  mkRequest method (api_url endpoint) h data None.

(** The three ways a provider call fails. *)
Definition transport_error (o : http_outcome) : Prop :=
  exists msg, o = TransportError msg.

Definition error_status (o : http_outcome) : Prop :=
  exists r, o = Answered r /\ 400 <= status_code r < 600.

Definition malformed_json (o : http_outcome) : Prop :=
  exists r msg, o = Answered r /\ json_body r = inl msg.

(** A status outside 200..299. *)
Definition non_2xx (r : response) : bool :=
  negb ((200 <=? status_code r) && (status_code r <? 300)).

(** ** The reconciler *)

Definition listing_endpoint (option : account) (record_type : string) : string :=
  "zones/" ++ zone_id option ++ "/dns_records?per_page=100&type=" ++ record_type.

Definition records_endpoint (option : account) : string :=
  "zones/" ++ zone_id option ++ "/dns_records".

Definition record_endpoint (option : account) (identifier : pyval) : string :=
  "zones/" ++ zone_id option ++ "/dns_records/" ++ Py.str identifier.

(** The four provider calls on DNS records. *)
Definition list_request (h : list (string * string)) (option : account)
    (record_type : string) : request :=
  cf_request h (listing_endpoint option record_type) "GET" None.

Definition post_request (h : list (string * string)) (option : account)
    (record : record_t) : request :=
  cf_request h (records_endpoint option) "POST" (Some (record_json record)).

Definition put_request (h : list (string * string)) (option : account)
    (identifier : pyval) (record : record_t) : request :=
  cf_request h (record_endpoint option identifier) "PUT" (Some (record_json record)).

Definition delete_request (h : list (string * string)) (option : account)
    (identifier : pyval) : request :=
  cf_request h (record_endpoint option identifier) "DELETE" None.

(** A write call: POST, PUT or DELETE. *)
Definition is_write (r : request) : bool :=
  String.eqb (req_method r) "POST" || String.eqb (req_method r) "PUT"
  || String.eqb (req_method r) "DELETE".

(** The requests issued between the states [s] and [s']. *)
Definition issued_since (s s' : state) : list request :=
  skipn (length (calls s)) (calls s').

(** The listed record [r] has a name, and it equals [fqdn]. *)
Definition has_name (fqdn r : pyval) : bool :=
  match Py.getitem r "name" with
  | Ok n => Py.eq n fqdn
  | Raise _ => false
  end.

(** The listed record [r] has a name, and it differs from [fqdn]. *)
Definition has_other_name (fqdn r : pyval) : bool :=
  match Py.getitem r "name" with
  | Ok n => negb (Py.eq n fqdn)
  | Raise _ => false
  end.

(** The listed record [r] has the field [k], and it equals [v]. *)
Definition field_eq (k : string) (v r : pyval) : bool :=
  match Py.getitem r k with
  | Ok x => Py.eq x v
  | Raise _ => false
  end.

(** The write calls that follow the scan of the listing, when the scan ends
    with [found = (identifier, modified)]. *)
Definition write_calls (h : list (string * string)) (option : account)
    (record : record_t) (found : pyval * bool) : list request :=
  if Py.truthy (fst found) && snd found then [put_request h option (fst found) record]
  else if negb (Py.truthy (fst found)) then [post_request h option record]
  else [].

(** ** Frames *)

(** Every run of [m] takes a state to one related to it by [R]. *)
Definition steps {A} (R : state -> state -> Prop) (m : M A) : Prop :=
  forall s, R s (snd (m s)).

(** The run left the sleeps alone. *)
Definition same_sleeps (s s' : state) : Prop := sleeps s' = sleeps s.

(** The run left the warn-once globals alone. *)
Definition same_flags (s s' : state) : Prop :=
  shown_ipv4_warning s' = shown_ipv4_warning s
  /\ shown_ipv6_warning s' = shown_ipv6_warning s
  /\ shown_ipv6_warning_secondary s' = shown_ipv6_warning_secondary s.

(** The run left the two IPv6 warn-once globals alone. *)
Definition same_ipv6_flags (s s' : state) : Prop :=
  shown_ipv6_warning s' = shown_ipv6_warning s
  /\ shown_ipv6_warning_secondary s' = shown_ipv6_warning_secondary s.

(** The run issued requests that all satisfy [P], and nothing else was added
    to the request log. *)
Definition issued_only (P : request -> Prop) (s s' : state) : Prop :=
  exists rs, calls s' = (calls s ++ rs)%list /\ Forall P rs.

(** ** Detection *)

Definition trace_primary : string := "https://[2606:4700:4700::1111]/cdn-cgi/trace".
Definition trace_secondary : string := "https://[2606:4700:4700::1001]/cdn-cgi/trace".

(** The request of one attempt at a trace endpoint. *)
Definition trace_request (url : string) : request := mkRequest "GET" url [] None None.

(** Whenever it is asked, the trace endpoint [url] cannot be reached. *)
Definition trace_endpoint_fails (net : network) (url : string) : Prop :=
  forall n, exists msg, net n (trace_request url) = TransportError msg.

Definition is_delete (r : request) : bool := String.eqb (req_method r) "DELETE".

Definition not_delete (r : request) : Prop := is_delete r = false.

(** A write call carries the record [record] as its JSON body. *)
Definition carries (record : record_t) (req : request) : Prop :=
  is_write req = true -> req_json req = Some (record_json record).

(** ** Names *)

(** The whitespace characters of Python, the ones [str.strip] takes away. *)
Definition python_whitespace : list N :=
  [9; 10; 11; 12; 13; 28; 29; 30; 31; 32; 133; 160; 5760;
   8192; 8193; 8194; 8195; 8196; 8197; 8198; 8199; 8200; 8201; 8202;
   8232; 8233; 8239; 8287; 12288]%N.

Definition blank (c : N) : Prop := In c python_whitespace.

(** [core] is what is left of [cps] once the whitespace at its two ends is
    taken away. *)
Definition trimmed (cps core : list N) : Prop :=
  exists before after,
    cps = (before ++ core ++ after)%list
    /\ Forall blank before /\ Forall blank after
    /\ (forall c rest, core = c :: rest -> ~ blank c)
    /\ (forall c front, core = (front ++ [c])%list -> ~ blank c).

(** The lowercase of an ASCII character. *)
Definition ascii_lower (c : N) : N :=
  if ((65 <=? c) && (c <=? 90))%N then (c + 32)%N else c.

Definition is_ascii (c : N) : Prop := (c < 128)%N.

(** Lowercasing leaves the character as it is. *)
Definition lowercased (c : N) : Prop := Unicode.lower [c] = [c].

(** The name a target is registered under: stripped, then lowercased. *)
Definition normalize (s : string) : string := PyStr.lower (PyStr.strip s).

(** The code points with a lowercase mapping of one code point, each with
    its image. *)
Definition expand_run (run : N * N * N * N) : list (N * N) :=
  let '(first, count, step, image) := run in
  map (fun i => (first + N.of_nat i * step, image + N.of_nat i * step)%N)
      (seq 0 (N.to_nat count)).

Definition lower_pairs : list (N * N) := flat_map expand_run Unicode.lower_runs.

(** A code point that lowercasing leaves alone, that is no whitespace and no
    capital sigma. *)
Definition settled (x : N) : bool :=
  match Unicode.lower_cp x with
  | [y] => (y =? x)%N
  | _ => false
  end && negb (x =? 931)%N.

Definition settled_image (x : N) : bool :=
  settled x && negb (Unicode.is_space x) && Utf8.code_point x.

(** ** Example data *)

Module Ex.

(** The no-break space (U+00A0) and the ideographic space (U+3000). *)
Definition nbsp : string := Utf8.encode [160%N].
Definition ideographic_space : string := Utf8.encode [12288%N].

Definition token_account (subs : list pyval) : account :=
  mkAccount "Z1" (mkAuth (Some "tok") None) (Some (PBool false)) subs.

Definition acct : account := token_account [PDict [("name", PStr "home")]].

Definition headers : list (string * string) := [("Authorization", "Bearer tok")].

Definition json_ok (v : pyval) : http_outcome :=
  Answered (mkResponse 200 "OK" "" (inr v)).

(** Every request is answered 404 with a JSON error body. *)
Definition net_404 : network :=
  fun _ _ => Answered (mkResponse 404 "Not Found" "" (inr (PDict [("success", PBool false)]))).

(** Every request is answered 300 with a JSON body. *)
Definition body_300 : pyval := PDict [("success", PBool false)].
Definition net_300 : network :=
  fun _ _ => Answered (mkResponse 300 "Multiple Choices" "" (inr body_300)).

(** A reconciliation target: [home.example.com] must point to 1.2.3.4. *)
Definition fqdn : pyval := PStr "home.example.com".
Definition record : record_t :=
  mkRecord "A" fqdn (PStr "1.2.3.4") (PBool false) 300.

(** A record as the provider lists it. *)
Definition listed (id name content : string) (is_proxied : bool) : pyval :=
  PDict [("id", PStr id); ("name", PStr name); ("content", PStr content);
         ("proxied", PBool is_proxied)].

Definition listing (rs : list pyval) : list (string * pyval) :=
  [("result", PList rs); ("success", PBool true)].

(** Every GET is answered with the listing [rs], every other call with a bare
    success. *)
Definition net_listing (rs : list pyval) : network :=
  fun _ req =>
    if String.eqb (req_method req) "GET" then json_ok (PDict (listing rs))
    else json_ok (PDict [("success", PBool true)]).

Definition other : pyval := listed "r0" "www.example.com" "1.2.3.4" false.
Definition stale : pyval := listed "r1" "home.example.com" "9.9.9.9" false.
Definition unproxied : pyval := listed "r2" "home.example.com" "1.2.3.4" true.
Definition correct : pyval := listed "r3" "home.example.com" "1.2.3.4" false.

Definition ip4 : ip_t := mkIp "A" (PStr "1.2.3.4").

Definition cfg0 : config_t := mkConfig [acct] (Some 0) [].

Definition text_ok (body : string) : http_outcome :=
  Answered (mkResponse 200 "OK" body (inl "Expecting value: line 1 column 1 (char 0)")).

(** A host without IPv6 connectivity: the IPv4 services answer, the requests
    to the trace endpoints fail, the provider lists one AAAA record. *)
Definition net_no_ipv6 : network :=
  fun _ req =>
    if String.eqb (req_url req) trace_primary then
      TransportError "[Errno 101] Network is unreachable"
    else if String.eqb (req_url req) trace_secondary then
      TransportError "[Errno 101] Network is unreachable"
    else if String.eqb (req_url req) "https://api.ipify.org" then
      text_ok "1.2.3.4"
    else if String.eqb (req_url req) (api_url "zones/Z1") then
      json_ok (PDict [("result", PDict [("name", PStr "example.com")])])
    else if String.eqb (req_method req) "GET" then
      json_ok (PDict (listing [listed "r6" "home.example.com" "2001:db8::1" false]))
    else json_ok (PDict [("success", PBool true)]).

(** The globals of [__main__], but with purging on. *)
Definition g_purge : globals := mkGlobals cfg0 1 true true true.

(** A host with both address families: the first IPv4 service and the first
    trace endpoint answer, the provider lists one stale record. *)
Definition net_dual : network :=
  fun _ req =>
    if String.eqb (req_url req) "https://api.ipify.org" then text_ok "1.2.3.4"
    else if String.eqb (req_url req) trace_primary then
      text_ok ("fl=1f1" ++ String "010" ("ip=2001:db8::1" ++ String "010" ""))
    else if String.eqb (req_url req) (api_url "zones/Z1") then
      json_ok (PDict [("result", PDict [("name", PStr "example.com")])])
    else if String.eqb (req_method req) "GET" then json_ok (PDict (listing [stale]))
    else json_ok (PDict [("success", PBool true)]).

Definition g0 : globals := main_globals cfg0.

End Ex.

(** * Further functions of the script, and the vocabulary of their properties *)

(** [[
    def fetchIP(url):
        response = requests.get(url).text.split("\n")
        response.pop()
        return dict(s.split("=") for s in response)["ip"]
    ]]
    The same three statements are the body of each [try] of the IPv6 branch
    of [getIPs] ([trace_attempt]). *)
Definition fetchIP (net : network) (url : string) : M string :=
  response <- requests_get net url None ;;
  lines <- lift (list_pop (PyStr.split "010"%char (text response))) ;;
  lift (rbind (trace_dict 0 lines []) (trace_lookup "ip")).

(** [[
    def handleIPError(ip_type, record_type):
        print(f"🧩 {ip_type} not detected. Verify your ISP or DNS provider isn't blocking Cloudflare.")
        if purgeUnknownRecords:
            deleteEntries(record_type)
    ]] *)
Definition handleIPError (net : network) (g : globals) (ip_type record_type : string)
    : M unit :=
  print ("🧩 " ++ ip_type
           ++ " not detected. Verify your ISP or DNS provider isn't blocking Cloudflare.") ;;
  when (purgeUnknownRecords g) (deleteEntries net g record_type).

(** The body of the loop of [commitRecord], for one account. *)
Definition commitRecord_option (net : network) (g : globals) (ip : ip_t)
    (option : account) : M unit :=
  response <- cf_api net ("zones/" ++ zone_id option) "GET" option [] None ;;
  c <- lift (and_get_result response) ;;
  if Py.truthy c then
    result <- lift (Py.getitem response "result") ;;
    base_domain_name <- lift (Py.getitem result "name") ;;
    for_each (subdomains option) (fun subdomain =>
      p <- lift (prepareDNSRecord g subdomain base_domain_name ip option) ;;
      let '(fqdn, record) := p in
      processDNSRecord net fqdn record (ip_type ip) option)
  else ret tt.

(** ** Trace bodies *)

Definition newline : string := String "010"%char EmptyString.

(** The text of a trace answer: one [key=value] line per pair, each ended by
    a newline. *)
Fixpoint trace_text (pairs : list (string * string)) : string :=
  match pairs with
  | [] => ""
  | (k, v) :: r => k ++ "=" ++ v ++ newline ++ trace_text r
  end.

(** Neither [=] nor a newline occurs in [s]. *)
Definition plain (s : string) : bool :=
  negb (PyStr.contains_char "="%char s) && negb (PyStr.contains_char "010"%char s).

(** One line of a trace answer, without its newline. *)
Definition trace_line (kv : string * string) : string := fst kv ++ "=" ++ snd kv.

Definition plain_pair (kv : string * string) : Prop :=
  plain (fst kv) = true /\ plain (snd kv) = true.

(** The value of the last pair with key [k]. *)
Fixpoint last_binding (k : string) (pairs : list (string * string)) : option string :=
  match pairs with
  | [] => None
  | (k', v) :: r =>
      match last_binding k r with
      | Some x => Some x
      | None => if String.eqb k k' then Some v else None
      end
  end.

(** ** Detection services *)

(** The request [get_public_ip] sends to a service. *)
Definition ip_request (service : string) : request :=
  mkRequest "GET" service [] None (Some 5).

(** The request failed, or its answer is not a 200. *)
Definition not_200 (o : http_outcome) : bool :=
  match o with
  | TransportError _ => true
  | Answered r => negb (status_code r =? 200)
  end.

(** From the [n]-th request on, each of [services], asked in turn, fails. *)
Fixpoint all_fail (net : network) (n : nat) (services : list string) : Prop :=
  match services with
  | [] => True
  | service :: rest =>
      not_200 (net n (ip_request service)) = true /\ all_fail net (S n) rest
  end.

(** ** Provider *)

Definition zone_request (h : list (string * string)) (option : account) : request :=
  cf_request h ("zones/" ++ zone_id option) "GET" None.

(** The call met one of the three failures of [cf_api]. *)
Definition call_fails (o : http_outcome) : Prop :=
  transport_error o \/ error_status o \/ malformed_json o.

(** A network whose answers do not depend on the number of the request. *)
Definition stateless (respond : request -> http_outcome) : network :=
  fun _ req => respond req.

(** The request was sent to the provider with the credentials of one of the
    accounts [accounts]. *)
Definition authenticated (accounts : list account) (req : request) : Prop :=
  exists option endpoint,
    In option accounts
    /\ buildHeaders option = Ok (req_headers req)
    /\ req_url req = api_url endpoint.

(** A write call is a POST or a PUT of a record made for the address [ip],
    with the TTL [t]. *)
Definition writes_address (ip : ip_t) (t : Z) (req : request) : Prop :=
  req_method req = "GET"
  \/ ((req_method req = "POST" \/ req_method req = "PUT")
      /\ exists record,
           req_json req = Some (record_json record)
           /\ rec_type record = ip_type ip
           /\ rec_content record = ip_addr ip
           /\ rec_ttl record = t).

(** The request reads or deletes; it neither creates nor updates a record. *)
Definition get_or_delete (req : request) : Prop :=
  req_method req = "GET" \/ req_method req = "DELETE".

(** The record was made for the address [ip], with the TTL [t]. *)
Definition made_for (ip : ip_t) (t : Z) (record : record_t) : Prop :=
  rec_type record = ip_type ip /\ rec_content record = ip_addr ip /\ rec_ttl record = t.

(** The run may have printed lines, in addition to those of [s]. *)
Definition printed_more (s s' : state) : Prop :=
  exists lines, stdout s' = (stdout s ++ lines)%list.

(** The number of turns the loop takes: the answers [false] of the stop flag
    before its first [true]. *)
Fixpoint turns (kill_now : list bool) : nat :=
  match kill_now with
  | false :: later => S (turns later)
  | _ => O
  end.

Module Ex2.

Definition key_account : account :=
  mkAccount "Z2" (mkAuth None (Some ("me@example.com", "k3y"))) (Some (PBool true))
    [PDict [("name", PStr "www")]].

Definition both_account : account :=
  mkAccount "Z3" (mkAuth (Some "tok") (Some ("me@example.com", "k3y"))) (Some (PBool true)) [].

Definition no_credentials : account :=
  mkAccount "Z4" (mkAuth None None) (Some (PBool false)) [PDict [("name", PStr "www")]].

(** The first service is down, the second answers 503, the third answers. *)
Definition net_third : network :=
  fun _ req =>
    if String.eqb (req_url req) "https://api.ipify.org" then
      TransportError "Connection refused"
    else if String.eqb (req_url req) "https://icanhazip.com" then
      Answered (mkResponse 503 "Service Unavailable" "busy" (inl "Expecting value"))
    else Ex.text_ok (" 203.0.113.7" ++ String "010"%char "").

(** No detection service can be reached. *)
Definition net_down : network := fun _ _ => TransportError "Network is unreachable".

(** A trace answer, with a status that is not 200. *)
Definition trace_pairs : list (string * string) :=
  [("fl", "12f34"); ("ip", "2001:db8::1"); ("ts", "1700000000.123"); ("ip", "2001:db8::2")].

Definition net_trace : network :=
  fun _ _ => Answered (mkResponse 503 "Service Unavailable" (trace_text trace_pairs)
                         (inl "Expecting value")).

(** Every request is answered with the body [body]. *)
Definition net_body (body : string) : network :=
  fun _ _ => Ex.text_ok body.

(** The first IPv4 service answers, and so does the first trace endpoint. *)
Definition r4 : response :=
  mkResponse 200 "OK" (" 203.0.113.7" ++ String "010"%char "") (inl "Expecting value").
Definition r6 : response :=
  mkResponse 200 "OK" (trace_text trace_pairs) (inl "Expecting value").
Definition net_both : network :=
  fun _ req =>
    if String.eqb (req_url req) trace_primary then Answered r6 else Answered r4.

(** The first trace endpoint answers a page that is no trace, the second
    cannot be reached. *)
Definition net_garbled : network :=
  fun _ req =>
    if String.eqb (req_url req) trace_primary then Ex.text_ok "<html>error</html>"
    else TransportError "Network is unreachable".

(** A state in which the warn-once globals have been bound. *)
Definition bound_state : state := mkState (Some false) (Some false) (Some false) [] [] [].

(** Globals with IPv4 detection off; purging off. *)
Definition g_v6_only : globals := mkGlobals Ex.cfg0 1 false true false.

(** Two accounts; every listing holds the same two records. *)
Definition cfg2 : config_t := mkConfig [Ex.acct; key_account] None [].
Definition g2 : globals := mkGlobals cfg2 300 true true true.

Definition respond_two (req : request) : http_outcome :=
  if String.eqb (req_method req) "GET"
  then Ex.json_ok (PDict (Ex.listing [Ex.stale; Ex.correct]))
  else Ex.json_ok (PDict [("success", PBool true)]).

Definition hdr (option : account) : list (string * string) :=
  match buildHeaders option with
  | Ok h => h
  | Raise _ => []
  end.

(** No trace endpoint can be reached; every listing holds two records. *)
Definition respond_no_ipv6 (req : request) : http_outcome :=
  if String.eqb (req_url req) trace_primary then TransportError "unreachable"
  else if String.eqb (req_url req) trace_secondary then TransportError "unreachable"
  else respond_two req.

(** Globals with IPv4 detection off and purging on, for the two accounts. *)
Definition g2_purge : globals := mkGlobals cfg2 300 false true true.

(** A listed record that has no identifier. *)
Definition nameless_id : pyval := PDict [("name", PStr "home.example.com")].

(** The zone lookup succeeds, whatever else is asked. *)
Definition net_zone : network :=
  fun _ req =>
    if String.eqb (req_url req) (api_url "zones/Z1") then
      Ex.json_ok (PDict [("result", PDict [("name", PStr "example.com")])])
    else Ex.json_ok (PDict (Ex.listing [Ex.other])).

(** An account whose first target has no name. *)
Definition bad_account : account :=
  mkAccount "Z1" (mkAuth (Some "tok") None) (Some (PBool false))
    [PDict [("proxied", PBool true)]; PDict [("name", PStr "home")]].
Definition g_bad : globals := mkGlobals (mkConfig [bad_account; Ex.acct] None []) 300 true true false.

Definition ip6 : ip_t := mkIp "AAAA" (PStr "2001:db8::1").

End Ex2.
(** * Properties *)

#[local] Arguments String.append : simpl never.
#[local] Arguments Py.repr : simpl never.
#[local] Arguments Py.str : simpl never.
#[local] Arguments PyStr.of_Z : simpl never.

(** ** The provider client *)

Lemma failure_of_RequestException url o e :
  failure_of url o = Some e -> isinstance_RequestException e = true.
Proof.
  destruct o as [msg | r]; simpl.
  - intros [= <-]. reflexivity.
  - unfold raise_for_status, response_json.
    destruct ((400 <=? status_code r) && (status_code r <? 500)).
    { intros [= <-]. reflexivity. }
    destruct ((500 <=? status_code r) && (status_code r <? 600)).
    { intros [= <-]. reflexivity. }
    destruct (json_body r); [intros [= <-]; reflexivity | discriminate].
Qed.

(** [cf_api], run on a state: one request, then either the decoded body or a
    logged failure and [None]. *)
Lemma cf_api_run net endpoint method config headers data s h :
  buildHeaders config = Ok h ->
  let req := cf_request h endpoint method data in
  cf_api net endpoint method config headers data s =
  match failure_of (api_url endpoint) (net (length (calls s)) req) with
  | Some e =>
      (Ok PNone, add_line (error_line method (api_url endpoint) (exn_msg e))
                   (record_call req s))
  | None =>
      match net (length (calls s)) req with
      | Answered r =>
          match json_body r with
          | inr v => (Ok v, record_call req s)
          | inl _ => (Ok PNone, record_call req s)
          end
      | TransportError _ => (Ok PNone, record_call req s)
      end
  end.
Proof.
  intros Hh req.
  unfold cf_api, bind, lift, try_except, requests_request. rewrite Hh.
  subst req. unfold failure_of, cf_request.
  destruct (net (length (calls s)) _) as [msg | r]; simpl.
  - reflexivity.
  - destruct (raise_for_status (api_url endpoint) r) as [[] | e] eqn:Hs; simpl.
    + unfold response_json. destruct (json_body r) as [msg | v]; reflexivity.
    + assert (He : isinstance_RequestException e = true).
      { apply (failure_of_RequestException (api_url endpoint) (Answered r)).
        simpl. rewrite Hs. reflexivity. }
      rewrite He. reflexivity.
Qed.

(** [cf_api] never raises once the headers are built; it issues exactly one
    request and touches nothing but the request log and the output. *)
Lemma cf_api_total net endpoint method config headers data s h :
  buildHeaders config = Ok h ->
  exists v s',
    cf_api net endpoint method config headers data s = (Ok v, s')
    /\ calls s' = (calls s ++ [cf_request h endpoint method data])%list
    /\ sleeps s' = sleeps s
    /\ shown_ipv4_warning s' = shown_ipv4_warning s
    /\ shown_ipv6_warning s' = shown_ipv6_warning s
    /\ shown_ipv6_warning_secondary s' = shown_ipv6_warning_secondary s.
Proof.
  intros Hh. rewrite (cf_api_run _ _ _ _ _ _ _ _ Hh).
  destruct (failure_of _ _).
  - eexists _, _. split; [reflexivity |]. simpl. auto.
  - destruct (net _ _) as [msg | r].
    + eexists _, _. split; [reflexivity |]. simpl. auto.
    + destruct (json_body r); eexists _, _; (split; [reflexivity |]); simpl; auto.
Qed.

(** Each of the three failures makes the [try] block raise. *)
Lemma failure_of_failed url o :
  transport_error o \/ error_status o \/ malformed_json o ->
  exists e, failure_of url o = Some e.
Proof.
  intros [[msg ->] | [(r & -> & Hlo & Hhi) | (r & msg & -> & Hj)]]; simpl.
  - eauto.
  - unfold raise_for_status.
    destruct (Z.ltb_spec (status_code r) 500).
    + replace (400 <=? status_code r) with true by (symmetry; apply Z.leb_le; lia).
      simpl. eauto.
    + replace (400 <=? status_code r) with true by (symmetry; apply Z.leb_le; lia).
      replace (500 <=? status_code r) with true by (symmetry; apply Z.leb_le; lia).
      replace (status_code r <? 600) with true by (symmetry; apply Z.ltb_lt; lia).
      simpl. eauto.
  - destruct (raise_for_status url r); [| eauto].
    unfold response_json. rewrite Hj. eauto.
Qed.

(** C5 (as amended): a call through [cf_api] whose request meets a transport
    error, an HTTP status from 400 to 599, or a body that is not JSON, logs
    the failure on one line and returns [None]; no exception leaves
    [cf_api]. *)
Theorem cf_api_failure_is_logged_None net endpoint method config headers data s h :
  buildHeaders config = Ok h ->
  let req := cf_request h endpoint method data in
  let o := net (length (calls s)) req in
  transport_error o \/ error_status o \/ malformed_json o ->
  exists msg,
    cf_api net endpoint method config headers data s =
    (Ok PNone, add_line (error_line method (api_url endpoint) msg) (record_call req s)).
Proof.
  intros Hh req o Hfail.
  destruct (failure_of_failed (api_url endpoint) o Hfail) as [e He].
  exists (exn_msg e).
  rewrite (cf_api_run _ _ _ _ _ _ _ _ Hh). fold req. fold o. rewrite He.
  reflexivity.
Qed.

Lemma cf_api_failure_is_logged_None_witness :
  exists msg,
    cf_api Ex.net_404 "zones/Z1" "GET" Ex.acct [] None initial_state =
    (Ok PNone,
     add_line (error_line "GET" (api_url "zones/Z1") msg)
       (record_call (cf_request Ex.headers "zones/Z1" "GET" None) initial_state)).
Proof.
  apply (cf_api_failure_is_logged_None Ex.net_404 "zones/Z1" "GET" Ex.acct [] None
           initial_state Ex.headers).
  - reflexivity.
  - right. left. eexists. split; [reflexivity |]. simpl. lia.
Defined.

(** C5 as stated fails for a status outside 200..299 that
    [raise_for_status] lets through: on a 300 answer with a JSON body,
    [cf_api] returns the decoded body, not [None], and logs nothing. *)
Lemma cf_api_status_300_returns_body :
  exists r,
    Ex.net_300 0%nat (cf_request Ex.headers "zones/Z1" "GET" None) = Answered r
    /\ non_2xx r = true
    /\ cf_api Ex.net_300 "zones/Z1" "GET" Ex.acct [] None initial_state =
       (Ok Ex.body_300,
        record_call (cf_request Ex.headers "zones/Z1" "GET" None) initial_state)
    /\ Ex.body_300 <> PNone.
Proof.
  eexists. split; [reflexivity |]. split; [reflexivity |].
  split; [reflexivity | discriminate].
Qed.

(** ** The scan of the listing *)

Lemma match_records_app fqdn record found rs1 rs2 :
  match_records fqdn record found (rs1 ++ rs2) =
  rbind (match_records fqdn record found rs1)
        (fun found' => match_records fqdn record found' rs2).
Proof.
  revert found. induction rs1 as [| r rs1 IH]; intros found; simpl.
  - reflexivity.
  - destruct (match_record fqdn record found r) as [found' | e]; simpl.
    + apply IH.
    + reflexivity.
Qed.

Lemma match_record_other fqdn record found r :
  has_other_name fqdn r = true -> match_record fqdn record found r = Ok found.
Proof.
  unfold has_other_name, match_record.
  destruct (Py.getitem r "name") as [n | e]; simpl; [| discriminate].
  destruct (Py.eq n fqdn); simpl; [discriminate | reflexivity].
Qed.

(** Records with another name leave the scan where it is. *)
Lemma match_records_other fqdn record found rs :
  forallb (has_other_name fqdn) rs = true ->
  match_records fqdn record found rs = Ok found.
Proof.
  induction rs as [| r rs IH]; simpl; intros H.
  - reflexivity.
  - apply andb_prop in H. destruct H as [Hr Hrs].
    rewrite (match_record_other _ _ _ _ Hr). simpl. auto.
Qed.

(** A record with the computed name replaces whatever the scan had found. *)
Lemma match_record_named fqdn record found r identifier c p :
  has_name fqdn r = true ->
  Py.getitem r "id" = Ok identifier ->
  Py.getitem r "content" = Ok c ->
  Py.getitem r "proxied" = Ok p ->
  match_record fqdn record found r =
  Ok (identifier,
      negb (Py.eq c (rec_content record)) || negb (Py.eq p (rec_proxied record))).
Proof.
  unfold has_name, match_record. intros Hn Hi Hc Hp.
  destruct (Py.getitem r "name") as [n | e]; simpl; [| discriminate].
  rewrite Hn, Hi. simpl. rewrite Hc. simpl.
  destruct (Py.eq c (rec_content record)); simpl.
  - rewrite Hp. reflexivity.
  - reflexivity.
Qed.

(** Last match wins: the scan of [pre ++ r :: post], where [r] has the name
    and no record of [post] has it, ends with what [r] alone gives, whatever
    [pre] holds, unless the scan of [pre] raises. *)
Lemma match_records_last fqdn record pre r post identifier c p found0 :
  match_records fqdn record (PNone, false) pre = Ok found0 ->
  has_name fqdn r = true ->
  Py.getitem r "id" = Ok identifier ->
  Py.getitem r "content" = Ok c ->
  Py.getitem r "proxied" = Ok p ->
  forallb (has_other_name fqdn) post = true ->
  match_records fqdn record (PNone, false) (pre ++ r :: post) =
  Ok (identifier,
      negb (Py.eq c (rec_content record)) || negb (Py.eq p (rec_proxied record))).
Proof.
  intros Hpre Hn Hi Hc Hp Hpost.
  rewrite match_records_app, Hpre. simpl.
  rewrite (match_record_named _ _ _ _ _ _ _ Hn Hi Hc Hp). simpl.
  apply match_records_other, Hpost.
Qed.

(** ** [processDNSRecord] *)

Lemma issued_since_app s s' rs :
  calls s' = (calls s ++ rs)%list -> issued_since s s' = rs.
Proof.
  unfold issued_since. intros ->.
  rewrite skipn_app, skipn_all, Nat.sub_diag. reflexivity.
Qed.

Lemma lookup_nonempty k d v : Py.lookup k d = Some v -> Py.truthy (PDict d) = true.
Proof. destruct d; [discriminate | reflexivity]. Qed.

Lemma app_cons_truthy (pre : list pyval) r post :
  Py.truthy (PList (pre ++ r :: post)) = true.
Proof. destruct pre; reflexivity. Qed.

(** After a non-empty listing whose scan raises, nothing more happens. *)
Lemma processDNSRecord_listed_raise net fqdn record option d rs e s :
  Py.lookup "result" d = Some (PList rs) ->
  match_records fqdn record (PNone, false) rs = Raise e ->
  snd (processDNSRecord_listed net fqdn record option (PDict d) s) = s.
Proof.
  intros Hd Hm.
  unfold processDNSRecord_listed, bind, lift, and_get_result.
  rewrite (lookup_nonempty _ _ _ Hd). simpl. rewrite Hd.
  destruct (Py.truthy (PList rs)); simpl; [| reflexivity].
  rewrite Hm. reflexivity.
Qed.

(** After a non-empty listing whose scan ends with [found], the function
    returns, having issued exactly [write_calls ... found]. *)
Lemma processDNSRecord_listed_found net fqdn record option d rs found s h :
  buildHeaders option = Ok h ->
  Py.lookup "result" d = Some (PList rs) ->
  Py.truthy (PList rs) = true ->
  match_records fqdn record (PNone, false) rs = Ok found ->
  exists s',
    processDNSRecord_listed net fqdn record option (PDict d) s = (Ok tt, s')
    /\ calls s' = (calls s ++ write_calls h option record found)%list
    /\ sleeps s' = sleeps s.
Proof.
  intros Hh Hd Hrs Hm.
  unfold processDNSRecord_listed, bind, lift, and_get_result.
  rewrite (lookup_nonempty _ _ _ Hd). simpl. rewrite Hd, Hrs. simpl.
  rewrite Hm.
  destruct found as [identifier modified]. unfold write_calls. simpl.
  destruct (Py.truthy identifier && modified).
  - unfold print.
    destruct (cf_api_total net (record_endpoint option identifier) "PUT" option []
                (Some (record_json record))
                (add_line ("📡 Updating record " ++ Py.repr (record_json record)) s)
                h Hh) as (v & s' & Hrun & Hcalls & Hsl & _).
    unfold record_endpoint in Hrun. rewrite Hrun.
    exists s'. split; [reflexivity |]. split; [exact Hcalls | exact Hsl].
  - destruct (negb (Py.truthy identifier)).
    + unfold print.
      destruct (cf_api_total net (records_endpoint option) "POST" option []
                  (Some (record_json record))
                  (add_line ("➕ Adding new record " ++ Py.repr (record_json record)) s)
                  h Hh) as (v & s' & Hrun & Hcalls & Hsl & _).
      unfold records_endpoint in Hrun. rewrite Hrun.
      exists s'. split; [reflexivity |]. split; [exact Hcalls | exact Hsl].
    + exists s. split; [reflexivity |]. rewrite app_nil_r. auto.
Qed.

(** [processDNSRecord] is the listing call followed by
    [processDNSRecord_listed] on what it returned. *)
Lemma processDNSRecord_run net fqdn record record_type option s h v :
  buildHeaders option = Ok h ->
  fst (cf_api net (listing_endpoint option record_type) "GET" option [] None s) = Ok v ->
  exists s1,
    calls s1 = (calls s ++ [list_request h option record_type])%list
    /\ sleeps s1 = sleeps s
    /\ processDNSRecord net fqdn record record_type option s =
       processDNSRecord_listed net fqdn record option v s1.
Proof.
  intros Hh Hv.
  destruct (cf_api_total net (listing_endpoint option record_type) "GET" option []
              None s h Hh) as (v' & s1 & Hrun & Hcalls & Hsl & _).
  rewrite Hrun in Hv. simpl in Hv. injection Hv as ->.
  exists s1. split; [exact Hcalls |]. split; [exact Hsl |].
  unfold processDNSRecord, bind. unfold listing_endpoint in Hrun. rewrite Hrun.
  reflexivity.
Qed.

(** X4: A listing without the computed name, provided it is not empty, leads to
    exactly one create call with the desired record and to no update. *)
Lemma processDNSRecord_unmatched_creates
    net fqdn record record_type option s h d r rs :
  buildHeaders option = Ok h ->
  fst (cf_api net (listing_endpoint option record_type) "GET" option [] None s)
    = Ok (PDict d) ->
  Py.lookup "result" d = Some (PList (r :: rs)) ->
  forallb (has_other_name fqdn) (r :: rs) = true ->
  exists s',
    processDNSRecord net fqdn record record_type option s = (Ok tt, s')
    /\ calls s' = (calls s ++ [list_request h option record_type;
                               post_request h option record])%list.
Proof.
  intros Hh Hv Hd Hother.
  destruct (processDNSRecord_run net fqdn record record_type option s h _ Hh Hv)
    as (s1 & Hcalls & _ & ->).
  destruct (processDNSRecord_listed_found net fqdn record option d (r :: rs)
              (PNone, false) s1 h Hh Hd eq_refl
              (match_records_other _ _ _ _ Hother))
    as (s' & Hrun & Hcalls' & _).
  exists s'. split; [exact Hrun |].
  rewrite Hcalls', Hcalls, <- app_assoc. reflexivity.
Qed.

(** C2 (where the code departs from it): when the listing comes back empty,
    so that no listed record has the computed name, [processDNSRecord] stops
    after the listing call: no create call, no call at all, is issued. *)
Theorem processDNSRecord_empty_listing_creates_nothing
    net fqdn record record_type option s h d :
  buildHeaders option = Ok h ->
  fst (cf_api net (listing_endpoint option record_type) "GET" option [] None s)
    = Ok (PDict d) ->
  Py.lookup "result" d = Some (PList []) ->
  exists s',
    processDNSRecord net fqdn record record_type option s = (Ok tt, s')
    /\ calls s' = (calls s ++ [list_request h option record_type])%list
    /\ stdout s' = stdout s.
Proof.
  intros Hh Hv Hd.
  destruct (cf_api_total net (listing_endpoint option record_type) "GET" option []
              None s h Hh) as (v' & s1 & Hrun & Hcalls & _).
  pose proof Hrun as Hrun'.
  rewrite (cf_api_run _ _ _ _ _ _ _ _ Hh) in Hrun'.
  rewrite Hrun in Hv. simpl in Hv. injection Hv as ->.
  exists s1. split; [| split; [exact Hcalls |]].
  - unfold processDNSRecord, bind. unfold listing_endpoint in Hrun. rewrite Hrun.
    unfold processDNSRecord_listed, bind, lift, and_get_result.
    rewrite (lookup_nonempty _ _ _ Hd). simpl. rewrite Hd. reflexivity.
  - destruct (failure_of _ _); [discriminate |].
    destruct (net _ _) as [msg | r]; [discriminate |].
    destruct (json_body r); inversion Hrun'; reflexivity.
Qed.

Lemma processDNSRecord_empty_listing_creates_nothing_witness :
  exists s',
    processDNSRecord (Ex.net_listing []) Ex.fqdn Ex.record "A" Ex.acct initial_state
      = (Ok tt, s')
    /\ calls s' = (calls initial_state ++ [list_request Ex.headers Ex.acct "A"])%list
    /\ stdout s' = stdout initial_state.
Proof.
  apply (processDNSRecord_empty_listing_creates_nothing (Ex.net_listing []) Ex.fqdn
           Ex.record "A" Ex.acct initial_state Ex.headers (Ex.listing []));
    reflexivity.
Defined.

(** C3: when the listed record that carries the computed name (the last one,
    should several carry it) has the desired content and the desired proxied
    flag, [processDNSRecord] issues the listing call and nothing else: no
    POST, no PUT, no DELETE. *)
Theorem processDNSRecord_correct_record_no_write
    net fqdn record record_type option s h d pre r post identifier :
  buildHeaders option = Ok h ->
  fst (cf_api net (listing_endpoint option record_type) "GET" option [] None s)
    = Ok (PDict d) ->
  Py.lookup "result" d = Some (PList (pre ++ r :: post)) ->
  has_name fqdn r = true ->
  Py.getitem r "id" = Ok identifier ->
  Py.truthy identifier = true ->
  field_eq "content" (rec_content record) r = true ->
  field_eq "proxied" (rec_proxied record) r = true ->
  forallb (has_other_name fqdn) post = true ->
  let s' := snd (processDNSRecord net fqdn record record_type option s) in
  calls s' = (calls s ++ [list_request h option record_type])%list
  /\ filter is_write (issued_since s s') = [].
Proof.
  intros Hh Hv Hd Hn Hi Ht Hc Hp Hpost s'.
  assert (Hcalls' : calls s' = (calls s ++ [list_request h option record_type])%list);
    [| split; [exact Hcalls' | rewrite (issued_since_app _ _ _ Hcalls'); reflexivity]].
  subst s'.
  destruct (processDNSRecord_run net fqdn record record_type option s h _ Hh Hv)
    as (s1 & Hcalls & _ & ->).
  unfold field_eq in Hc, Hp.
  destruct (Py.getitem r "content") as [c |] eqn:Ec; [| discriminate].
  destruct (Py.getitem r "proxied") as [p |] eqn:Ep; [| discriminate].
  destruct (match_records fqdn record (PNone, false) pre) as [found0 | e] eqn:Epre.
  - pose proof (match_records_last fqdn record pre r post identifier c p found0
                  Epre Hn Hi Ec Ep Hpost) as Hm.
    rewrite Hc, Hp in Hm. simpl in Hm.
    destruct (processDNSRecord_listed_found net fqdn record option d _ _ s1 h Hh Hd
                (app_cons_truthy pre r post) Hm) as (s2 & -> & Hcalls2 & _).
    simpl. rewrite Hcalls2. unfold write_calls. simpl. rewrite Ht. simpl.
    rewrite app_nil_r. exact Hcalls.
  - rewrite (processDNSRecord_listed_raise net fqdn record option d
               (pre ++ r :: post) e s1 Hd).
    + exact Hcalls.
    + rewrite match_records_app, Epre. reflexivity.
Qed.

Lemma processDNSRecord_correct_record_no_write_witness :
  let net := Ex.net_listing [Ex.stale; Ex.correct; Ex.other] in
  let s' := snd (processDNSRecord net Ex.fqdn Ex.record "A" Ex.acct initial_state) in
  calls s' = (calls initial_state ++ [list_request Ex.headers Ex.acct "A"])%list
  /\ filter is_write (issued_since initial_state s') = [].
Proof.
  apply (processDNSRecord_correct_record_no_write
           (Ex.net_listing [Ex.stale; Ex.correct; Ex.other]) Ex.fqdn Ex.record "A"
           Ex.acct initial_state Ex.headers
           (Ex.listing [Ex.stale; Ex.correct; Ex.other])
           [Ex.stale] Ex.correct [Ex.other] (PStr "r3"));
    reflexivity.
Defined.

(** C4: when exactly one listed record carries the computed name and its
    content or its proxied flag differs from the desired one,
    [processDNSRecord] issues, after the listing call, exactly one PUT, to
    that record's identifier, whose body is the whole desired record
    [{type, name, content, proxied, ttl}]; it issues no POST. *)
Theorem processDNSRecord_divergent_record_one_update
    net fqdn record record_type option s h d pre r post identifier c p :
  buildHeaders option = Ok h ->
  fst (cf_api net (listing_endpoint option record_type) "GET" option [] None s)
    = Ok (PDict d) ->
  Py.lookup "result" d = Some (PList (pre ++ r :: post)) ->
  forallb (has_other_name fqdn) pre = true ->
  forallb (has_other_name fqdn) post = true ->
  has_name fqdn r = true ->
  Py.getitem r "id" = Ok identifier ->
  Py.truthy identifier = true ->
  Py.getitem r "content" = Ok c ->
  Py.getitem r "proxied" = Ok p ->
  Py.eq c (rec_content record) = false \/ Py.eq p (rec_proxied record) = false ->
  exists s',
    processDNSRecord net fqdn record record_type option s = (Ok tt, s')
    /\ issued_since s s' =
       [list_request h option record_type;
        mkRequest "PUT"
          (api_url ("zones/" ++ zone_id option ++ "/dns_records/" ++ Py.str identifier))
          h
          (Some (PDict [("type", PStr (rec_type record)); ("name", rec_name record);
                        ("content", rec_content record);
                        ("proxied", rec_proxied record);
                        ("ttl", PInt (rec_ttl record))]))
          None].
Proof.
  intros Hh Hv Hd Hpre Hpost Hn Hi Ht Hc Hp Hdiff.
  destruct (processDNSRecord_run net fqdn record record_type option s h _ Hh Hv)
    as (s1 & Hcalls & _ & ->).
  pose proof (match_records_last fqdn record pre r post identifier c p (PNone, false)
                (match_records_other _ _ _ _ Hpre) Hn Hi Hc Hp Hpost) as Hm.
  assert (Hmod : negb (Py.eq c (rec_content record))
                 || negb (Py.eq p (rec_proxied record)) = true).
  { destruct Hdiff as [-> | ->]; [reflexivity | apply orb_true_r]. }
  rewrite Hmod in Hm.
  destruct (processDNSRecord_listed_found net fqdn record option d _ _ s1 h Hh Hd
              (app_cons_truthy pre r post) Hm) as (s2 & Hrun & Hcalls2 & _).
  exists s2. split; [exact Hrun |].
  apply issued_since_app.
  rewrite Hcalls2, Hcalls, <- app_assoc.
  unfold write_calls. simpl. rewrite Ht. reflexivity.
Qed.

Lemma processDNSRecord_divergent_record_one_update_witness :
  exists s',
    processDNSRecord (Ex.net_listing [Ex.other; Ex.stale]) Ex.fqdn Ex.record "A"
      Ex.acct initial_state = (Ok tt, s')
    /\ issued_since initial_state s' =
       [list_request Ex.headers Ex.acct "A";
        mkRequest "PUT" (api_url "zones/Z1/dns_records/r1") Ex.headers
          (Some (PDict [("type", PStr "A"); ("name", PStr "home.example.com");
                        ("content", PStr "1.2.3.4"); ("proxied", PBool false);
                        ("ttl", PInt 300)]))
          None].
Proof.
  apply (processDNSRecord_divergent_record_one_update
           (Ex.net_listing [Ex.other; Ex.stale]) Ex.fqdn Ex.record "A" Ex.acct
           initial_state Ex.headers (Ex.listing [Ex.other; Ex.stale])
           [Ex.other] Ex.stale [] (PStr "r1") (PStr "9.9.9.9") (PBool false));
    try reflexivity.
  left. reflexivity.
Defined.

(** C8: of the listed records that carry the computed name, only the last one
    in the order of the listing counts.  With [r] that record, identifier and
    divergence are read from [r] alone, whatever stands before it; the one
    write call, if any, is a PUT to [r]'s identifier (or a POST when that
    identifier is falsy); never more than one write call is issued. *)
Theorem processDNSRecord_last_match_wins
    net fqdn record record_type option s h d pre r post identifier c p found0 :
  buildHeaders option = Ok h ->
  fst (cf_api net (listing_endpoint option record_type) "GET" option [] None s)
    = Ok (PDict d) ->
  Py.lookup "result" d = Some (PList (pre ++ r :: post)) ->
  match_records fqdn record (PNone, false) pre = Ok found0 ->
  has_name fqdn r = true ->
  Py.getitem r "id" = Ok identifier ->
  Py.getitem r "content" = Ok c ->
  Py.getitem r "proxied" = Ok p ->
  forallb (has_other_name fqdn) post = true ->
  let modified :=
    negb (Py.eq c (rec_content record)) || negb (Py.eq p (rec_proxied record)) in
  match_records fqdn record (PNone, false) (pre ++ r :: post) = Ok (identifier, modified)
  /\ exists s',
       processDNSRecord net fqdn record record_type option s = (Ok tt, s')
       /\ issued_since s s' =
          list_request h option record_type
          :: (if Py.truthy identifier && modified
              then [put_request h option identifier record]
              else if negb (Py.truthy identifier)
                   then [post_request h option record]
                   else [])
       /\ (length (filter is_write (issued_since s s')) <= 1)%nat.
Proof.
  intros Hh Hv Hd Hpre Hn Hi Hc Hp Hpost modified.
  pose proof (match_records_last fqdn record pre r post identifier c p found0
                Hpre Hn Hi Hc Hp Hpost) as Hm.
  fold modified in Hm. split; [exact Hm |].
  destruct (processDNSRecord_run net fqdn record record_type option s h _ Hh Hv)
    as (s1 & Hcalls & _ & ->).
  destruct (processDNSRecord_listed_found net fqdn record option d _ _ s1 h Hh Hd
              (app_cons_truthy pre r post) Hm) as (s2 & Hrun & Hcalls2 & _).
  exists s2. split; [exact Hrun |].
  assert (Hiss : issued_since s s2 =
                 list_request h option record_type
                 :: write_calls h option record (identifier, modified)).
  { apply issued_since_app. rewrite Hcalls2, Hcalls, <- app_assoc. reflexivity. }
  rewrite Hiss. unfold write_calls. simpl fst. simpl snd.
  split; [reflexivity |].
  destruct (Py.truthy identifier && modified); [simpl; lia |].
  destruct (negb (Py.truthy identifier)); simpl; lia.
Qed.

Lemma processDNSRecord_last_match_wins_witness :
  let rs := [Ex.stale; Ex.unproxied; Ex.other] in
  match_records Ex.fqdn Ex.record (PNone, false) rs = Ok (PStr "r2", true)
  /\ exists s',
       processDNSRecord (Ex.net_listing rs) Ex.fqdn Ex.record "A" Ex.acct
         initial_state = (Ok tt, s')
       /\ issued_since initial_state s' =
          [list_request Ex.headers Ex.acct "A";
           put_request Ex.headers Ex.acct (PStr "r2") Ex.record]
       /\ (length (filter is_write (issued_since initial_state s')) <= 1)%nat.
Proof.
  apply (processDNSRecord_last_match_wins
           (Ex.net_listing [Ex.stale; Ex.unproxied; Ex.other]) Ex.fqdn Ex.record "A"
           Ex.acct initial_state Ex.headers
           (Ex.listing [Ex.stale; Ex.unproxied; Ex.other])
           [Ex.stale] Ex.unproxied [Ex.other] (PStr "r2") (PStr "1.2.3.4")
           (PBool true) (PStr "r1", true));
    reflexivity.
Defined.

(** ** Names *)

(** *** UTF-8 *)

Ltac n_divmod :=
  repeat match goal with
  | |- context [(?a / ?b)%N] =>
      let Hq := fresh in let Hr := fresh in
      pose proof (N.div_mod a b ltac:(discriminate)) as Hq;
      pose proof (N.mod_lt a b ltac:(discriminate)) as Hr;
      generalize dependent (a / b)%N; generalize dependent (a mod b)%N; intros
  | |- context [(?a mod ?b)%N] =>
      let Hq := fresh in let Hr := fresh in
      pose proof (N.div_mod a b ltac:(discriminate)) as Hq;
      pose proof (N.mod_lt a b ltac:(discriminate)) as Hr;
      generalize dependent (a / b)%N; generalize dependent (a mod b)%N; intros
  end; lia.

Ltac n_bool H :=
  repeat first
    [ rewrite andb_true_iff in H | rewrite andb_false_iff in H
    | rewrite orb_true_iff in H | rewrite N.leb_le in H | rewrite N.ltb_lt in H
    | rewrite N.leb_gt in H | rewrite N.ltb_ge in H
    | rewrite N.eqb_eq in H | rewrite N.eqb_neq in H ].

(** Decide a test on code points from the arithmetic facts at hand. *)
Ltac n_test :=
  match goal with
  | |- context [if ?b then _ else _] =>
      let H := fresh "Htest" in
      destruct b eqn:H; n_bool H; [try (exfalso; lia) | try (exfalso; lia)]
  end.

Lemma byte_value n : (n < 256)%N -> N_of_ascii (Utf8.byte n) = n.
Proof. apply N_ascii_embedding. Qed.

Lemma continuation_byte m :
  (m < 64)%N -> Utf8.continuation (Utf8.byte (128 + m)) = Some m.
Proof.
  intros H. unfold Utf8.continuation. rewrite byte_value by lia.
  n_test. f_equal. lia.
Qed.

Lemma decode_1 b r :
  (N_of_ascii b < 128)%N -> Utf8.decode (String b r) = N_of_ascii b :: Utf8.decode r.
Proof.
  intros H. cbn [Utf8.decode]. n_test. reflexivity.
Qed.

Lemma decode_2 b1 b2 r c2 :
  Utf8.continuation b2 = Some c2 ->
  (194 <= N_of_ascii b1 < 224)%N ->
  Utf8.decode (String b1 (String b2 r))
  = ((N_of_ascii b1 - 192) * 64 + c2)%N :: Utf8.decode r.
Proof.
  intros Hc H. cbn [Utf8.decode]. rewrite Hc. do 2 n_test. reflexivity.
Qed.

Lemma decode_3 b1 b2 b3 r c2 c3 :
  Utf8.continuation b2 = Some c2 ->
  Utf8.continuation b3 = Some c3 ->
  (224 <= N_of_ascii b1 < 240)%N ->
  (2048 <= (N_of_ascii b1 - 224) * 4096 + c2 * 64 + c3)%N ->
  Utf8.decode (String b1 (String b2 (String b3 r)))
  = ((N_of_ascii b1 - 224) * 4096 + c2 * 64 + c3)%N :: Utf8.decode r.
Proof.
  intros Hc2 Hc3 H Hv. cbn [Utf8.decode]. rewrite Hc2, Hc3. do 3 n_test. reflexivity.
Qed.

Lemma decode_4 b1 b2 b3 b4 r c2 c3 c4 :
  Utf8.continuation b2 = Some c2 ->
  Utf8.continuation b3 = Some c3 ->
  Utf8.continuation b4 = Some c4 ->
  (240 <= N_of_ascii b1 < 245)%N ->
  (65536 <= (N_of_ascii b1 - 240) * 262144 + c2 * 4096 + c3 * 64 + c4 < 1114112)%N ->
  Utf8.decode (String b1 (String b2 (String b3 (String b4 r))))
  = ((N_of_ascii b1 - 240) * 262144 + c2 * 4096 + c3 * 64 + c4)%N :: Utf8.decode r.
Proof.
  intros Hc2 Hc3 Hc4 H Hv. cbn [Utf8.decode]. rewrite Hc2, Hc3, Hc4. do 4 n_test.
  reflexivity.
Qed.

(** Decoding undoes the encoding of a code point. *)
Lemma decode_encode_cp c rest :
  Utf8.code_point c = true ->
  Utf8.decode (Utf8.encode_cp c rest) = c :: Utf8.decode rest.
Proof.
  unfold Utf8.code_point, Utf8.encode_cp. intros Hc. apply N.ltb_lt in Hc.
  destruct (N.ltb_spec c 128) as [H1 | H1].
  { rewrite decode_1; rewrite byte_value by lia; [reflexivity | exact H1]. }
  destruct (N.ltb_spec c 2048) as [H2 | H2].
  { rewrite (decode_2 _ _ _ (c mod 64)).
    - rewrite byte_value by n_divmod. f_equal. n_divmod.
    - apply continuation_byte. n_divmod.
    - rewrite byte_value by n_divmod. n_divmod. }
  destruct (N.ltb_spec c 65536) as [H3 | H3].
  { rewrite (decode_3 _ _ _ _ ((c / 64) mod 64) (c mod 64)).
    - rewrite byte_value by n_divmod. f_equal. n_divmod.
    - apply continuation_byte. n_divmod.
    - apply continuation_byte. n_divmod.
    - rewrite byte_value by n_divmod. n_divmod.
    - rewrite byte_value by n_divmod. n_divmod. }
  destruct (N.ltb_spec c 1114112) as [H4 | H4]; [| lia].
  rewrite (decode_4 _ _ _ _ _ ((c / 4096) mod 64) ((c / 64) mod 64) (c mod 64)).
  - rewrite byte_value by n_divmod. f_equal. n_divmod.
  - apply continuation_byte. n_divmod.
  - apply continuation_byte. n_divmod.
  - apply continuation_byte. n_divmod.
  - rewrite byte_value by n_divmod. n_divmod.
  - rewrite byte_value by n_divmod. n_divmod.
Qed.

Lemma decode_encode cps :
  forallb Utf8.code_point cps = true -> Utf8.decode (Utf8.encode cps) = cps.
Proof.
  induction cps as [| c r IH]; [reflexivity |].
  cbn [forallb Utf8.encode fold_right]. intros H.
  apply andb_true_iff in H. destruct H as [Hc Hr].
  rewrite (decode_encode_cp _ _ Hc). f_equal. exact (IH Hr).
Qed.

(** *** [str.strip] *)

Lemma is_space_blank c : Unicode.is_space c = true <-> blank c.
Proof.
  unfold blank, python_whitespace. split.
  - unfold Unicode.is_space, Unicode.in_ranges, Unicode.whitespace. cbn [existsb fst snd In].
    intros H. n_bool H. intuition (try discriminate; lia).
  - intros H. cbn [In] in H.
    repeat (destruct H as [<- | H]; [reflexivity |]). destruct H.
Qed.

Lemma not_blank c : Unicode.is_space c = false -> ~ blank c.
Proof. intros H Hb. apply is_space_blank in Hb. congruence. Qed.

Lemma lstrip_split cps :
  exists before, cps = (before ++ Unicode.lstrip cps)%list /\ Forall blank before.
Proof.
  induction cps as [| c r (before & Heq & Hb)]; [exists []; split; [reflexivity | constructor] |].
  cbn [Unicode.lstrip]. destruct (Unicode.is_space c) eqn:Hc.
  - exists (c :: before). split; [cbn [app]; f_equal; exact Heq |].
    constructor; [apply is_space_blank, Hc | exact Hb].
  - exists []. split; [reflexivity | constructor].
Qed.

Lemma lstrip_head cps c rest :
  Unicode.lstrip cps = c :: rest -> Unicode.is_space c = false.
Proof.
  induction cps as [| d r IH]; cbn [Unicode.lstrip]; [discriminate |].
  destruct (Unicode.is_space d) eqn:Hd; [exact IH |].
  intros [= <- _]. exact Hd.
Qed.

Lemma rstrip_cons c r :
  Unicode.rstrip (c :: r) =
  match Unicode.rstrip r with
  | [] => if Unicode.is_space c then [] else [c]
  | r' => c :: r'
  end.
Proof. reflexivity. Qed.

Lemma rstrip_split l :
  exists after, l = (Unicode.rstrip l ++ after)%list /\ Forall blank after.
Proof.
  induction l as [| c r (after & Heq & Hb)]; [exists []; split; [reflexivity | constructor] |].
  rewrite rstrip_cons. destruct (Unicode.rstrip r) as [| d r'] eqn:Hr.
  - destruct (Unicode.is_space c) eqn:Hc.
    + exists (c :: after). split; [cbn [app] in *; f_equal; exact Heq |].
      constructor; [apply is_space_blank, Hc | exact Hb].
    + exists after. split; [cbn [app] in *; f_equal; exact Heq | exact Hb].
  - exists after. split; [cbn [app] in *; f_equal; exact Heq | exact Hb].
Qed.

Lemma rstrip_last l c front :
  Unicode.rstrip l = (front ++ [c])%list -> Unicode.is_space c = false.
Proof.
  revert front. induction l as [| d r IH]; intros front.
  - cbn [Unicode.rstrip]. intros H. destruct front; discriminate H.
  - rewrite rstrip_cons. destruct (Unicode.rstrip r) as [| d' r'] eqn:Hr.
    + destruct (Unicode.is_space d) eqn:Hd.
      * intros H. destruct front; discriminate H.
      * intros H. destruct front as [| f front'].
        -- injection H as <-. exact Hd.
        -- injection H as _ H. destruct front'; discriminate H.
    + intros H. destruct front as [| f front'].
      * discriminate H.
      * injection H as _ H. exact (IH _ H).
Qed.

Lemma rstrip_head c rest :
  Unicode.is_space c = false -> exists rest', Unicode.rstrip (c :: rest) = c :: rest'.
Proof.
  intros Hc. rewrite rstrip_cons. destruct (Unicode.rstrip rest) as [| d r'].
  - rewrite Hc. exists []. reflexivity.
  - exists (d :: r'). reflexivity.
Qed.

Lemma rstrip_nil_head l c rest :
  Unicode.rstrip l = c :: rest -> exists rest0, l = c :: rest0.
Proof.
  destruct l as [| d r]; [discriminate |]. rewrite rstrip_cons.
  destruct (Unicode.rstrip r); [destruct (Unicode.is_space d) |];
    intros [= <- _]; eexists; reflexivity.
Qed.

(** [strip] takes the whitespace away at the two ends, and nothing else. *)
Lemma strip_trimmed cps : trimmed cps (Unicode.strip cps).
Proof.
  unfold Unicode.strip.
  destruct (lstrip_split cps) as (before & Hb & Hbefore).
  destruct (rstrip_split (Unicode.lstrip cps)) as (after & Ha & Hafter).
  exists before, after. split; [rewrite <- Ha; exact Hb |].
  split; [exact Hbefore |]. split; [exact Hafter |]. split.
  - intros c rest Hcore. apply not_blank.
    destruct (rstrip_nil_head _ _ _ Hcore) as (rest0 & H0).
    exact (lstrip_head _ _ _ H0).
  - intros c front Hcore. apply not_blank. exact (rstrip_last _ _ _ Hcore).
Qed.

Lemma strip_code_points cps :
  forallb Utf8.code_point cps = true ->
  forallb Utf8.code_point (Unicode.strip cps) = true.
Proof.
  intros H. destruct (strip_trimmed cps) as (before & after & Heq & _).
  rewrite Heq in H. rewrite !forallb_app in H.
  apply andb_true_iff in H. destruct H as [_ H].
  apply andb_true_iff in H. exact (proj1 H).
Qed.

(** *** [str.lower] *)

Lemma run_lookup_In runs c x :
  Unicode.run_lookup runs c = Some x -> In (c, x) (flat_map expand_run runs).
Proof.
  induction runs as [| [[[first count] step] image] rest IH]; [discriminate |].
  cbn [Unicode.run_lookup flat_map].
  destruct ((first <=? c) && (c <? first + count * step)
            && ((c - first) mod step =? 0))%N eqn:Hc.
  - intros [= <-]. apply in_or_app. left. unfold expand_run.
    apply andb_true_iff in Hc. destruct Hc as [Hc Hm].
    apply andb_true_iff in Hc. destruct Hc as [Hlo Hhi].
    apply N.leb_le in Hlo. apply N.ltb_lt in Hhi. apply N.eqb_eq in Hm.
    assert (Hstep : step <> 0%N) by (intros ->; lia).
    apply N.Div0.div_exact in Hm.
    set (q := ((c - first) / step)%N) in *.
    apply in_map_iff. exists (N.to_nat q). rewrite N2Nat.id. split.
    + f_equal; lia.
    + apply in_seq. split; [lia |]. cbn [plus].
      assert (q < count)%N; [| lia].
      apply (N.mul_lt_mono_pos_l step); lia.
  - intros H. apply in_or_app. right. exact (IH H).
Qed.

Lemma lower_pairs_settled :
  forallb (fun p => settled_image (snd p)) lower_pairs = true.
Proof. vm_compute. reflexivity. Qed.

Lemma settled_spec x :
  settled x = true <-> Unicode.lower_cp x = [x] /\ x <> 931%N.
Proof.
  unfold settled. rewrite andb_true_iff, negb_true_iff, N.eqb_neq.
  destruct (Unicode.lower_cp x) as [| y [| z l]].
  - split; [intros [H _]; discriminate H | intros [H _]; discriminate H].
  - rewrite N.eqb_eq. split; [intros [-> H]; split; [reflexivity | exact H] |].
    intros [[= ->] H]. split; [reflexivity | exact H].
  - split; [intros [H _]; discriminate H | intros [H _]; discriminate H].
Qed.

(** A lowercase mapping leaves its argument alone, or gives code points that
    are settled, no whitespace, and code points. *)
Lemma lower_cp_cases c :
  Unicode.lower_cp c = [c]
  \/ Forall (fun x => settled_image x = true) (Unicode.lower_cp c).
Proof.
  unfold Unicode.lower_cp. destruct (c =? 304)%N.
  - right. repeat constructor.
  - destruct (Unicode.run_lookup Unicode.lower_runs c) as [x |] eqn:Hx; [right | left; reflexivity].
    constructor; [| constructor].
    apply run_lookup_In in Hx.
    exact (proj1 (forallb_forall _ _) lower_pairs_settled _ Hx).
Qed.

Lemma settled_image_settled x : settled_image x = true -> settled x = true.
Proof.
  unfold settled_image. intros H.
  apply andb_true_iff in H. destruct H as [H _].
  apply andb_true_iff in H. exact (proj1 H).
Qed.

(** What [lower] returns is made of settled code points. *)
Lemma lower_from_settled before l :
  Forall (fun x => settled x = true) (Unicode.lower_from before l).
Proof.
  revert before. induction l as [| c r IH]; intros before; cbn [Unicode.lower_from].
  - constructor.
  - apply Forall_app. split; [| apply IH].
    destruct (N.eqb_spec c 931) as [-> | Hc].
    + destruct (Unicode.final_sigma before r); repeat constructor.
    + destruct (lower_cp_cases c) as [H | H].
      * rewrite H. constructor; [| constructor]. apply settled_spec. split; assumption.
      * eapply Forall_impl; [| exact H]. exact settled_image_settled.
Qed.

Lemma lower_from_fixed l :
  Forall (fun x => settled x = true) l ->
  forall before, Unicode.lower_from before l = l.
Proof.
  induction 1 as [| c r Hc _ IH]; intros before; cbn [Unicode.lower_from]; [reflexivity |].
  apply settled_spec in Hc. destruct Hc as [Hc Hs].
  destruct (N.eqb_spec c 931) as [-> | _]; [contradiction |].
  rewrite Hc, IH. reflexivity.
Qed.

Lemma settled_lowercased x : settled x = true -> lowercased x.
Proof.
  intros H. unfold lowercased, Unicode.lower.
  apply lower_from_fixed. constructor; [exact H | constructor].
Qed.

Lemma run_lookup_below runs c :
  forallb (fun run => (c <? fst (fst (fst run)))%N) runs = true ->
  Unicode.run_lookup runs c = None.
Proof.
  induction runs as [| [[[first count] step] image] rest IH]; [reflexivity |].
  cbn [forallb fst Unicode.run_lookup]. intros H.
  apply andb_true_iff in H. destruct H as [Hc Hr]. apply N.ltb_lt in Hc.
  n_test. exact (IH Hr).
Qed.

Lemma lower_runs_above_ascii :
  forallb (fun run => (128 <=? fst (fst (fst run)))%N) (tl Unicode.lower_runs) = true.
Proof. vm_compute. reflexivity. Qed.

(** On ASCII, [lower] moves the capital letters by 32 and nothing else. *)
Lemma lower_cp_ascii c : is_ascii c -> Unicode.lower_cp c = [ascii_lower c].
Proof.
  unfold is_ascii. intros Hc. unfold Unicode.lower_cp, ascii_lower.
  destruct (N.eqb_spec c 304) as [-> | _]; [lia |].
  assert (Hrest : Unicode.run_lookup (tl Unicode.lower_runs) c = None).
  { apply run_lookup_below. apply forallb_forall. intros run Hrun.
    pose proof (proj1 (forallb_forall _ _) lower_runs_above_ascii run Hrun) as H.
    cbv beta in H. apply N.leb_le in H. apply N.ltb_lt. lia. }
  change Unicode.lower_runs with ((65, 26, 1, 97)%N :: tl Unicode.lower_runs).
  cbn [Unicode.run_lookup]. rewrite N.mod_1_r.
  n_test.
  - n_test. f_equal. lia.
  - rewrite Hrest. n_test. reflexivity.
Qed.

Lemma lower_from_ascii l :
  Forall is_ascii l ->
  forall before, Unicode.lower_from before l = map ascii_lower l.
Proof.
  induction 1 as [| c r Hc _ IH]; intros before; cbn [Unicode.lower_from map]; [reflexivity |].
  destruct (N.eqb_spec c 931) as [-> | _]; [unfold is_ascii in Hc; lia |].
  rewrite (lower_cp_ascii c Hc), IH. reflexivity.
Qed.

(** What [.strip().lower()] gives for a well-formed string. *)
Lemma normalize_decoded s :
  Utf8.well_formed s = true ->
  normalize s = Utf8.encode (Unicode.lower (Unicode.strip (Utf8.decode s))).
Proof.
  intros H. unfold normalize, PyStr.lower, PyStr.strip.
  rewrite decode_encode; [reflexivity |]. apply strip_code_points. exact H.
Qed.

(** [prepareDNSRecord] on a target whose name is a string. *)
Lemma prepareDNSRecord_named g d base_domain_name ip option s :
  Py.lookup "name" d = Some (PStr s) ->
  prepareDNSRecord g (PDict d) base_domain_name ip option =
  rbind (option_proxied option) (fun default =>
  let fqdn := fqdn_of (normalize s) base_domain_name in
  let proxied :=
    match Py.lookup "proxied" d with Some p => p | None => default end in
  Ok (fqdn, mkRecord (ip_type ip) fqdn (ip_addr ip) proxied (ttl g))).
Proof.
  intros Hn. unfold prepareDNSRecord. simpl. rewrite Hn. simpl.
  destruct (option_proxied option) as [default |]; [| reflexivity]. simpl.
  destruct (Py.lookup "proxied" d); reflexivity.
Qed.

Lemma option_proxied_some option p0 : proxied option = Some p0 -> option_proxied option = Ok p0.
Proof. unfold option_proxied. intros ->. reflexivity. Qed.

(** C7 (where the code departs from it): for a target without a ["name"]
    key, [subdomain.get("name", subdomain)] is the target itself, a
    dictionary, which has no [strip]: [prepareDNSRecord] raises
    [AttributeError] and computes no name, whatever the base domain, the
    address and the account. *)
Theorem prepareDNSRecord_nameless_target_raises g d base_domain_name ip option :
  Py.lookup "name" d = None ->
  prepareDNSRecord g (PDict d) base_domain_name ip option
  = Raise (mkExn AttributeError "'dict' object has no attribute 'strip'").
Proof.
  intros Hn. unfold prepareDNSRecord. simpl. rewrite Hn. reflexivity.
Qed.

Lemma prepareDNSRecord_nameless_target_raises_witness :
  prepareDNSRecord Ex.g0 (PDict [("proxied", PBool true)]) (PStr "example.com")
    Ex.ip4 Ex.acct
  = Raise (mkExn AttributeError "'dict' object has no attribute 'strip'").
Proof.
  apply (prepareDNSRecord_nameless_target_raises Ex.g0 [("proxied", PBool true)]
           (PStr "example.com") Ex.ip4 Ex.acct).
  reflexivity.
Defined.

(** The other cases of the name: [""] and ["@"], with whitespace around them
    or not, give the base domain; a name gives the name, a dot and the base
    domain. *)
Example prepareDNSRecord_apex :
  map (fun name =>
         prepareDNSRecord Ex.g0 (PDict [("name", PStr name)]) (PStr "example.com")
           Ex.ip4 Ex.acct)
      [""; "@"; " @ "; "www"]
  = map (fun fqdn => Ok (PStr fqdn,
                         mkRecord "A" (PStr fqdn) (PStr "1.2.3.4") (PBool false) 1))
      ["example.com"; "example.com"; "example.com"; "www.example.com"].
Proof. reflexivity. Qed.


(** ** Frames: what a run may change *)

Section Steps.

Variable P : request -> Prop.
Variable R : state -> state -> Prop.
Hypothesis R_refl : forall s, R s s.
Hypothesis R_trans : forall s1 s2 s3, R s1 s2 -> R s2 s3 -> R s1 s3.
Hypothesis R_print : forall line s, R s (add_line line s).
Hypothesis R_call : forall req s, P req -> R s (record_call req s).

Lemma steps_ret A (a : A) : steps R (ret a).
Proof. intros s. apply R_refl. Qed.

Lemma steps_raise A e : steps R (@raise A e).
Proof. intros s. apply R_refl. Qed.

Lemma steps_lift A (r : result A) : steps R (lift r).
Proof. intros s. apply R_refl. Qed.

Lemma steps_bind A B (m : M A) (k : A -> M B) :
  steps R m -> (forall a, steps R (k a)) -> steps R (bind m k).
Proof.
  intros Hm Hk s. unfold bind. specialize (Hm s).
  destruct (m s) as [[a | e] s1]; simpl in *.
  - eapply R_trans; [exact Hm | apply Hk].
  - exact Hm.
Qed.

Lemma steps_try_except A (m : M A) handles h :
  steps R m -> (forall e, steps R (h e)) -> steps R (try_except m handles h).
Proof.
  intros Hm Hh s. unfold try_except. specialize (Hm s).
  destruct (m s) as [[a | e] s1]; simpl in *.
  - exact Hm.
  - destruct (handles e); [| exact Hm].
    eapply R_trans; [exact Hm | apply Hh].
Qed.

Lemma steps_for_each A (l : list A) body :
  (forall x, steps R (body x)) -> steps R (for_each l body).
Proof.
  intros Hb. induction l as [| x l IH]; simpl.
  - apply steps_ret.
  - apply steps_bind; [apply Hb | intros _; exact IH].
Qed.

Lemma steps_when b m : steps R m -> steps R (when b m).
Proof. intros Hm. destruct b; [exact Hm | apply steps_ret]. Qed.

Lemma steps_print line : steps R (print line).
Proof. intros s. apply R_print. Qed.

Lemma steps_read_global field name : steps R (read_global field name).
Proof. intros s. unfold read_global. destruct (field s); apply R_refl. Qed.

Lemma steps_requests_request net req : P req -> steps R (requests_request net req).
Proof.
  intros Hreq s. unfold requests_request.
  destruct (net _ _); apply R_call, Hreq.
Qed.

Lemma steps_cf_api net endpoint method config headers data :
  (forall h, buildHeaders config = Ok h -> P (cf_request h endpoint method data)) ->
  steps R (cf_api net endpoint method config headers data).
Proof.
  intros Hreq s.
  destruct (buildHeaders config) as [h | e] eqn:Hh.
  - rewrite (cf_api_run _ _ _ _ _ _ _ _ Hh). specialize (Hreq h eq_refl).
    destruct (failure_of _ _).
    + simpl. eapply R_trans; [apply R_call, Hreq | apply R_print].
    + destruct (net _ _) as [msg | r]; [apply R_call, Hreq |].
      destruct (json_body r); apply R_call, Hreq.
  - unfold cf_api, bind, lift. rewrite Hh. apply R_refl.
Qed.

Ltac steps_auto :=
  repeat match goal with
    | |- forall _, _ => intro
    | |- steps _ (ret _) => apply steps_ret
    | |- steps _ (raise _) => apply steps_raise
    | |- steps _ (lift _) => apply steps_lift
    | |- steps _ (print _) => apply steps_print
    | |- steps _ (read_global _ _) => apply steps_read_global
    | |- steps _ (bind _ _) => apply steps_bind
    | |- steps _ (try_except _ _ _) => apply steps_try_except
    | |- steps _ (for_each _ _) => apply steps_for_each
    | |- steps _ (when _ _) => apply steps_when
    | |- steps _ (if ?b then _ else _) => destruct b
    | |- steps _ (let '(_, _) := ?x in _) => destruct x
    | |- steps _ (match ?x with _ => _ end) => destruct x
    end.

Lemma steps_processDNSRecord_listed net fqdn record option v :
  (forall h identifier, buildHeaders option = Ok h ->
                        P (put_request h option identifier record)) ->
  (forall h, buildHeaders option = Ok h -> P (post_request h option record)) ->
  steps R (processDNSRecord_listed net fqdn record option v).
Proof.
  intros Hput Hpost. unfold processDNSRecord_listed. steps_auto.
  - apply steps_cf_api. intros h Hh. apply (Hput h _ Hh).
  - apply steps_cf_api. intros h Hh. apply (Hpost h Hh).
Qed.

Lemma steps_processDNSRecord net fqdn record record_type option :
  (forall h, buildHeaders option = Ok h -> P (list_request h option record_type)) ->
  (forall h identifier, buildHeaders option = Ok h ->
                        P (put_request h option identifier record)) ->
  (forall h, buildHeaders option = Ok h -> P (post_request h option record)) ->
  steps R (processDNSRecord net fqdn record record_type option).
Proof.
  intros Hlist Hput Hpost. unfold processDNSRecord.
  apply steps_bind.
  - apply steps_cf_api. intros h Hh. apply (Hlist h Hh).
  - intros v. apply steps_processDNSRecord_listed; assumption.
Qed.

Section Methods.

Hypothesis P_get : forall req, req_method req = "GET" -> P req.

Lemma steps_get_public_ip_from net services :
  steps R (get_public_ip_from net services).
Proof.
  induction services as [| service rest IH]; simpl.
  - apply steps_raise.
  - apply steps_bind.
    + apply steps_try_except.
      * apply steps_bind; [| steps_auto].
        apply steps_requests_request, P_get. reflexivity.
      * steps_auto.
    + intros [ip |]; [apply steps_ret | exact IH].
Qed.

Lemma steps_trace_attempt net url aaaa : steps R (trace_attempt net url aaaa).
Proof.
  intros s. unfold trace_attempt, requests_get, requests_request.
  assert (Hreq : R s (record_call (mkRequest "GET" url [] None None) s))
    by (apply R_call, P_get; reflexivity).
  destruct (net _ _) as [msg | r]; [exact Hreq |].
  destruct (list_pop _); [| exact Hreq].
  destruct (rbind _ _); exact Hreq.
Qed.

Section Reconcile.

Hypothesis P_put : forall req, req_method req = "PUT" -> P req.
Hypothesis P_post : forall req, req_method req = "POST" -> P req.

Lemma steps_commitRecord net g ip : steps R (commitRecord net g ip).
Proof.
  unfold commitRecord. apply steps_for_each. intros option.
  apply steps_bind.
  { apply steps_cf_api. intros h _. apply P_get. reflexivity. }
  intros response. steps_auto.
  apply steps_processDNSRecord; intros;
    first [apply P_get; reflexivity | apply P_put; reflexivity
          | apply P_post; reflexivity].
Qed.

Lemma steps_updateIPs net g ips : steps R (updateIPs net g ips).
Proof.
  unfold updateIPs. apply steps_bind; [apply steps_print | intros _].
  apply steps_for_each. intros ip. apply steps_try_except.
  - apply steps_bind; [apply steps_commitRecord | intros; apply steps_print].
  - intros e. apply steps_print.
Qed.

End Reconcile.

Lemma steps_deleteEntries net g type :
  (forall req, req_method req = "DELETE" -> P req) ->
  steps R (deleteEntries net g type).
Proof.
  intros P_delete. unfold deleteEntries. apply steps_for_each. intros option.
  unfold deleteEntries_option. apply steps_bind.
  { apply steps_cf_api. intros h _. apply P_get. reflexivity. }
  intros answer. steps_auto. unfold deleteEntries_record. steps_auto.
  apply steps_cf_api. intros h _. apply P_delete. reflexivity.
Qed.

Hypothesis R_set_ipv4 : forall b s, R s (snd (set_shown_ipv4_warning b s)).
Hypothesis R_set_ipv6 : forall b s, R s (snd (set_shown_ipv6_warning b s)).
Hypothesis R_set_ipv6_secondary :
  forall b s, R s (snd (set_shown_ipv6_warning_secondary b s)).

Lemma steps_getIPs_ipv4 net g :
  (purgeUnknownRecords g = true -> forall req, req_method req = "DELETE" -> P req) ->
  steps R (getIPs_ipv4 net g).
Proof.
  intros P_delete.
  unfold getIPs_ipv4. destruct (ipv4_enabled g); [| apply steps_ret].
  apply steps_try_except.
  - apply steps_bind; [apply steps_get_public_ip_from | steps_auto].
  - intros e. apply steps_bind; [apply steps_read_global | intros shown].
    apply steps_bind.
    { apply steps_when, steps_bind; [exact (R_set_ipv4 true) | steps_auto]. }
    intros _. apply steps_bind; [| steps_auto].
    destruct (purgeUnknownRecords g); [| apply steps_ret].
    apply steps_deleteEntries, P_delete. reflexivity.
Qed.

Lemma steps_getIPs net g :
  (purgeUnknownRecords g = true -> forall req, req_method req = "DELETE" -> P req) ->
  steps R (getIPs net g).
Proof.
  intros P_delete.
  assert (Hpurge : forall type,
             steps R (when (purgeUnknownRecords g) (deleteEntries net g type))).
  { intros type. destruct (purgeUnknownRecords g); [| apply steps_ret].
    apply steps_deleteEntries, P_delete. reflexivity. }
  unfold getIPs. apply steps_bind; [| intros a; apply steps_bind; [| steps_auto]].
  - unfold getIPs_ipv4. destruct (ipv4_enabled g); [| apply steps_ret].
    apply steps_try_except.
    + apply steps_bind; [apply steps_get_public_ip_from | steps_auto].
    + intros e. apply steps_bind; [apply steps_read_global | intros shown].
      apply steps_bind.
      { apply steps_when, steps_bind; [exact (R_set_ipv4 true) | steps_auto]. }
      intros _. apply steps_bind; [apply Hpurge | steps_auto].
  - unfold getIPs_ipv6. destruct (ipv6_enabled g); [| apply steps_ret].
    apply steps_bind; [apply steps_trace_attempt | intros [aaaa [e1 |]]];
      [| apply steps_ret].
    apply steps_bind; [apply steps_read_global | intros shown].
    apply steps_bind.
    { apply steps_when, steps_bind; [exact (R_set_ipv6 true) | steps_auto]. }
    intros _.
    apply steps_bind; [apply steps_trace_attempt | intros [aaaa' [e2 |]]];
      [| apply steps_ret].
    apply steps_bind; [apply steps_read_global | intros shown'].
    apply steps_bind.
    { apply steps_when, steps_bind; [exact (R_set_ipv6_secondary true) | steps_auto]. }
    intros _. apply steps_bind; [apply Hpurge | steps_auto].
Qed.

End Methods.

End Steps.

(** *** The sleeps are left alone *)

Lemma same_sleeps_refl s : same_sleeps s s.
Proof. reflexivity. Qed.

Lemma same_sleeps_trans s1 s2 s3 :
  same_sleeps s1 s2 -> same_sleeps s2 s3 -> same_sleeps s1 s3.
Proof. unfold same_sleeps. congruence. Qed.

Lemma getIPs_same_sleeps net g : steps same_sleeps (getIPs net g).
Proof.
  apply (steps_getIPs (fun _ => True) same_sleeps same_sleeps_refl same_sleeps_trans);
    intros; first [reflexivity | exact I].
Qed.

Lemma updateIPs_same_sleeps net g ips : steps same_sleeps (updateIPs net g ips).
Proof.
  apply (steps_updateIPs (fun _ => True) same_sleeps same_sleeps_refl
           same_sleeps_trans);
    intros; first [reflexivity | exact I].
Qed.

(** *** The warn-once globals are left alone by the detection requests *)

Lemma same_flags_refl s : same_flags s s.
Proof. repeat split. Qed.

Lemma same_flags_trans s1 s2 s3 :
  same_flags s1 s2 -> same_flags s2 s3 -> same_flags s1 s3.
Proof. unfold same_flags. intros (? & ? & ?) (? & ? & ?). repeat split; congruence. Qed.

Lemma get_public_ip_same_flags net : steps same_flags (get_public_ip net).
Proof.
  apply (steps_get_public_ip_from (fun _ => True) same_flags same_flags_refl
           same_flags_trans);
    intros; first [repeat split | exact I].
Qed.

(** *** The requests issued *)

Lemma issued_only_refl P s : issued_only P s s.
Proof. exists []. split; [symmetry; apply app_nil_r | constructor]. Qed.

Lemma issued_only_trans P s1 s2 s3 :
  issued_only P s1 s2 -> issued_only P s2 s3 -> issued_only P s1 s3.
Proof.
  intros (rs1 & H1 & F1) (rs2 & H2 & F2). exists (rs1 ++ rs2)%list. split.
  - rewrite H2, H1, app_assoc. reflexivity.
  - apply Forall_app. split; assumption.
Qed.

Lemma issued_only_same_calls P s s' : calls s' = calls s -> issued_only P s s'.
Proof.
  intros H. exists []. split; [rewrite H; symmetry; apply app_nil_r | constructor].
Qed.

Lemma issued_only_print P line s : issued_only P s (add_line line s).
Proof. apply issued_only_same_calls. reflexivity. Qed.

Lemma issued_only_call P req s : P req -> issued_only P s (record_call req s).
Proof. intros H. exists [req]. split; [reflexivity | constructor; [exact H | constructor]]. Qed.

Lemma issued_only_since P s s' : issued_only P s s' -> Forall P (issued_since s s').
Proof. intros (rs & H & F). rewrite (issued_since_app _ _ _ H). exact F. Qed.

(** Every write call of [processDNSRecord] carries the record it was given. *)
Lemma processDNSRecord_carries net fqdn record record_type option :
  steps (issued_only (carries record))
        (processDNSRecord net fqdn record record_type option).
Proof.
  apply (steps_processDNSRecord (carries record) (issued_only (carries record))
           (issued_only_refl _) (issued_only_trans _) (issued_only_print _)
           (issued_only_call _)).
  - intros h _ Hw. discriminate Hw.
  - intros h identifier _ _. reflexivity.
  - intros h _ _. reflexivity.
Qed.

(** Without purging, one turn of the loop issues no DELETE. *)
Lemma not_delete_filter rs : Forall not_delete rs -> filter is_delete rs = [].
Proof.
  induction 1 as [| req rs Hreq _ IH]; simpl; [reflexivity |].
  unfold not_delete in Hreq. rewrite Hreq. exact IH.
Qed.

Lemma getIPs_no_delete net g :
  purgeUnknownRecords g = false ->
  steps (issued_only not_delete) (getIPs net g).
Proof.
  intros Hpurge.
  apply (steps_getIPs not_delete (issued_only not_delete)
           (issued_only_refl _) (issued_only_trans _) (issued_only_print _)
           (issued_only_call _)).
  - intros req Hm. unfold not_delete, is_delete. rewrite Hm. reflexivity.
  - intros b s. apply issued_only_same_calls. reflexivity.
  - intros b s. apply issued_only_same_calls. reflexivity.
  - intros b s. apply issued_only_same_calls. reflexivity.
  - rewrite Hpurge. discriminate.
Qed.

Lemma updateIPs_no_delete net g ips :
  steps (issued_only not_delete) (updateIPs net g ips).
Proof.
  apply (steps_updateIPs not_delete (issued_only not_delete)
           (issued_only_refl _) (issued_only_trans _) (issued_only_print _)
           (issued_only_call _));
    intros req Hm; unfold not_delete, is_delete; rewrite Hm; reflexivity.
Qed.

Lemma get_public_ip_no_delete net : steps (issued_only not_delete) (get_public_ip net).
Proof.
  apply (steps_get_public_ip_from not_delete (issued_only not_delete)
           (issued_only_refl _) (issued_only_trans _) (issued_only_print _)
           (issued_only_call _)).
  intros req Hm. unfold not_delete, is_delete. rewrite Hm. reflexivity.
Qed.

(** ** [updateIPs] returns *)

Lemma for_each_returns A (l : list A) body :
  (forall x s, exists s', body x s = (Ok tt, s')) ->
  forall s, exists s', for_each l body s = (Ok tt, s').
Proof.
  intros Hb. induction l as [| x l IH]; intros s; simpl.
  - exists s. reflexivity.
  - unfold bind. destruct (Hb x s) as [s1 ->]. apply IH.
Qed.

(** Whatever the detected addresses, the network and the provider answer,
    [updateIPs] returns: every exception of [commitRecord] is caught. *)
Lemma updateIPs_returns net g ips s :
  exists s', updateIPs net g ips s = (Ok tt, s').
Proof.
  unfold updateIPs, bind, print.
  apply for_each_returns. intros ip s0. unfold try_except.
  match goal with |- context [match ?run with _ => _ end] => destruct run as [[[] | e] s1] end.
  - exists s1. reflexivity.
  - simpl. eexists. reflexivity.
Qed.

(** ** The TTL *)

Lemma poll_cycle_sleeps net g s s' :
  poll_cycle net g s = (Ok tt, s') -> sleeps s' = (sleeps s ++ [ttl g])%list.
Proof.
  unfold poll_cycle, bind.
  pose proof (getIPs_same_sleeps net g s) as H1.
  destruct (getIPs net g s) as [[ips | e] s1]; [| discriminate].
  pose proof (updateIPs_same_sleeps net g ips s1) as H2.
  destruct (updateIPs net g ips s1) as [[[] | e] s2]; [| discriminate].
  unfold time_sleep. intros [= <-]. simpl in *.
  unfold same_sleeps in *. simpl in *. congruence.
Qed.

(** C9: the TTL in force is the configured value, raised to 1 when it is
    lower; a configured 0 gives 1.  It is the [ttl] field of every record
    [prepareDNSRecord] builds, and the time a turn of the loop sleeps. *)
Theorem effective_ttl_is_max_1 net cfg z :
  config_ttl cfg = Some z ->
  let g := main_globals cfg in
  ttl g = Z.max z 1
  /\ (z = 0 -> ttl g = 1)
  /\ (forall subdomain base_domain_name ip option fqdn record,
        prepareDNSRecord g subdomain base_domain_name ip option = Ok (fqdn, record) ->
        Py.getitem (record_json record) "ttl" = Ok (PInt (Z.max z 1)))
  /\ (forall s s',
        poll_cycle net g s = (Ok tt, s') -> sleeps s' = (sleeps s ++ [Z.max z 1])%list).
Proof.
  intros Hz g.
  assert (Hg : ttl g = Z.max z 1).
  { subst g. unfold main_globals, main_ttl. simpl. rewrite Hz. reflexivity. }
  split; [exact Hg |]. split; [intros ->; exact Hg |]. split.
  - intros subdomain base_domain_name ip option fqdn record.
    unfold prepareDNSRecord.
    destruct (Py.get subdomain "name" subdomain) as [raw |]; simpl; [| discriminate].
    destruct (Py.strip raw) as [stripped |]; simpl; [| discriminate].
    destruct (option_proxied option) as [default |]; simpl; [| discriminate].
    destruct (Py.get subdomain "proxied" default) as [p |]; simpl; [| discriminate].
    intros [= _ <-].
    change (Ok (PInt (ttl g)) = Ok (PInt (Z.max z 1))). rewrite Hg. reflexivity.
  - intros s s' Hrun. rewrite <- Hg. exact (poll_cycle_sleeps _ _ _ _ Hrun).
Qed.

Lemma effective_ttl_is_max_1_witness :
  let g := main_globals Ex.cfg0 in
  ttl g = Z.max 0 1
  /\ (0 = 0 -> ttl g = 1)
  /\ (forall subdomain base_domain_name ip option fqdn record,
        prepareDNSRecord g subdomain base_domain_name ip option = Ok (fqdn, record) ->
        Py.getitem (record_json record) "ttl" = Ok (PInt (Z.max 0 1)))
  /\ (forall s s',
        poll_cycle Ex.net_404 g s = (Ok tt, s') ->
        sleeps s' = (sleeps s ++ [Z.max 0 1])%list).
Proof.
  apply (effective_ttl_is_max_1 Ex.net_404 Ex.cfg0 0). reflexivity.
Defined.

(** ** The poll cycle and the warn-once globals *)

Lemma read_unbound field name s :
  field s = None ->
  read_global field name s =
  (Raise (mkExn NameError ("name '" ++ name ++ "' is not defined")), s).
Proof. unfold read_global. intros ->. reflexivity. Qed.

Lemma bind_run A B (m : M A) (k : A -> M B) s :
  bind m k s =
  match m s with
  | (Ok a, s') => k a s'
  | (Raise e, s') => (Raise e, s')
  end.
Proof. reflexivity. Qed.

(** An attempt whose request meets a transport error leaves [aaaa] as it
    was. *)
Lemma trace_attempt_fails net url aaaa s msg :
  net (length (calls s)) (trace_request url) = TransportError msg ->
  trace_attempt net url aaaa s =
  (Ok (aaaa, Some (mkExn ConnectionError msg)), record_call (trace_request url) s).
Proof.
  intros Hnet. unfold trace_attempt, requests_get, requests_request.
  fold (trace_request url). rewrite Hnet. reflexivity.
Qed.

(** The IPv6 branch of [getIPs], when the first attempt fails and
    [shown_ipv6_warning] is not bound: the handler raises [NameError] before
    the second endpoint is tried and before anything is purged. *)
Lemma getIPs_ipv6_unbound net g s msg :
  ipv6_enabled g = true ->
  shown_ipv6_warning s = None ->
  net (length (calls s)) (trace_request trace_primary) = TransportError msg ->
  getIPs_ipv6 net g s =
  (Raise (mkExn NameError "name 'shown_ipv6_warning' is not defined"),
   record_call (trace_request trace_primary) s).
Proof.
  intros He Hflag Hnet.
  unfold getIPs_ipv6. rewrite He.
  rewrite bind_run.
  pose proof (trace_attempt_fails net trace_primary PNone s msg Hnet) as Hfirst.
  unfold trace_primary in Hfirst. rewrite Hfirst.
  rewrite bind_run, read_unbound; [reflexivity | exact Hflag].
Qed.

(** The IPv4 branch of [getIPs] with [shown_ipv4_warning] not bound: either
    an address is detected, or the handler raises [NameError]; either way
    only the detection services have been asked. *)
Lemma getIPs_ipv4_unbound net g s :
  ipv4_enabled g = true ->
  shown_ipv4_warning s = None ->
  (exists a s1, getIPs_ipv4 net g s = (Ok a, s1)
                /\ same_flags s s1 /\ issued_only not_delete s s1)
  \/ (exists s1, getIPs_ipv4 net g s =
                 (Raise (mkExn NameError "name 'shown_ipv4_warning' is not defined"), s1)
                 /\ issued_only not_delete s s1).
Proof.
  intros He Hflag. unfold getIPs_ipv4. rewrite He.
  unfold try_except. rewrite bind_run.
  pose proof (get_public_ip_same_flags net s) as Hsame.
  pose proof (get_public_ip_no_delete net s) as Hcalls.
  destruct (get_public_ip net s) as [[a | e] s1]; simpl in Hsame, Hcalls.
  - left. exists (PStr a), s1. split; [reflexivity | split; assumption].
  - right. exists s1. simpl. rewrite bind_run.
    rewrite read_unbound; [split; [reflexivity | exact Hcalls] |].
    destruct Hsame as (H4 & _). congruence.
Qed.

(** [getIPs] in a state where the warn-once globals are not bound, on a host
    whose first trace endpoint cannot be reached: [NameError], and no DELETE
    has been issued, purging enabled or not. *)
Lemma getIPs_unbound net g s :
  ipv6_enabled g = true ->
  shown_ipv4_warning s = None ->
  shown_ipv6_warning s = None ->
  trace_endpoint_fails net trace_primary ->
  exists e s',
    getIPs net g s = (Raise e, s')
    /\ exn_cls e = NameError
    /\ issued_only not_delete s s'.
Proof.
  intros H6 Hf4 Hf6 Hnet. unfold getIPs. rewrite bind_run.
  assert (Hv6 : forall s1,
             shown_ipv6_warning s1 = None -> issued_only not_delete s s1 ->
             exists e s',
               getIPs_ipv6 net g s1 = (Raise e, s')
               /\ exn_cls e = NameError /\ issued_only not_delete s s').
  { intros s1 Hflag Hcalls. destruct (Hnet (length (calls s1))) as [msg Hmsg].
    rewrite (getIPs_ipv6_unbound net g s1 msg H6 Hflag Hmsg).
    eexists _, _. split; [reflexivity |]. split; [reflexivity |].
    eapply issued_only_trans; [exact Hcalls |].
    apply issued_only_call. reflexivity. }
  destruct (ipv4_enabled g) eqn:H4.
  - destruct (getIPs_ipv4_unbound net g s H4 Hf4)
      as [(a & s1 & -> & (_ & Hs6 & _) & Hcalls) | (s1 & -> & Hcalls)].
    + rewrite bind_run.
      destruct (Hv6 s1) as (e & s' & -> & Hcls & Hiss);
        [congruence | exact Hcalls |].
      exists e, s'. repeat split; assumption.
    + eexists _, _. split; [reflexivity |]. split; [reflexivity | exact Hcalls].
  - unfold getIPs_ipv4. rewrite H4. unfold ret at 1. rewrite bind_run.
    destruct (Hv6 s Hf6 (issued_only_refl _ _)) as (e & s' & -> & Hcls & Hiss).
    exists e, s'. repeat split; assumption.
Qed.

(** C1 (where the code departs from it): in the process as [__main__] starts
    it, a failure of the request to the first trace endpoint makes the first
    turn of the loop raise [NameError]; the exception leaves [getIPs] and the
    loop, and the process ends. *)
Theorem main_ends_on_detection_failure net cfg later :
  trace_endpoint_fails net trace_primary ->
  exists e s',
    main net cfg (false :: later) = (Raise e, s') /\ exn_cls e = NameError.
Proof.
  intros Hnet.
  destruct (getIPs_unbound net (main_globals cfg) initial_state eq_refl eq_refl
              eq_refl Hnet) as (e & s' & Hrun & Hcls & _).
  exists e, s'. split; [| exact Hcls].
  unfold main. simpl. rewrite bind_run. unfold poll_cycle. rewrite bind_run.
  rewrite Hrun. reflexivity.
Qed.

Lemma main_ends_on_detection_failure_witness :
  exists e s',
    main Ex.net_no_ipv6 Ex.cfg0 [false; false; true] = (Raise e, s')
    /\ exn_cls e = NameError.
Proof.
  apply (main_ends_on_detection_failure Ex.net_no_ipv6 Ex.cfg0 [false; true]).
  intros n. eexists. reflexivity.
Defined.

(** *** Purging is never switched on *)

Lemma poll_cycle_no_delete net g :
  purgeUnknownRecords g = false -> steps (issued_only not_delete) (poll_cycle net g).
Proof.
  intros Hpurge. unfold poll_cycle.
  apply (steps_bind _ (issued_only_trans not_delete));
    [apply getIPs_no_delete, Hpurge | intros ips].
  apply (steps_bind _ (issued_only_trans not_delete));
    [apply updateIPs_no_delete | intros _].
  intros s. apply issued_only_same_calls. reflexivity.
Qed.

(** On a host without IPv6 the run issues two requests, to the first IPv4
    service and to the first trace endpoint, and stops. *)
Example getIPs_no_ipv6_run :
  getIPs Ex.net_no_ipv6 Ex.g_purge initial_state =
  (Raise (mkExn NameError "name 'shown_ipv6_warning' is not defined"),
   record_call (trace_request trace_primary)
     (record_call (mkRequest "GET" "https://api.ipify.org" [] None (Some 5))
        initial_state)).
Proof. reflexivity. Qed.

(** A turn of the loop that completes: both families are detected, the stale
    [A] record is updated, and the turn sleeps for the TTL in force. *)
Example poll_cycle_completes :
  exists s',
    poll_cycle Ex.net_dual Ex.g0 initial_state = (Ok tt, s')
    /\ sleeps s' = [1]
    /\ map req_method (calls s') = ["GET"; "GET"; "GET"; "GET"; "PUT"; "GET"; "GET"; "PUT"].
Proof. eexists. split; [reflexivity | split; reflexivity]. Qed.

(** ** Normalization of the configured name *)

(** C10: for a target whose name is a string, the name is stripped and then
    lowercased before it is used.  Let [core] be the characters of the
    configured name without the whitespace at its two ends: the name used is
    the lowercase of [core], in which no character is left that lowercasing
    would change (on ASCII: the capital letters are moved to the small ones,
    nothing else changes).  In an account with a ["proxied"] entry a record
    is built: the computed name is made from the name used, it is the [name]
    field of the record, and that record is the body of every POST and PUT
    [processDNSRecord] issues for it.  In an account without one no record
    is built. *)
Theorem prepareDNSRecord_normalizes_name
    net g d base_domain_name ip option s record_type st :
  Py.lookup "name" d = Some (PStr s) ->
  Utf8.well_formed s = true ->
  exists core name,
    trimmed (Utf8.decode s) core
    /\ name = Utf8.encode (Unicode.lower core)
    /\ (Forall is_ascii core -> Unicode.lower core = map ascii_lower core)
    /\ Forall lowercased (Unicode.lower core)
    /\ (proxied option = None ->
        prepareDNSRecord g (PDict d) base_domain_name ip option
        = Raise (mkExn KeyError "'proxied'"))
    /\ (proxied option <> None ->
        exists record,
          prepareDNSRecord g (PDict d) base_domain_name ip option
          = Ok (rec_name record, record)
          /\ rec_name record
             = (if String.eqb name "" || String.eqb name "@" then base_domain_name
                else PStr (name ++ "." ++ Py.str base_domain_name))
          /\ Py.getitem (record_json record) "name" = Ok (rec_name record)
          /\ Forall (carries record)
               (issued_since st
                  (snd (processDNSRecord net (rec_name record) record record_type
                          option st)))).
Proof.
  intros Hn Hwf.
  rewrite (prepareDNSRecord_named _ _ _ _ _ _ Hn).
  rewrite (normalize_decoded _ Hwf). cbv zeta.
  exists (Unicode.strip (Utf8.decode s)), (Utf8.encode (Unicode.lower (Unicode.strip (Utf8.decode s)))).
  split; [apply strip_trimmed |].
  split; [reflexivity |].
  split; [intros Hascii; apply lower_from_ascii, Hascii |].
  split.
  { eapply Forall_impl; [| apply lower_from_settled]. exact settled_lowercased. }
  unfold option_proxied. destruct (proxied option) as [p0 |].
  - split; [discriminate |]. intros _. simpl rbind.
    eexists (mkRecord _ _ _ _ _).
    split; [reflexivity |].
    split.
    { cbn [rec_name]. unfold fqdn_of.
      destruct (String.eqb _ ""); [reflexivity |].
      destruct (String.eqb _ "@"); reflexivity. }
    split; [reflexivity |].
    apply issued_only_since, processDNSRecord_carries.
  - split; [reflexivity | intros H; contradiction].
Qed.

(** The configured name ["  Home "] gives the record ["home.example.com"],
    which is what the POST carries; beyond ASCII, a no-break space and an
    ideographic space are stripped, and capital letters of other scripts are
    lowercased, the final sigma as a final sigma. *)
Lemma prepareDNSRecord_normalizes_name_witness :
  (exists core name,
     trimmed (Utf8.decode "  Home ") core
     /\ name = Utf8.encode (Unicode.lower core)
     /\ (Forall is_ascii core -> Unicode.lower core = map ascii_lower core)
     /\ Forall lowercased (Unicode.lower core)
     /\ (proxied Ex.acct = None ->
         prepareDNSRecord Ex.g0 (PDict [("name", PStr "  Home ")]) (PStr "example.com")
           Ex.ip4 Ex.acct
         = Raise (mkExn KeyError "'proxied'"))
     /\ (proxied Ex.acct <> None ->
         exists record,
           prepareDNSRecord Ex.g0 (PDict [("name", PStr "  Home ")])
             (PStr "example.com") Ex.ip4 Ex.acct = Ok (rec_name record, record)
           /\ rec_name record
              = (if String.eqb name "" || String.eqb name "@" then PStr "example.com"
                 else PStr (name ++ "." ++ Py.str (PStr "example.com")))
           /\ Py.getitem (record_json record) "name" = Ok (rec_name record)
           /\ Forall (carries record)
                (issued_since initial_state
                   (snd (processDNSRecord (Ex.net_listing [Ex.other]) (rec_name record)
                           record "A" Ex.acct initial_state)))))
  /\ trimmed (Utf8.decode "  Home ") [72; 111; 109; 101]%N
  /\ Utf8.encode (Unicode.lower [72; 111; 109; 101]%N) = "home"
  /\ prepareDNSRecord Ex.g0 (PDict [("name", PStr "  Home ")]) (PStr "example.com")
       Ex.ip4 Ex.acct
     = Ok (PStr "home.example.com",
           mkRecord "A" (PStr "home.example.com") (PStr "1.2.3.4") (PBool false) 1)
  /\ map req_json
       (calls (snd (processDNSRecord (Ex.net_listing [Ex.other])
                      (PStr "home.example.com")
                      (mkRecord "A" (PStr "home.example.com") (PStr "1.2.3.4")
                         (PBool false) 1)
                      "A" Ex.acct initial_state)))
     = [None;
        Some (PDict [("type", PStr "A"); ("name", PStr "home.example.com");
                     ("content", PStr "1.2.3.4"); ("proxied", PBool false);
                     ("ttl", PInt 1)])]
  /\ map (fun name =>
            rbind (prepareDNSRecord Ex.g0 (PDict [("name", PStr name)])
                     (PStr "example.com") Ex.ip4 Ex.acct)
                  (fun p => Ok (fst p)))
         [Ex.nbsp ++ "ÉCOLE" ++ Ex.ideographic_space; "ΟΔΟΣ"]
     = map (fun fqdn => Ok (PStr fqdn)) ["école.example.com"; "οδος.example.com"].
Proof.
  split.
  - apply (prepareDNSRecord_normalizes_name (Ex.net_listing [Ex.other]) Ex.g0
             [("name", PStr "  Home ")] (PStr "example.com") Ex.ip4 Ex.acct "  Home "
             "A" initial_state); reflexivity.
  - split; [exact (strip_trimmed (Utf8.decode "  Home ")) |].
    split; [reflexivity |]. split; [reflexivity |]. split; reflexivity.
Defined.

(** Names beyond ASCII: the no-break space and the ideographic space are
    whitespace, the capital letters of every script are lowercased, a final
    capital sigma becomes a final small sigma. *)
Example prepareDNSRecord_beyond_ascii :
  map (fun name =>
         rbind (prepareDNSRecord Ex.g0 (PDict [("name", PStr name)])
                  (PStr "example.com") Ex.ip4 Ex.acct)
               (fun p => Ok (fst p)))
      ["  Home "; Ex.nbsp ++ "ÉCOLE" ++ Ex.ideographic_space; Ex.nbsp ++ "@" ++ Ex.nbsp;
       "ΟΔΟΣ"; "BÜCHER "]
  = map (fun fqdn => Ok (PStr fqdn))
      ["home.example.com"; "école.example.com"; "example.com";
       "οδος.example.com"; "bücher.example.com"].
Proof. reflexivity. Qed.

(** ** Purging *)

Lemma deleteEntries_records_calls net option h rs ids :
  buildHeaders option = Ok h ->
  Forall2 (fun r identifier => Py.getitem r "id" = Ok identifier) rs ids ->
  forall s, exists s',
    for_each rs (deleteEntries_record net option) s = (Ok tt, s')
    /\ calls s' = (calls s ++ map (delete_request h option) ids)%list.
Proof.
  intros Hh Hids. induction Hids as [| r identifier rs ids Hr _ IH]; intros s.
  - exists s. split; [reflexivity | symmetry; apply app_nil_r].
  - simpl. rewrite bind_run. unfold deleteEntries_record at 1.
    rewrite bind_run. unfold lift at 1. rewrite Hr. rewrite bind_run.
    destruct (cf_api_total net (record_endpoint option identifier) "DELETE" option []
                None s h Hh) as (v & s1 & Hrun & Hcalls & _).
    unfold record_endpoint in Hrun. rewrite Hrun. unfold print.
    destruct (IH (add_line ("🗑️ Deleted stale record " ++ Py.str identifier) s1))
      as (s' & Hrest & Hcalls').
    exists s'. split; [exact Hrest |].
    rewrite Hcalls'. simpl. rewrite Hcalls, <- app_assoc. reflexivity.
Qed.

(** What the purge does for one account: after the listing call, exactly one
    DELETE per listed record, by identifier, in the order of the listing,
    whatever the names of the records. *)
Lemma deleteEntries_option_calls net type option s h d rs ids :
  buildHeaders option = Ok h ->
  fst (cf_api net (listing_endpoint option type) "GET" option [] None s)
    = Ok (PDict d) ->
  Py.lookup "result" d = Some (PList rs) ->
  Forall2 (fun r identifier => Py.getitem r "id" = Ok identifier) rs ids ->
  exists s',
    deleteEntries_option net type option s = (Ok tt, s')
    /\ issued_since s s' =
       list_request h option type :: map (delete_request h option) ids.
Proof.
  intros Hh Hv Hd Hids.
  destruct (cf_api_total net (listing_endpoint option type) "GET" option [] None s h Hh)
    as (v & s1 & Hrun & Hcalls & _).
  rewrite Hrun in Hv. simpl in Hv. injection Hv as ->.
  unfold deleteEntries_option. rewrite bind_run.
  unfold listing_endpoint in Hrun. rewrite Hrun.
  rewrite bind_run. unfold lift at 1, and_get_result.
  rewrite (lookup_nonempty _ _ _ Hd). simpl Py.get. rewrite Hd.
  destruct rs as [| r rs].
  - inversion Hids; subst. simpl. exists s1. split; [reflexivity |].
    apply issued_since_app. exact Hcalls.
  - change (Py.truthy (PList (r :: rs))) with true. cbv iota.
    rewrite bind_run. unfold lift at 1. simpl Py.getitem. rewrite Hd.
    rewrite bind_run. unfold lift at 1. simpl Py.iter.
    destruct (deleteEntries_records_calls net option h (r :: rs) ids Hh Hids s1)
      as (s' & Hrest & Hcalls').
    exists s'. split; [exact Hrest |].
    apply issued_since_app. rewrite Hcalls', Hcalls, <- app_assoc. reflexivity.
Qed.

(** Had the warn-once globals been bound, the IPv6 branch would try both
    endpoints and then, when purging is enabled, run [deleteEntries("AAAA")]. *)
Lemma getIPs_ipv6_bound net g s b1 b2 :
  ipv6_enabled g = true ->
  shown_ipv6_warning s = Some b1 ->
  shown_ipv6_warning_secondary s = Some b2 ->
  trace_endpoint_fails net trace_primary ->
  trace_endpoint_fails net trace_secondary ->
  exists s2,
    calls s2 = (calls s ++ [trace_request trace_primary;
                            trace_request trace_secondary])%list
    /\ getIPs_ipv6 net g s =
       bind (when (purgeUnknownRecords g) (deleteEntries net g "AAAA"))
            (fun _ => ret PNone) s2.
Proof.
  intros He H1 H2 Hp Hs.
  destruct (Hp (length (calls s))) as [msg1 Hm1].
  unfold getIPs_ipv6. rewrite He. rewrite bind_run.
  pose proof (trace_attempt_fails net trace_primary PNone s msg1 Hm1) as Hfirst.
  unfold trace_primary in Hfirst. rewrite Hfirst. clear Hfirst.
  set (s1 := record_call (trace_request _) s).
  rewrite bind_run. unfold read_global at 1.
  change (shown_ipv6_warning s1) with (shown_ipv6_warning s). rewrite H1.
  rewrite bind_run.
  assert (Hwarn : exists s1',
             when (negb b1)
               (set_shown_ipv6_warning true ;;
                print "🧩 IPv6 not detected via 1.1.1.1, trying 1.0.0.1") s1
             = (Ok tt, s1')
             /\ calls s1' = calls s1
             /\ shown_ipv6_warning_secondary s1' = Some b2).
  { destruct b1; simpl; eexists; (split; [reflexivity |]); split;
      first [reflexivity | exact H2]. }
  destruct Hwarn as (s1' & -> & Hc1 & H2').
  destruct (Hs (length (calls s1'))) as [msg2 Hm2].
  rewrite bind_run.
  pose proof (trace_attempt_fails net trace_secondary PNone s1' msg2 Hm2) as Hsecond.
  unfold trace_secondary in Hsecond. rewrite Hsecond. clear Hsecond.
  set (s2 := record_call (trace_request _) s1').
  rewrite bind_run. unfold read_global at 1.
  change (shown_ipv6_warning_secondary s2) with (shown_ipv6_warning_secondary s1').
  rewrite H2'. rewrite bind_run.
  assert (Hwarn : exists s2',
             when (negb b2)
               (set_shown_ipv6_warning_secondary true ;;
                print "🧩 IPv6 not detected via 1.0.0.1. Verify your ISP or DNS provider isn't blocking Cloudflare's IPs.") s2
             = (Ok tt, s2')
             /\ calls s2' = calls s2).
  { destruct b2; simpl; eexists; split; reflexivity. }
  destruct Hwarn as (s2' & -> & Hc2).
  exists s2'. split; [| reflexivity].
  rewrite Hc2. subst s2. simpl. rewrite Hc1. subst s1. simpl.
  rewrite <- app_assoc. reflexivity.
Qed.

(** * Further properties *)

(** ** The provider client, continued *)

Lemma cf_api_answered net endpoint method config headers data s h r v :
  buildHeaders config = Ok h ->
  net (length (calls s)) (cf_request h endpoint method data) = Answered r ->
  status_code r < 400 \/ 600 <= status_code r ->
  json_body r = inr v ->
  cf_api net endpoint method config headers data s =
  (Ok v, record_call (cf_request h endpoint method data) s).
Proof.
  intros Hh Hnet Hstatus Hjson.
  rewrite (cf_api_run _ _ _ _ _ _ _ _ Hh). rewrite Hnet. simpl.
  unfold raise_for_status, response_json. rewrite Hjson.
  destruct (Z.leb_spec 400 (status_code r)); simpl.
  - replace (status_code r <? 500) with false by (symmetry; apply Z.ltb_ge; lia).
    replace (status_code r <? 600) with false by (symmetry; apply Z.ltb_ge; lia).
    rewrite andb_false_r. reflexivity.
  - replace (500 <=? status_code r) with false by (symmetry; apply Z.leb_gt; lia).
    reflexivity.
Qed.

(** X1: A call through [cf_api] whose request is answered with a status outside
    400..599 and a JSON body returns the decoded body, after exactly one
    request carrying the account's headers, and prints nothing. *)
Theorem cf_api_success net endpoint method config headers data s h r v :
  buildHeaders config = Ok h ->
  net (length (calls s)) (cf_request h endpoint method data) = Answered r ->
  status_code r < 400 \/ 600 <= status_code r ->
  json_body r = inr v ->
  cf_api net endpoint method config headers data s =
  (Ok v, record_call (cf_request h endpoint method data) s).
Proof.
  intros Hh Hnet Hstatus Hjson.
  rewrite (cf_api_run _ _ _ _ _ _ _ _ Hh). rewrite Hnet. simpl.
  unfold raise_for_status, response_json. rewrite Hjson.
  destruct Hstatus as [Hlow | Hhigh].
  - replace (400 <=? status_code r) with false by (symmetry; apply Z.leb_gt; lia).
    replace (500 <=? status_code r) with false by (symmetry; apply Z.leb_gt; lia).
    reflexivity.
  - replace (status_code r <? 500) with false by (symmetry; apply Z.ltb_ge; lia).
    replace (status_code r <? 600) with false by (symmetry; apply Z.ltb_ge; lia).
    rewrite !andb_false_r. reflexivity.
Qed.

Lemma cf_api_success_witness :
  cf_api (Ex.net_listing []) "zones/Z1" "GET" Ex.acct [] None initial_state =
  (Ok (PDict (Ex.listing [])),
   record_call (cf_request Ex.headers "zones/Z1" "GET" None) initial_state).
Proof.
  apply (cf_api_success (Ex.net_listing []) "zones/Z1" "GET" Ex.acct [] None
           initial_state Ex.headers
           (mkResponse 200 "OK" "" (inr (PDict (Ex.listing [])))));
    try reflexivity.
  left. simpl. lia.
Defined.

(** X2: An account with neither an API token nor an API key makes [cf_api] raise
    [KeyError] before any request is sent: this exception is not one that
    [cf_api] catches. *)
Theorem cf_api_without_credentials net endpoint method config headers data s :
  api_token (authentication config) = None ->
  api_key (authentication config) = None ->
  cf_api net endpoint method config headers data s =
  (Raise (mkExn KeyError "'api_key'"), s).
Proof.
  intros Ht Hk. unfold cf_api, bind, lift, buildHeaders. rewrite Ht, Hk. reflexivity.
Qed.

Lemma cf_api_without_credentials_witness :
  cf_api Ex.net_404 "zones/Z4" "GET" Ex2.no_credentials [] None initial_state =
  (Raise (mkExn KeyError "'api_key'"), initial_state).
Proof.
  apply (cf_api_without_credentials Ex.net_404 "zones/Z4" "GET" Ex2.no_credentials
           [] None initial_state); reflexivity.
Defined.

(** X3: The token wins: with an API token in the account, every call of [cf_api]
    sends the single header [Authorization: Bearer <token>], whether or not a
    key pair is configured as well, and never the key pair. *)
Theorem cf_api_token_precedence net endpoint method config headers data s token :
  api_token (authentication config) = Some token ->
  issued_since s (snd (cf_api net endpoint method config headers data s)) =
  [mkRequest method (api_url endpoint) [("Authorization", "Bearer " ++ token)]
     data None].
Proof.
  intros Ht.
  assert (Hh : buildHeaders config = Ok [("Authorization", "Bearer " ++ token)])
    by (unfold buildHeaders; rewrite Ht; reflexivity).
  destruct (cf_api_total net endpoint method config headers data s _ Hh)
    as (v & s' & -> & Hcalls & _).
  apply issued_since_app. exact Hcalls.
Qed.

Lemma cf_api_token_precedence_witness :
  issued_since initial_state
    (snd (cf_api Ex.net_404 "zones/Z3" "GET" Ex2.both_account [] None initial_state)) =
  [mkRequest "GET" (api_url "zones/Z3") [("Authorization", "Bearer " ++ "tok")]
     None None].
Proof.
  apply (cf_api_token_precedence Ex.net_404 "zones/Z3" "GET" Ex2.both_account [] None
           initial_state "tok").
  reflexivity.
Defined.

(** ** [processDNSRecord], whatever the provider answers *)

Lemma bind_lift A B (r : result A) (k : A -> M B) s :
  bind (lift r) k s = match r with Ok a => k a s | Raise e => (Raise e, s) end.
Proof. unfold bind, lift. destruct r; reflexivity. Qed.

Lemma processDNSRecord_listed_shape net fqdn record option v s h :
  buildHeaders option = Ok h ->
  exists ws,
    calls (snd (processDNSRecord_listed net fqdn record option v s))
    = (calls s ++ ws)%list
    /\ (ws = []
        \/ (exists identifier, ws = [put_request h option identifier record])
        \/ ws = [post_request h option record]).
Proof.
  intros Hh.
  assert (Hnone : exists ws,
             calls s = (calls s ++ ws)%list
             /\ (ws = []
                 \/ (exists identifier, ws = [put_request h option identifier record])
                 \/ ws = [post_request h option record])).
  { exists []. split; [symmetry; apply app_nil_r | left; reflexivity]. }
  unfold processDNSRecord_listed.
  rewrite bind_lift. destruct (and_get_result v) as [c |]; [| exact Hnone].
  destruct (Py.truthy c); [| exact Hnone].
  rewrite bind_lift. destruct (Py.getitem v "result") as [result |]; [| exact Hnone].
  rewrite bind_lift. destruct (Py.iter result) as [rs |]; [| exact Hnone].
  rewrite bind_lift.
  destruct (match_records fqdn record (PNone, false) rs) as [[identifier modified] |];
    [| exact Hnone].
  destruct (Py.truthy identifier && modified).
  - unfold print. rewrite bind_run. cbv beta iota.
    destruct (cf_api_total net (record_endpoint option identifier) "PUT" option []
                (Some (record_json record))
                (add_line ("📡 Updating record " ++ Py.repr (record_json record)) s)
                h Hh) as (v' & s' & Hrun & Hcalls & _).
    rewrite bind_run. unfold record_endpoint in Hrun. rewrite Hrun.
    exists [put_request h option identifier record].
    split; [exact Hcalls | right; left; eexists; reflexivity].
  - destruct (negb (Py.truthy identifier)); [| exact Hnone].
    unfold print. rewrite bind_run. cbv beta iota.
    destruct (cf_api_total net (records_endpoint option) "POST" option []
                (Some (record_json record))
                (add_line ("➕ Adding new record " ++ Py.repr (record_json record)) s)
                h Hh) as (v' & s' & Hrun & Hcalls & _).
    rewrite bind_run. unfold records_endpoint in Hrun. rewrite Hrun.
    exists [post_request h option record].
    split; [exact Hcalls | right; right; reflexivity].
Qed.

(** X5: Whatever the network answers and whatever the listing holds, one call of
    [processDNSRecord] sends at most two requests, of which at most one is a
    write; a write is a POST or a PUT with the record as its body, never a
    DELETE. *)
Theorem processDNSRecord_at_most_one_write net fqdn record record_type option s :
  let sent := issued_since s (snd (processDNSRecord net fqdn record record_type option s)) in
  (length sent <= 2)%nat
  /\ (length (filter is_write sent) <= 1)%nat
  /\ filter is_delete sent = []
  /\ Forall (carries record) sent.
Proof.
  intros sent. subst sent.
  destruct (buildHeaders option) as [h | e] eqn:Hh.
  - destruct (cf_api_total net (listing_endpoint option record_type) "GET" option []
                None s h Hh) as (v & s1 & Hrun & Hcalls & _).
    unfold processDNSRecord. rewrite bind_run.
    unfold listing_endpoint in Hrun. rewrite Hrun.
    destruct (processDNSRecord_listed_shape net fqdn record option v s1 h Hh)
      as (ws & Hcalls' & Hshape).
    rewrite Hcalls, <- app_assoc in Hcalls'.
    rewrite (issued_since_app _ _ _ Hcalls').
    destruct Hshape as [-> | [[identifier ->] | ->]]; simpl;
      repeat split; try lia;
      repeat constructor; try (intros _; reflexivity); intros Hw; discriminate Hw.
  - unfold processDNSRecord, cf_api. rewrite bind_run, bind_lift, Hh. simpl.
    unfold issued_since. rewrite skipn_all. simpl.
    repeat split; try lia. constructor.
Qed.

(** X6: When the listing call fails, [processDNSRecord] logs the failure and
    returns: it neither creates nor updates anything on a listing it could not
    read. *)
Theorem processDNSRecord_listing_fails net fqdn record record_type option s h :
  buildHeaders option = Ok h ->
  call_fails (net (length (calls s)) (list_request h option record_type)) ->
  exists msg,
    processDNSRecord net fqdn record record_type option s =
    (Ok tt,
     add_line (error_line "GET" (api_url (listing_endpoint option record_type)) msg)
       (record_call (list_request h option record_type) s)).
Proof.
  intros Hh Hfail.
  destruct (failure_of_failed (api_url (listing_endpoint option record_type)) _ Hfail)
    as [e He].
  exists (exn_msg e).
  unfold processDNSRecord. rewrite bind_run.
  pose proof (cf_api_run net (listing_endpoint option record_type) "GET" option []
                None s h Hh) as Hrun.
  cbv zeta in Hrun. unfold list_request in He. rewrite He in Hrun.
  unfold listing_endpoint in Hrun at 1. rewrite Hrun. reflexivity.
Qed.

Lemma processDNSRecord_listing_fails_witness :
  exists msg,
    processDNSRecord Ex.net_404 Ex.fqdn Ex.record "A" Ex.acct initial_state =
    (Ok tt,
     add_line (error_line "GET" (api_url (listing_endpoint Ex.acct "A")) msg)
       (record_call (list_request Ex.headers Ex.acct "A") initial_state)).
Proof.
  apply (processDNSRecord_listing_fails Ex.net_404 Ex.fqdn Ex.record "A" Ex.acct
           initial_state Ex.headers).
  - reflexivity.
  - right. left. eexists. split; [reflexivity | simpl; lia].
Defined.

(** ** [prepareDNSRecord]: which targets it accepts *)

(** X7: [prepareDNSRecord] returns exactly for the targets that are dictionaries
    with a string under ["name"], in an account that has a ["proxied"] entry.
    For every other target (a plain string, a dictionary without a name, a
    name that is [null] or a number) it raises [AttributeError]; for such a
    target in an account without ["proxied"] it raises [KeyError], even when
    the target has a ["proxied"] entry of its own. *)
Theorem prepareDNSRecord_accepts g subdomain base_domain_name ip option :
  let named :=
    exists d s, subdomain = PDict d /\ Py.lookup "name" d = Some (PStr s) in
  ((exists p, prepareDNSRecord g subdomain base_domain_name ip option = Ok p)
   <-> named /\ proxied option <> None)
  /\ (forall e, prepareDNSRecord g subdomain base_domain_name ip option = Raise e ->
        (exn_cls e = AttributeError /\ ~ named)
        \/ (e = mkExn KeyError "'proxied'" /\ named /\ proxied option = None)).
Proof.
  intros named. split; [split |].
  - intros [p Hp]. unfold prepareDNSRecord in Hp.
    destruct subdomain as [| b | z | s | l | d]; try discriminate Hp.
    simpl in Hp. destruct (Py.lookup "name" d) as [[| b | z | s | l | d'] |] eqn:Hn;
      try discriminate Hp.
    split; [exists d, s; split; [reflexivity | exact Hn] |].
    simpl in Hp. unfold option_proxied in Hp.
    destruct (proxied option); [discriminate | discriminate Hp].
  - intros [(d & s & -> & Hn) Hp]. rewrite (prepareDNSRecord_named _ _ _ _ _ _ Hn).
    unfold option_proxied. destruct (proxied option); [| contradiction].
    eexists. reflexivity.
  - intros e. unfold prepareDNSRecord.
    assert (Hnot : forall v, (forall d, v <> PDict d) ->
                             subdomain = v -> ~ named).
    { intros v Hv -> (d & s & Heq & _). exact (Hv d Heq). }
    destruct subdomain as [| b | z | s | l | d] eqn:Hsub; simpl;
      try (intros [= <-]; left; split;
           [reflexivity | eapply Hnot; [| reflexivity]; intros d0; discriminate]).
    destruct (Py.lookup "name" d) as [[| b | z | s | l | d'] |] eqn:Hn; simpl;
      try (intros [= <-]; left; split; [reflexivity |];
           intros (d0 & s0 & [= <-] & Hn0); rewrite Hn in Hn0; discriminate Hn0).
    unfold option_proxied. destruct (proxied option) as [p0 |] eqn:Hp; simpl.
    + destruct (Py.lookup "proxied" d); discriminate.
    + intros [= <-]. right. split; [reflexivity |].
      split; [exists d, s; split; [reflexivity | exact Hn] | reflexivity].
Qed.

(** The proxied flag of the record is the target's own ["proxied"] entry when
    it has one, whatever its value ([null] included), and the account's
    default only when the target has none. *)
Theorem prepareDNSRecord_proxied g d base_domain_name ip option s p0 :
  Py.lookup "name" d = Some (PStr s) ->
  proxied option = Some p0 ->
  exists fqdn record,
    prepareDNSRecord g (PDict d) base_domain_name ip option = Ok (fqdn, record)
    /\ (forall p, Py.lookup "proxied" d = Some p -> rec_proxied record = p)
    /\ (Py.lookup "proxied" d = None -> rec_proxied record = p0).
Proof.
  intros Hn Hp.
  rewrite (prepareDNSRecord_named _ _ _ _ _ _ Hn), (option_proxied_some _ _ Hp).
  cbv zeta. simpl rbind.
  eexists _, (mkRecord _ _ _ _ _). split; [reflexivity |]. simpl.
  split; [intros p -> | intros ->]; reflexivity.
Qed.

Lemma prepareDNSRecord_proxied_witness :
  exists fqdn record,
    prepareDNSRecord Ex.g0 (PDict [("name", PStr "www"); ("proxied", PNone)])
      (PStr "example.com") Ex.ip4 Ex.acct = Ok (fqdn, record)
    /\ (forall p, Py.lookup "proxied" [("name", PStr "www"); ("proxied", PNone)] = Some p ->
                  rec_proxied record = p)
    /\ (Py.lookup "proxied" [("name", PStr "www"); ("proxied", PNone)] = None ->
        rec_proxied record = PBool false).
Proof.
  apply (prepareDNSRecord_proxied Ex.g0 [("name", PStr "www"); ("proxied", PNone)]
           (PStr "example.com") Ex.ip4 Ex.acct "www" (PBool false));
    reflexivity.
Defined.

(** *** The normal form of a name is stable *)

Lemma lower_cp_nonempty c : Unicode.lower_cp c <> [].
Proof.
  unfold Unicode.lower_cp. destruct (c =? 304)%N; [discriminate |].
  destruct (Unicode.run_lookup Unicode.lower_runs c); discriminate.
Qed.

Lemma settled_image_parts x :
  settled_image x = true ->
  settled x = true /\ Unicode.is_space x = false /\ Utf8.code_point x = true.
Proof.
  unfold settled_image. intros H.
  apply andb_true_iff in H. destruct H as [H Hc].
  apply andb_true_iff in H. destruct H as [Hs Hn].
  apply negb_true_iff in Hn. repeat split; assumption.
Qed.

(** A property of code points that the lowercase mappings keep. *)
Lemma lower_cp_keeps (Q : N -> Prop) c :
  (forall x, settled_image x = true -> Q x) ->
  Q c -> Forall Q (Unicode.lower_cp c).
Proof.
  intros Himage Hc. destruct (lower_cp_cases c) as [H | H].
  - rewrite H. constructor; [exact Hc | constructor].
  - eapply Forall_impl; [| exact H]. exact Himage.
Qed.

Lemma lower_from_keeps (Q : N -> Prop) :
  (forall x, settled_image x = true -> Q x) ->
  forall l before, Forall Q l -> Forall Q (Unicode.lower_from before l).
Proof.
  intros Himage l. induction l as [| c r IH]; intros before Hl; cbn [Unicode.lower_from].
  - constructor.
  - inversion Hl as [| ? ? Hc Hr]; subst. apply Forall_app. split; [| apply IH, Hr].
    destruct (c =? 931)%N.
    + destruct (Unicode.final_sigma before r); constructor;
        first [apply Himage; reflexivity | constructor].
    + apply lower_cp_keeps; assumption.
Qed.

Lemma lower_code_points l :
  forallb Utf8.code_point l = true ->
  forallb Utf8.code_point (Unicode.lower l) = true.
Proof.
  intros H. apply forallb_forall. apply Forall_forall.
  apply (lower_from_keeps (fun x => Utf8.code_point x = true)).
  - intros x Hx. apply settled_image_parts in Hx. apply Hx.
  - apply Forall_forall. exact (proj1 (forallb_forall _ _) H).
Qed.

(** Lowercasing keeps a first and a last character that are no whitespace. *)
Lemma lower_from_head before c r :
  Unicode.is_space c = false ->
  exists x rest,
    Unicode.lower_from before (c :: r) = x :: rest /\ Unicode.is_space x = false.
Proof.
  intros Hc. cbn [Unicode.lower_from]. destruct (c =? 931)%N.
  - destruct (Unicode.final_sigma before r); eexists _, _; split; reflexivity.
  - pose proof (lower_cp_keeps (fun x => Unicode.is_space x = false) c) as H.
    destruct (Unicode.lower_cp c) as [| x xs] eqn:Hx;
      [exfalso; exact (lower_cp_nonempty c Hx) |].
    exists x, (xs ++ Unicode.lower_from (c :: before) r)%list.
    split; [reflexivity |].
    assert (Hall : Forall (fun x => Unicode.is_space x = false) (x :: xs)).
    { apply H; [| exact Hc]. intros y Hy. apply settled_image_parts in Hy. apply Hy. }
    inversion Hall; assumption.
Qed.

Lemma last_of_app (Q : N -> Prop) (front back : list N) :
  back <> [] ->
  (forall x init, back = (init ++ [x])%list -> Q x) ->
  forall x init, (front ++ back)%list = (init ++ [x])%list -> Q x.
Proof.
  intros Hne Hback x init Heq.
  destruct (exists_last Hne) as (init' & y & ->).
  rewrite app_assoc in Heq. apply app_inj_tail in Heq. destruct Heq as [_ <-].
  exact (Hback y init' eq_refl).
Qed.

Lemma lower_from_last l :
  (forall c front, l = (front ++ [c])%list -> Unicode.is_space c = false) ->
  forall before x init,
    Unicode.lower_from before l = (init ++ [x])%list -> Unicode.is_space x = false.
Proof.
  induction l as [| c r IH]; intros Hlast before x init.
  - cbn [Unicode.lower_from]. intros H. destruct init; discriminate H.
  - destruct r as [| d r'].
    + cbn [Unicode.lower_from]. rewrite app_nil_r. intros Heq.
      assert (Hc : Unicode.is_space c = false) by exact (Hlast c [] eq_refl).
      assert (Hall : Forall (fun x => Unicode.is_space x = false) (init ++ [x])%list).
      { rewrite <- Heq. destruct (c =? 931)%N.
        - destruct (Unicode.final_sigma before []); repeat constructor.
        - apply lower_cp_keeps; [| exact Hc].
          intros y Hy. apply settled_image_parts in Hy. apply Hy. }
      apply Forall_app in Hall. destruct Hall as [_ Hall]. inversion Hall; assumption.
    + change (Unicode.lower_from before (c :: d :: r'))
        with ((if (c =? 931)%N
               then [if Unicode.final_sigma before (d :: r') then 962 else 963]%N
               else Unicode.lower_cp c)
              ++ Unicode.lower_from (c :: before) (d :: r'))%list.
      apply (last_of_app (fun x => Unicode.is_space x = false)).
      * destruct (Unicode.is_space d) eqn:Hd.
        -- cbn [Unicode.lower_from]. intros H. apply app_eq_nil in H. destruct H as [H _].
           destruct (d =? 931)%N; [discriminate H | exact (lower_cp_nonempty d H)].
        -- destruct (lower_from_head (c :: before) d r' Hd) as (y & rest & -> & _).
           discriminate.
      * apply IH. intros c0 front Heq. apply (Hlast c0 (c :: front)).
        rewrite Heq. reflexivity.
Qed.

Lemma lstrip_fixed l :
  (forall c rest, l = c :: rest -> Unicode.is_space c = false) -> Unicode.lstrip l = l.
Proof.
  destruct l as [| c r]; [reflexivity |]. intros H. cbn [Unicode.lstrip].
  rewrite (H c r eq_refl). reflexivity.
Qed.

Lemma rstrip_fixed l :
  (forall c front, l = (front ++ [c])%list -> Unicode.is_space c = false) ->
  Unicode.rstrip l = l.
Proof.
  induction l as [| c r IH]; [reflexivity |]. intros H. rewrite rstrip_cons.
  rewrite IH.
  - destruct r as [| d r']; [| reflexivity].
    rewrite (H c [] eq_refl). reflexivity.
  - intros c0 front Heq. apply (H c0 (c :: front)). rewrite Heq. reflexivity.
Qed.

(** Stripping and lowercasing what has been stripped and lowercased changes
    nothing. *)
Lemma lower_strip_fixed cps :
  let out := Unicode.lower (Unicode.strip cps) in
  Unicode.lower (Unicode.strip out) = out.
Proof.
  intros out.
  assert (Hstrip : Unicode.strip out = out).
  { unfold Unicode.strip. rewrite (lstrip_fixed out).
    - apply rstrip_fixed. subst out. unfold Unicode.lower. apply lower_from_last.
      intros c front Heq. exact (rstrip_last _ _ _ Heq).
    - subst out. unfold Unicode.lower.
      destruct (Unicode.strip cps) as [| c r] eqn:Hcore; [discriminate |].
      intros x rest Heq.
      assert (Hc : Unicode.is_space c = false).
      { unfold Unicode.strip in Hcore.
        destruct (rstrip_nil_head _ _ _ Hcore) as (rest0 & H0).
        exact (lstrip_head _ _ _ H0). }
      destruct (lower_from_head [] c r Hc) as (y & rest' & Hy & Hsp).
      rewrite Hy in Heq. injection Heq as <- _. exact Hsp. }
  rewrite Hstrip. subst out. unfold Unicode.lower at 1.
  apply lower_from_fixed, lower_from_settled.
Qed.

Lemma normalize_well_formed s :
  Utf8.well_formed s = true -> Utf8.well_formed (normalize s) = true.
Proof.
  intros H. rewrite (normalize_decoded _ H). unfold Utf8.well_formed.
  assert (Hout : forallb Utf8.code_point
                   (Unicode.lower (Unicode.strip (Utf8.decode s))) = true)
    by (apply lower_code_points, strip_code_points, H).
  rewrite (decode_encode _ Hout). exact Hout.
Qed.

Lemma normalize_idem s :
  Utf8.well_formed s = true -> normalize (normalize s) = normalize s.
Proof.
  intros H. rewrite (normalize_decoded _ (normalize_well_formed _ H)).
  rewrite (normalize_decoded _ H).
  rewrite decode_encode by (apply lower_code_points, strip_code_points, H).
  rewrite lower_strip_fixed. reflexivity.
Qed.

(** X8: Writing a name in its normal form in the configuration changes nothing:
    for a name that is a well-formed string, the outcome of
    [prepareDNSRecord] (the computed name and the record, or the exception)
    is the same as for the name as configured.  In particular names that
    differ only by case or by surrounding whitespace denote the same
    record. *)
Theorem prepareDNSRecord_normal_form_stable g d base_domain_name ip option s :
  Utf8.well_formed s = true ->
  prepareDNSRecord g (PDict (("name", PStr (normalize s)) :: d)) base_domain_name ip option
  = prepareDNSRecord g (PDict (("name", PStr s) :: d)) base_domain_name ip option.
Proof.
  intros Hwf.
  rewrite (prepareDNSRecord_named g (("name", PStr (normalize s)) :: d)
             base_domain_name ip option (normalize s) eq_refl).
  rewrite (prepareDNSRecord_named g (("name", PStr s) :: d)
             base_domain_name ip option s eq_refl).
  rewrite (normalize_idem _ Hwf). reflexivity.
Qed.

Lemma prepareDNSRecord_normal_form_stable_witness :
  normalize "  Home " = "home"
  /\ prepareDNSRecord Ex.g0 (PDict [("name", PStr (normalize "  Home "))])
       (PStr "example.com") Ex.ip4 Ex.acct
     = prepareDNSRecord Ex.g0 (PDict [("name", PStr "  Home ")])
         (PStr "example.com") Ex.ip4 Ex.acct.
Proof.
  split; [reflexivity |].
  apply (prepareDNSRecord_normal_form_stable Ex.g0 [] (PStr "example.com") Ex.ip4
           Ex.acct "  Home ").
  reflexivity.
Defined.

(** ** IPv4 detection: the fallback chain *)

Lemma get_public_ip_from_miss net service rest s :
  not_200 (net (length (calls s)) (ip_request service)) = true ->
  exists s1,
    get_public_ip_from net (service :: rest) s = get_public_ip_from net rest s1
    /\ calls s1 = (calls s ++ [ip_request service])%list.
Proof.
  intros Hmiss.
  change (get_public_ip_from net (service :: rest) s)
    with (bind
            (try_except
               (bind (requests_get net service (Some 5))
                  (fun response =>
                     if status_code response =? 200
                     then ret (Some (PyStr.strip (text response)))
                     else ret None))
               isinstance_RequestException
               (fun e => bind (print ("Error with " ++ service ++ ": " ++ exn_msg e))
                           (fun _ => ret None)))
            (fun found => match found with
                          | Some ip => ret ip
                          | None => get_public_ip_from net rest
                          end) s).
  unfold bind at 1, try_except, bind at 1, requests_get, requests_request.
  fold (ip_request service).
  destruct (net (length (calls s)) (ip_request service)) as [msg | r]; simpl in Hmiss.
  - simpl. eexists. split; reflexivity.
  - destruct (status_code r =? 200); [discriminate Hmiss |].
    simpl. eexists. split; reflexivity.
Qed.

Lemma get_public_ip_from_hit net service rest s r :
  net (length (calls s)) (ip_request service) = Answered r ->
  status_code r = 200 ->
  get_public_ip_from net (service :: rest) s =
  (Ok (PyStr.strip (text r)), record_call (ip_request service) s).
Proof.
  intros Hnet Hstatus. simpl.
  unfold bind at 1, try_except, bind at 1, requests_get, requests_request.
  fold (ip_request service). rewrite Hnet, Hstatus. reflexivity.
Qed.

Lemma get_public_ip_from_chain net failed service rest r :
  forall s,
    all_fail net (length (calls s)) failed ->
    net (length (calls s) + length failed)%nat (ip_request service) = Answered r ->
    status_code r = 200 ->
    exists s',
      get_public_ip_from net (failed ++ service :: rest) s
      = (Ok (PyStr.strip (text r)), s')
      /\ calls s' = (calls s ++ map ip_request (failed ++ [service]))%list.
Proof.
  induction failed as [| f failed IH]; intros s Hfail Hnet Hstatus.
  - simpl in Hnet. rewrite Nat.add_0_r in Hnet. simpl app.
    rewrite (get_public_ip_from_hit _ _ _ _ _ Hnet Hstatus).
    eexists. split; reflexivity.
  - destruct Hfail as [Hf Hfail].
    destruct (get_public_ip_from_miss net f (failed ++ service :: rest) s Hf)
      as (s1 & Hrun & Hcalls).
    assert (Hlen : length (calls s1) = S (length (calls s)))
      by (rewrite Hcalls, length_app; simpl; lia).
    destruct (IH s1) as (s' & Hrun' & Hcalls').
    + rewrite Hlen. exact Hfail.
    + rewrite Hlen. simpl in Hnet. rewrite <- Nat.add_succ_comm in Hnet. exact Hnet.
    + exact Hstatus.
    + exists s'. split.
      * simpl app. rewrite Hrun. exact Hrun'.
      * rewrite Hcalls', Hcalls, <- app_assoc. reflexivity.
Qed.

(** X9: First answer wins: the services are asked in the order of the list; as
    soon as one answers 200, its body, stripped, is the address, and the
    services after it are not asked. *)
Theorem get_public_ip_first_200_wins net s failed service rest r :
  ip_detection_services = (failed ++ service :: rest)%list ->
  all_fail net (length (calls s)) failed ->
  net (length (calls s) + length failed)%nat (ip_request service) = Answered r ->
  status_code r = 200 ->
  exists s',
    get_public_ip net s = (Ok (PyStr.strip (text r)), s')
    /\ issued_since s s' = map ip_request (failed ++ [service]).
Proof.
  intros Hsplit Hfail Hnet Hstatus. unfold get_public_ip. rewrite Hsplit.
  destruct (get_public_ip_from_chain net failed service rest r s Hfail Hnet Hstatus)
    as (s' & Hrun & Hcalls).
  exists s'. split; [exact Hrun | exact (issued_since_app _ _ _ Hcalls)].
Qed.

Lemma get_public_ip_from_exhausted net services :
  forall s,
    all_fail net (length (calls s)) services ->
    exists s',
      get_public_ip_from net services s
      = (Raise (mkExn PlainException "Failed to detect public IP from all services."), s')
      /\ calls s' = (calls s ++ map ip_request services)%list.
Proof.
  induction services as [| f services IH]; intros s Hfail.
  - exists s. split; [reflexivity | symmetry; apply app_nil_r].
  - destruct Hfail as [Hf Hfail].
    destruct (get_public_ip_from_miss net f services s Hf) as (s1 & Hrun & Hcalls).
    assert (Hlen : length (calls s1) = S (length (calls s)))
      by (rewrite Hcalls, length_app; simpl; lia).
    destruct (IH s1) as (s' & Hrun' & Hcalls'); [rewrite Hlen; exact Hfail |].
    exists s'. split; [rewrite Hrun; exact Hrun' |].
    rewrite Hcalls', Hcalls, <- app_assoc. reflexivity.
Qed.

(** X10: When every service fails (transport error or a status other than 200),
    [get_public_ip] raises after having asked each of the three services
    once, in order: ipify, icanhazip, ifconfig.me. *)
Theorem get_public_ip_all_fail net s :
  all_fail net (length (calls s)) ip_detection_services ->
  exists s',
    get_public_ip net s
    = (Raise (mkExn PlainException "Failed to detect public IP from all services."), s')
    /\ issued_since s s' =
       [ip_request "https://api.ipify.org"; ip_request "https://icanhazip.com";
        ip_request "https://ifconfig.me"].
Proof.
  intros Hfail.
  destruct (get_public_ip_from_exhausted net ip_detection_services s Hfail)
    as (s' & Hrun & Hcalls).
  exists s'. split; [exact Hrun | exact (issued_since_app _ _ _ Hcalls)].
Qed.

Lemma get_public_ip_first_200_wins_witness :
  exists s',
    get_public_ip Ex2.net_third initial_state = (Ok "203.0.113.7", s')
    /\ issued_since initial_state s' =
       map ip_request (["https://api.ipify.org"; "https://icanhazip.com"]
                         ++ ["https://ifconfig.me"]).
Proof.
  apply (get_public_ip_first_200_wins Ex2.net_third initial_state
           ["https://api.ipify.org"; "https://icanhazip.com"] "https://ifconfig.me" []
           (mkResponse 200 "OK" (" 203.0.113.7" ++ String "010"%char "")
              (inl "Expecting value: line 1 column 1 (char 0)"))).
  - reflexivity.
  - simpl. auto.
  - reflexivity.
  - reflexivity.
Defined.

Lemma get_public_ip_all_fail_witness :
  exists s',
    get_public_ip Ex2.net_down initial_state
    = (Raise (mkExn PlainException "Failed to detect public IP from all services."), s')
    /\ issued_since initial_state s' =
       [ip_request "https://api.ipify.org"; ip_request "https://icanhazip.com";
        ip_request "https://ifconfig.me"].
Proof.
  apply (get_public_ip_all_fail Ex2.net_down initial_state).
  simpl. auto.
Defined.

(** ** Reading a trace answer *)

Lemma append_nil (b : string) : ("" ++ b = b)%string.
Proof. reflexivity. Qed.

Lemma append_cons x (a b : string) : (String x a ++ b = String x (a ++ b))%string.
Proof. reflexivity. Qed.

Lemma append_assoc (a b c : string) : ((a ++ b) ++ c = a ++ (b ++ c))%string.
Proof.
  induction a as [| x a IH]; [reflexivity |].
  rewrite !append_cons, IH. reflexivity.
Qed.

Lemma contains_char_app c a b :
  PyStr.contains_char c (a ++ b) = PyStr.contains_char c a || PyStr.contains_char c b.
Proof.
  induction a as [| x a IH]; [reflexivity |].
  rewrite append_cons. simpl. rewrite IH, orb_assoc. reflexivity.
Qed.

Lemma split_nonempty sep s : exists h t, PyStr.split sep s = h :: t.
Proof.
  induction s as [| c r (h & t & IH)]; simpl.
  - eexists _, _. reflexivity.
  - destruct (Ascii.eqb c sep); [eexists _, _; reflexivity |].
    rewrite IH. eexists _, _. reflexivity.
Qed.

(** Without the separator there is nothing to split. *)
Lemma split_whole sep s : PyStr.contains_char sep s = false -> PyStr.split sep s = [s].
Proof.
  induction s as [| c r IH]; simpl; [reflexivity |].
  intros H. apply orb_false_elim in H. destruct H as [Hc Hr].
  rewrite Ascii.eqb_sym, Hc, (IH Hr). reflexivity.
Qed.

(** The text before the first separator is the first part. *)
Lemma split_first sep l rest :
  PyStr.contains_char sep l = false ->
  PyStr.split sep (l ++ String sep rest) = l :: PyStr.split sep rest.
Proof.
  induction l as [| c r IH].
  - intros _. rewrite append_nil. simpl. rewrite Ascii.eqb_refl. reflexivity.
  - intros H. simpl in H. apply orb_false_elim in H. destruct H as [Hc Hr].
    rewrite append_cons. simpl. rewrite Ascii.eqb_sym, Hc, (IH Hr). reflexivity.
Qed.

Lemma plain_no_equals s : plain s = true -> PyStr.contains_char "="%char s = false.
Proof.
  unfold plain. intros H. apply andb_prop in H. destruct H as [H _].
  apply negb_true_iff in H. exact H.
Qed.

Lemma plain_no_newline s : plain s = true -> PyStr.contains_char "010"%char s = false.
Proof.
  unfold plain. intros H. apply andb_prop in H. destruct H as [_ H].
  apply negb_true_iff in H. exact H.
Qed.

Lemma trace_text_cons kv r :
  trace_text (kv :: r) = (trace_line kv ++ String "010"%char (trace_text r))%string.
Proof.
  destruct kv as [k v]. unfold trace_line. simpl fst. simpl snd.
  rewrite !append_assoc. reflexivity.
Qed.

Lemma trace_line_no_newline kv :
  plain_pair kv -> PyStr.contains_char "010"%char (trace_line kv) = false.
Proof.
  intros [Hk Hv]. unfold trace_line.
  rewrite contains_char_app, (plain_no_newline _ Hk).
  change ("=" ++ snd kv)%string with (String "="%char (snd kv)).
  simpl. exact (plain_no_newline _ Hv).
Qed.

Lemma split_trace_line kv :
  plain_pair kv -> PyStr.split "="%char (trace_line kv) = [fst kv; snd kv].
Proof.
  intros [Hk Hv]. unfold trace_line.
  change ("=" ++ snd kv)%string with (String "="%char (snd kv)).
  rewrite (split_first _ _ _ (plain_no_equals _ Hk)).
  rewrite (split_whole _ _ (plain_no_equals _ Hv)). reflexivity.
Qed.

(** The lines of a trace text are its pairs, and an empty string after the
    last newline. *)
Lemma split_trace_text pairs :
  Forall plain_pair pairs ->
  PyStr.split "010"%char (trace_text pairs) = (map trace_line pairs ++ [""])%list.
Proof.
  induction 1 as [| kv r Hkv _ IH]; [reflexivity |].
  rewrite trace_text_cons, (split_first _ _ _ (trace_line_no_newline _ Hkv)), IH.
  reflexivity.
Qed.

Lemma list_pop_last lines last : list_pop (lines ++ [last]) = Ok lines.
Proof.
  unfold list_pop. rewrite removelast_last.
  destruct lines; reflexivity.
Qed.

Lemma trace_dict_pairs pairs :
  Forall plain_pair pairs ->
  forall i acc, trace_dict i (map trace_line pairs) acc = Ok (rev pairs ++ acc)%list.
Proof.
  induction 1 as [| kv r Hkv _ IH]; intros i acc; [reflexivity |].
  simpl map. simpl trace_dict. rewrite (split_trace_line _ Hkv).
  rewrite IH. simpl rev. rewrite <- app_assoc. destruct kv. reflexivity.
Qed.

Lemma trace_lookup_app k a b :
  trace_lookup k (a ++ b) =
  match trace_lookup k a with
  | Ok v => Ok v
  | Raise _ => trace_lookup k b
  end.
Proof.
  induction a as [| [k' v] a IH]; simpl; [reflexivity |].
  destruct (String.eqb k k'); [reflexivity | exact IH].
Qed.

Lemma trace_lookup_last k pairs :
  trace_lookup k (rev pairs) =
  match last_binding k pairs with
  | Some v => Ok v
  | None => Raise (mkExn KeyError (PyStr.repr k))
  end.
Proof.
  induction pairs as [| [k' v] r IH]; [reflexivity |].
  simpl rev. rewrite trace_lookup_app, IH. simpl last_binding.
  destruct (last_binding k r); [reflexivity |].
  simpl. destruct (String.eqb k k'); reflexivity.
Qed.

Lemma fetchIP_run net url s r :
  net (length (calls s)) (trace_request url) = Answered r ->
  fetchIP net url s =
  (rbind (list_pop (PyStr.split "010"%char (text r)))
     (fun lines => rbind (trace_dict 0 lines []) (trace_lookup "ip")),
   record_call (trace_request url) s).
Proof.
  intros Hnet. unfold fetchIP. rewrite bind_run.
  unfold requests_get, requests_request. fold (trace_request url). rewrite Hnet.
  rewrite bind_lift.
  destruct (list_pop (PyStr.split "010"%char (text r))); reflexivity.
Qed.

(** X11: Round trip: for an answer made of [key=value] lines, each ended by a
    newline, [fetchIP] returns the value of the last line whose key is [ip],
    and raises [KeyError] when there is none.  The status of the answer is
    not looked at. *)
Theorem fetchIP_reads_last_ip net url s r pairs :
  net (length (calls s)) (trace_request url) = Answered r ->
  text r = trace_text pairs ->
  Forall plain_pair pairs ->
  fetchIP net url s =
  (match last_binding "ip" pairs with
   | Some ip => Ok ip
   | None => Raise (mkExn KeyError "'ip'")
   end,
   record_call (trace_request url) s).
Proof.
  intros Hnet Htext Hplain.
  rewrite (fetchIP_run _ _ _ _ Hnet), Htext, (split_trace_text _ Hplain).
  rewrite list_pop_last. simpl rbind at 1.
  rewrite (trace_dict_pairs _ Hplain), app_nil_r. simpl rbind.
  rewrite trace_lookup_last. reflexivity.
Qed.

(** X12: An answer without any newline (an empty body, a one-line error page, an
    address alone) is never understood: its only line is dropped by [pop],
    and [fetchIP] raises [KeyError]. *)
Theorem fetchIP_without_newline net url s r :
  net (length (calls s)) (trace_request url) = Answered r ->
  PyStr.contains_char "010"%char (text r) = false ->
  fetchIP net url s =
  (Raise (mkExn KeyError "'ip'"), record_call (trace_request url) s).
Proof.
  intros Hnet Hnl.
  rewrite (fetchIP_run _ _ _ _ Hnet), (split_whole _ _ Hnl). reflexivity.
Qed.

(** X13: An answer whose first line has no [=] (an HTML page, say) makes [fetchIP]
    raise [ValueError], whatever follows. *)
Theorem fetchIP_line_without_equals net url s r line rest :
  net (length (calls s)) (trace_request url) = Answered r ->
  text r = (line ++ String "010"%char rest)%string ->
  PyStr.contains_char "010"%char line = false ->
  PyStr.contains_char "="%char line = false ->
  fetchIP net url s =
  (Raise (mkExn ValueError
            "dictionary update sequence element #0 has length 1; 2 is required"),
   record_call (trace_request url) s).
Proof.
  intros Hnet Htext Hnl Heq.
  rewrite (fetchIP_run _ _ _ _ Hnet), Htext, (split_first _ _ _ Hnl).
  destruct (split_nonempty "010"%char rest) as (h & t & ->).
  unfold list_pop. simpl removelast. simpl rbind at 1.
  simpl trace_dict. rewrite (split_whole _ _ Heq). reflexivity.
Qed.

(** X14: The IPv6 branch of [getIPs] reads an answer exactly as [fetchIP] does:
    an attempt succeeds with the address [fetchIP] returns, and fails when
    [fetchIP] raises. *)
Theorem trace_attempt_agrees_with_fetchIP net url aaaa s :
  match fetchIP net url s with
  | (Ok ip, s') => trace_attempt net url aaaa s = (Ok (PStr ip, None), s')
  | (Raise e, s') =>
      exists aaaa', trace_attempt net url aaaa s = (Ok (aaaa', Some e), s')
  end.
Proof.
  unfold fetchIP, trace_attempt. rewrite bind_run.
  destruct (requests_get net url None s) as [[r | e] s1]; [| eexists; reflexivity].
  rewrite bind_lift.
  destruct (list_pop (PyStr.split "010"%char (text r))) as [lines |];
    [| eexists; reflexivity].
  unfold lift.
  destruct (rbind (trace_dict 0 lines []) (trace_lookup "ip"));
    [reflexivity | eexists; reflexivity].
Qed.

Lemma fetchIP_reads_last_ip_witness :
  fetchIP Ex2.net_trace trace_primary initial_state =
  (match last_binding "ip" Ex2.trace_pairs with
   | Some ip => Ok ip
   | None => Raise (mkExn KeyError "'ip'")
   end,
   record_call (trace_request trace_primary) initial_state).
Proof.
  apply (fetchIP_reads_last_ip Ex2.net_trace trace_primary initial_state
           (mkResponse 503 "Service Unavailable" (trace_text Ex2.trace_pairs)
              (inl "Expecting value")) Ex2.trace_pairs).
  - reflexivity.
  - reflexivity.
  - repeat constructor.
Defined.

Lemma fetchIP_without_newline_witness :
  fetchIP (Ex2.net_body "ip=2001:db8::1") trace_primary initial_state =
  (Raise (mkExn KeyError "'ip'"), record_call (trace_request trace_primary) initial_state).
Proof.
  apply (fetchIP_without_newline (Ex2.net_body "ip=2001:db8::1") trace_primary
           initial_state
           (mkResponse 200 "OK" "ip=2001:db8::1"
              (inl "Expecting value: line 1 column 1 (char 0)")));
    reflexivity.
Defined.

Lemma fetchIP_line_without_equals_witness :
  fetchIP (Ex2.net_body ("<html>" ++ String "010"%char "ip=2001:db8::1"))
    trace_primary initial_state =
  (Raise (mkExn ValueError
            "dictionary update sequence element #0 has length 1; 2 is required"),
   record_call (trace_request trace_primary) initial_state).
Proof.
  apply (fetchIP_line_without_equals
           (Ex2.net_body ("<html>" ++ String "010"%char "ip=2001:db8::1"))
           trace_primary initial_state
           (mkResponse 200 "OK" ("<html>" ++ String "010"%char "ip=2001:db8::1")
              (inl "Expecting value: line 1 column 1 (char 0)"))
           "<html>" "ip=2001:db8::1");
    reflexivity.
Defined.

(** ** What [getIPs] reports *)

Lemma bind_ok_inv A B (m : M A) (k : A -> M B) s b s' :
  bind m k s = (Ok b, s') ->
  exists a s1, m s = (Ok a, s1) /\ k a s1 = (Ok b, s').
Proof.
  unfold bind. destruct (m s) as [[a | e] s1]; [| discriminate].
  intros H. exists a, s1. split; [reflexivity | exact H].
Qed.

Lemma getIPs_ipv4_result net g s a s' :
  getIPs_ipv4 net g s = (Ok a, s') ->
  a = PNone \/ (ipv4_enabled g = true /\ exists t, a = PStr t).
Proof.
  unfold getIPs_ipv4. destruct (ipv4_enabled g).
  - unfold try_except.
    destruct (bind (get_public_ip net) (fun a0 => ret (PStr a0)) s)
      as [[a0 | e] s1] eqn:Hbody.
    + intros [= <- <-]. apply bind_ok_inv in Hbody.
      destruct Hbody as (t & s2 & _ & Hret). injection Hret as <- _.
      right. split; [reflexivity | exists t; reflexivity].
    + simpl. intros H.
      apply bind_ok_inv in H. destruct H as (shown & s2 & _ & H).
      apply bind_ok_inv in H. destruct H as (u1 & s3 & _ & H).
      apply bind_ok_inv in H. destruct H as (u2 & s4 & _ & H).
      injection H as <- _. left. reflexivity.
  - intros [= <- _]. left. reflexivity.
Qed.

Lemma getIPs_ipv6_result net g s aaaa s' :
  getIPs_ipv6 net g s = (Ok aaaa, s') -> ipv6_enabled g = false -> aaaa = PNone.
Proof.
  unfold getIPs_ipv6. intros H He. rewrite He in H. injection H as <- _. reflexivity.
Qed.

(** X15: Whatever [getIPs] returns, it holds at most one entry per family, under
    the keys ["ipv4"] and ["ipv6"], of kinds ["A"] and ["AAAA"], and only for
    the families that are enabled; an IPv4 entry always holds a string. *)
Theorem getIPs_reports_enabled_families net g s ips s' :
  getIPs net g s = (Ok ips, s') ->
  (forall k ip, In (k, ip) ips ->
     (k = "ipv4" /\ ip_type ip = "A" /\ ipv4_enabled g = true
      /\ exists t, ip_addr ip = PStr t)
     \/ (k = "ipv6" /\ ip_type ip = "AAAA" /\ ipv6_enabled g = true
         /\ ip_addr ip <> PNone))
  /\ NoDup (map fst ips)
  /\ (length ips <= 2)%nat.
Proof.
  unfold getIPs. intros H.
  apply bind_ok_inv in H. destruct H as (a & s1 & Ha & H).
  apply bind_ok_inv in H. destruct H as (aaaa & s2 & Haaaa & H).
  injection H as <- _.
  pose proof (getIPs_ipv4_result _ _ _ _ _ Ha) as Ra.
  pose proof (getIPs_ipv6_result _ _ _ _ _ Haaaa) as Raaaa.
  assert (H6 : is_not_None aaaa = true -> ipv6_enabled g = true /\ aaaa <> PNone).
  { intros Hn. split.
    - destruct (ipv6_enabled g); [reflexivity |].
      rewrite (Raaaa eq_refl) in Hn. discriminate Hn.
    - intros ->. discriminate Hn. }
  split; [| split].
  - intros k ip Hin. apply in_app_or in Hin. destruct Hin as [Hin | Hin].
    + destruct Ra as [-> | [He [t ->]]]; simpl in Hin; [contradiction |].
      destruct Hin as [[= <- <-] | []]. left.
      repeat split; [exact He | exists t; reflexivity].
    + destruct (is_not_None aaaa) eqn:Hn; simpl in Hin; [| contradiction].
      destruct Hin as [[= <- <-] | []]. right.
      destruct (H6 eq_refl) as [He Hne]. repeat split; assumption.
  - destruct (is_not_None a), (is_not_None aaaa); simpl;
      repeat constructor; simpl; intuition discriminate.
  - destruct (is_not_None a), (is_not_None aaaa); simpl; lia.
Qed.

Lemma getIPs_reports_enabled_families_witness :
  let ips := [("ipv4", mkIp "A" (PStr "1.2.3.4"));
              ("ipv6", mkIp "AAAA" (PStr "2001:db8::1"))] in
  (forall k ip, In (k, ip) ips ->
     (k = "ipv4" /\ ip_type ip = "A" /\ ipv4_enabled Ex.g0 = true
      /\ exists t, ip_addr ip = PStr t)
     \/ (k = "ipv6" /\ ip_type ip = "AAAA" /\ ipv6_enabled Ex.g0 = true
         /\ ip_addr ip <> PNone))
  /\ NoDup (map fst ips)
  /\ (length ips <= 2)%nat.
Proof.
  apply (getIPs_reports_enabled_families Ex.net_dual Ex.g0 initial_state
           [("ipv4", mkIp "A" (PStr "1.2.3.4"));
            ("ipv6", mkIp "AAAA" (PStr "2001:db8::1"))]
           (record_call (trace_request trace_primary)
              (record_call (ip_request "https://api.ipify.org") initial_state))).
  reflexivity.
Defined.

Lemma trace_attempt_run net url aaaa s r :
  net (length (calls s)) (trace_request url) = Answered r ->
  trace_attempt net url aaaa s =
  (match list_pop (PyStr.split "010"%char (text r)) with
   | Raise e => Ok (PStrs (PyStr.split "010"%char (text r)), Some e)
   | Ok lines' =>
       match rbind (trace_dict 0 lines' []) (trace_lookup "ip") with
       | Raise e => Ok (PStrs lines', Some e)
       | Ok ip => Ok (PStr ip, None)
       end
   end,
   record_call (trace_request url) s).
Proof.
  intros Hnet. unfold trace_attempt, requests_get, requests_request.
  fold (trace_request url). rewrite Hnet.
  destruct (list_pop _) as [lines' |]; [| reflexivity].
  destruct (rbind _ _); reflexivity.
Qed.

(** X16: When the first IPv4 service and the first trace endpoint both answer,
    [getIPs] sends exactly these two requests and reports both addresses,
    IPv4 first; the warn-once globals are not read. *)
Theorem getIPs_both_detected net g s r4 r6 pairs ip6 :
  ipv4_enabled g = true ->
  ipv6_enabled g = true ->
  net (length (calls s)) (ip_request "https://api.ipify.org") = Answered r4 ->
  status_code r4 = 200 ->
  net (S (length (calls s))) (trace_request trace_primary) = Answered r6 ->
  text r6 = trace_text pairs ->
  Forall plain_pair pairs ->
  last_binding "ip" pairs = Some ip6 ->
  getIPs net g s =
  (Ok [("ipv4", mkIp "A" (PStr (PyStr.strip (text r4))));
       ("ipv6", mkIp "AAAA" (PStr ip6))],
   record_call (trace_request trace_primary)
     (record_call (ip_request "https://api.ipify.org") s)).
Proof.
  intros H4 H6 Hn4 Hs4 Hn6 Ht6 Hplain Hip.
  unfold getIPs. rewrite bind_run.
  unfold getIPs_ipv4. rewrite H4. unfold try_except. rewrite bind_run.
  unfold get_public_ip, ip_detection_services.
  rewrite (get_public_ip_from_hit _ _ _ _ _ Hn4 Hs4). unfold ret at 1.
  rewrite bind_run. unfold getIPs_ipv6. rewrite H6. rewrite bind_run.
  pose proof (trace_attempt_run net trace_primary PNone
                (record_call (ip_request "https://api.ipify.org") s) r6) as Hrun.
  assert (Hlen : length (calls (record_call (ip_request "https://api.ipify.org") s))
                 = S (length (calls s)))
    by (simpl; rewrite length_app; simpl; lia).
  rewrite Hlen in Hrun. specialize (Hrun Hn6).
  rewrite Ht6, (split_trace_text _ Hplain), list_pop_last in Hrun.
  rewrite (trace_dict_pairs _ Hplain), app_nil_r in Hrun. simpl rbind in Hrun.
  rewrite trace_lookup_last, Hip in Hrun.
  unfold trace_primary in Hrun at 1. rewrite Hrun. reflexivity.
Qed.

Lemma getIPs_both_detected_witness :
  getIPs Ex2.net_both Ex.g0 initial_state =
  (Ok [("ipv4", mkIp "A" (PStr (PyStr.strip (text Ex2.r4))));
       ("ipv6", mkIp "AAAA" (PStr "2001:db8::2"))],
   record_call (trace_request trace_primary)
     (record_call (ip_request "https://api.ipify.org") initial_state)).
Proof.
  apply (getIPs_both_detected Ex2.net_both Ex.g0 initial_state Ex2.r4 Ex2.r6
           Ex2.trace_pairs "2001:db8::2"); try reflexivity.
  repeat constructor.
Defined.

Lemma getIPs_ipv4_same_ipv6_flags net g : steps same_ipv6_flags (getIPs_ipv4 net g).
Proof.
  apply (steps_getIPs_ipv4 (fun _ => True) same_ipv6_flags).
  - intros s. split; reflexivity.
  - unfold same_ipv6_flags. intros s1 s2 s3 (? & ?) (? & ?). split; congruence.
  - intros line s. split; reflexivity.
  - intros req s _. split; reflexivity.
  - intros req _. exact I.
  - intros b s. split; reflexivity.
  - intros _ req _. exact I.
Qed.

(** The IPv4 branch returns when [shown_ipv4_warning] is bound and purging is
    disabled. *)
Lemma getIPs_ipv4_returns net g s b0 :
  shown_ipv4_warning s = Some b0 ->
  purgeUnknownRecords g = false ->
  exists a s1, getIPs_ipv4 net g s = (Ok a, s1).
Proof.
  intros Hf Hp. unfold getIPs_ipv4. destruct (ipv4_enabled g); [| eexists _, _; reflexivity].
  unfold try_except. rewrite bind_run.
  pose proof (get_public_ip_same_flags net s) as (Hsame & _).
  destruct (get_public_ip net s) as [[a | e] s1]; [eexists _, _; reflexivity |].
  simpl in Hsame. rewrite Hf in Hsame.
  replace (isinstance_Exception e) with true by (destruct e as [[] ?]; reflexivity).
  rewrite bind_run. unfold read_global at 1. rewrite Hsame. rewrite Hp.
  destruct b0; simpl; eexists _, _; reflexivity.
Qed.

(** The IPv6 branch when the first endpoint answers a body without newline
    and the second cannot be reached, in a state where its two warn-once
    globals are bound: what is left is the purge, if enabled, and the value
    is the empty list the first attempt left in [aaaa]. *)
Lemma getIPs_ipv6_leftover net g s r msg b1 b2 :
  ipv6_enabled g = true ->
  shown_ipv6_warning s = Some b1 ->
  shown_ipv6_warning_secondary s = Some b2 ->
  (forall n, net n (trace_request trace_primary) = Answered r) ->
  PyStr.contains_char "010"%char (text r) = false ->
  (forall n, net n (trace_request trace_secondary) = TransportError msg) ->
  exists s2,
    getIPs_ipv6 net g s =
    bind (when (purgeUnknownRecords g) (deleteEntries net g "AAAA"))
         (fun _ => ret (PList [])) s2.
Proof.
  intros H6 Hf1 Hf2 Hn1 Hnl Hn2.
  unfold getIPs_ipv6. rewrite H6. rewrite bind_run.
  pose proof (trace_attempt_run net trace_primary PNone s r (Hn1 _)) as Hfirst.
  rewrite (split_whole _ _ Hnl) in Hfirst. simpl in Hfirst.
  unfold trace_primary in Hfirst at 1. rewrite Hfirst. clear Hfirst.
  set (s1 := record_call (trace_request trace_primary) s).
  rewrite bind_run. unfold read_global at 1.
  change (shown_ipv6_warning s1) with (shown_ipv6_warning s). rewrite Hf1.
  rewrite bind_run.
  assert (Hwarn : exists s1',
             when (negb b1)
               (set_shown_ipv6_warning true ;;
                print "🧩 IPv6 not detected via 1.1.1.1, trying 1.0.0.1") s1
             = (Ok tt, s1')
             /\ shown_ipv6_warning_secondary s1' = Some b2).
  { destruct b1; simpl; eexists; (split; [reflexivity |]);
      first [reflexivity | exact Hf2]. }
  destruct Hwarn as (s1' & -> & Hf2').
  rewrite bind_run.
  pose proof (trace_attempt_fails net trace_secondary (PStrs []) s1' msg (Hn2 _))
    as Hsecond.
  unfold trace_secondary in Hsecond at 1. rewrite Hsecond. clear Hsecond.
  set (s2 := record_call (trace_request trace_secondary) s1').
  rewrite bind_run. unfold read_global at 1.
  change (shown_ipv6_warning_secondary s2) with (shown_ipv6_warning_secondary s1').
  rewrite Hf2'. rewrite bind_run.
  destruct b2; simpl; eexists; reflexivity.
Qed.

(** X17: A leftover of the first attempt: in a state where the three warn-once
    globals are bound, with IPv6 detection enabled, when the first trace
    endpoint answers something that is not a trace (here: a body without
    newline) and the second cannot be reached, the local [aaaa] still holds
    the list of lines of the first answer: whatever [getIPs] returns holds an
    IPv6 entry whose address is that list, though no address was detected.
    With purging disabled, [getIPs] does return. *)
Theorem getIPs_reports_leftover_lines net g s r msg b0 b1 b2 :
  ipv6_enabled g = true ->
  shown_ipv4_warning s = Some b0 ->
  shown_ipv6_warning s = Some b1 ->
  shown_ipv6_warning_secondary s = Some b2 ->
  (forall n, net n (trace_request trace_primary) = Answered r) ->
  PyStr.contains_char "010"%char (text r) = false ->
  (forall n, net n (trace_request trace_secondary) = TransportError msg) ->
  (forall ips s',
     getIPs net g s = (Ok ips, s') -> In ("ipv6", mkIp "AAAA" (PList [])) ips)
  /\ (purgeUnknownRecords g = false -> exists ips s', getIPs net g s = (Ok ips, s')).
Proof.
  intros H6 Hf0 Hf1 Hf2 Hn1 Hnl Hn2.
  assert (Hv6 : forall s1,
             same_ipv6_flags s s1 ->
             exists s2,
               getIPs_ipv6 net g s1 =
               bind (when (purgeUnknownRecords g) (deleteEntries net g "AAAA"))
                    (fun _ => ret (PList [])) s2).
  { intros s1 (Hs1 & Hs2).
    apply (getIPs_ipv6_leftover net g s1 r msg b1 b2); try assumption; congruence. }
  split.
  - intros ips s' Hrun. unfold getIPs in Hrun.
    apply bind_ok_inv in Hrun. destruct Hrun as (a & s1 & Ha & Hrun).
    apply bind_ok_inv in Hrun. destruct Hrun as (aaaa & s2 & Haaaa & Hrun).
    injection Hrun as <- _.
    pose proof (getIPs_ipv4_same_ipv6_flags net g s) as Hsame. rewrite Ha in Hsame.
    destruct (Hv6 s1 Hsame) as (s3 & Hv). rewrite Hv in Haaaa.
    apply bind_ok_inv in Haaaa. destruct Haaaa as (u & s4 & _ & Hret).
    injection Hret as <- _. apply in_or_app. right. left. reflexivity.
  - intros Hp. unfold getIPs.
    destruct (getIPs_ipv4_returns net g s b0 Hf0 Hp) as (a & s1 & Ha).
    pose proof (getIPs_ipv4_same_ipv6_flags net g s) as Hsame. rewrite Ha in Hsame.
    destruct (Hv6 s1 Hsame) as (s3 & Hv).
    rewrite bind_run, Ha, bind_run, Hv, Hp. simpl. eexists _, _. reflexivity.
Qed.

Lemma getIPs_reports_leftover_lines_witness :
  (forall ips s',
     getIPs Ex2.net_garbled Ex.g0 Ex2.bound_state = (Ok ips, s') ->
     In ("ipv6", mkIp "AAAA" (PList [])) ips)
  /\ (purgeUnknownRecords Ex.g0 = false ->
      exists ips s', getIPs Ex2.net_garbled Ex.g0 Ex2.bound_state = (Ok ips, s')).
Proof.
  apply (getIPs_reports_leftover_lines Ex2.net_garbled Ex.g0 Ex2.bound_state
           (mkResponse 200 "OK" "<html>error</html>"
              (inl "Expecting value: line 1 column 1 (char 0)"))
           "Network is unreachable" false false false);
    reflexivity.
Defined.

(** With the globals of [__main__] and all detection services down, the
    report is that entry alone. *)
Example getIPs_leftover_run :
  fst (getIPs Ex2.net_garbled Ex.g0 Ex2.bound_state)
  = Ok [("ipv6", mkIp "AAAA" (PList []))].
Proof. reflexivity. Qed.

(** ** Purging, account by account *)

Lemma deleteEntries_option_run net type option s h d rs ids :
  buildHeaders option = Ok h ->
  fst (cf_api net (listing_endpoint option type) "GET" option [] None s)
    = Ok (PDict d) ->
  Py.lookup "result" d = Some (PList rs) ->
  Forall2 (fun r identifier => Py.getitem r "id" = Ok identifier) rs ids ->
  exists s',
    deleteEntries_option net type option s = (Ok tt, s')
    /\ calls s' = (calls s ++ list_request h option type
                             :: map (delete_request h option) ids)%list.
Proof.
  intros Hh Hv Hd Hids.
  destruct (cf_api_total net (listing_endpoint option type) "GET" option [] None s h Hh)
    as (v & s1 & Hrun & Hcalls & _).
  rewrite Hrun in Hv. simpl in Hv. injection Hv as ->.
  unfold deleteEntries_option. rewrite bind_run.
  unfold listing_endpoint in Hrun. rewrite Hrun.
  rewrite bind_lift. unfold and_get_result.
  rewrite (lookup_nonempty _ _ _ Hd). simpl Py.get. rewrite Hd.
  destruct rs as [| r rs].
  - inversion Hids; subst. simpl. exists s1. split; [reflexivity | exact Hcalls].
  - change (Py.truthy (PList (r :: rs))) with true. cbv iota.
    rewrite bind_lift. simpl Py.getitem. rewrite Hd.
    rewrite bind_lift. simpl Py.iter.
    destruct (deleteEntries_records_calls net option h (r :: rs) ids Hh Hids s1)
      as (s' & Hrest & Hcalls').
    exists s'. split; [exact Hrest |].
    rewrite Hcalls', Hcalls, <- app_assoc. reflexivity.
Qed.

(** The purge of a list of accounts, on a network whose answers do not depend
    on the moment of the request. *)
Lemma deleteEntries_accounts_run respond type hdr recs ids accounts :
  (forall option, In option accounts ->
     buildHeaders option = Ok (hdr option)
     /\ Forall2 (fun r identifier => Py.getitem r "id" = Ok identifier)
          (recs option) (ids option)
     /\ exists r d,
          respond (list_request (hdr option) option type) = Answered r
          /\ (status_code r < 400 \/ 600 <= status_code r)
          /\ json_body r = inr (PDict d)
          /\ Py.lookup "result" d = Some (PList (recs option))) ->
  forall s0, exists s',
    for_each accounts (deleteEntries_option (stateless respond) type) s0 = (Ok tt, s')
    /\ calls s' =
       (calls s0 ++
        flat_map (fun option =>
                    list_request (hdr option) option type
                    :: map (delete_request (hdr option) option) (ids option))
          accounts)%list.
Proof.
  induction accounts as [| option accounts IH]; intros Hall s0.
  - exists s0. split; [reflexivity | symmetry; apply app_nil_r].
  - destruct (Hall option (or_introl eq_refl))
      as (Hh & Hids & r & d & Hr & Hstatus & Hjson & Hd).
    destruct (deleteEntries_option_run (stateless respond) type option s0
                (hdr option) d (recs option) (ids option) Hh) as (s1 & Hrun & Hcalls).
    + rewrite (cf_api_answered (stateless respond) (listing_endpoint option type)
                 "GET" option [] None s0 (hdr option) r (PDict d) Hh Hr Hstatus Hjson).
      reflexivity.
    + exact Hd.
    + exact Hids.
    + destruct (IH (fun o Ho => Hall o (or_intror Ho)) s1) as (s' & Hrest & Hcalls').
      exists s'. split.
      * simpl for_each. rewrite bind_run, Hrun. exact Hrest.
      * rewrite Hcalls', Hcalls. simpl flat_map. rewrite <- app_assoc. reflexivity.
Qed.

(** X19: On a network whose answers do not depend on the moment of the request,
    when every account's listing is answered with records that all have an
    identifier, [deleteEntries] goes through the accounts in the order of the
    configuration and, for each, sends the listing call and then exactly one
    DELETE per listed record, in the order of the listing. *)
Theorem deleteEntries_one_delete_per_record respond g type hdr recs ids s :
  (forall option, In option (cloudflare (config g)) ->
     buildHeaders option = Ok (hdr option)
     /\ Forall2 (fun r identifier => Py.getitem r "id" = Ok identifier)
          (recs option) (ids option)
     /\ exists r d,
          respond (list_request (hdr option) option type) = Answered r
          /\ (status_code r < 400 \/ 600 <= status_code r)
          /\ json_body r = inr (PDict d)
          /\ Py.lookup "result" d = Some (PList (recs option))) ->
  exists s',
    deleteEntries (stateless respond) g type s = (Ok tt, s')
    /\ issued_since s s' =
       flat_map (fun option =>
                   list_request (hdr option) option type
                   :: map (delete_request (hdr option) option) (ids option))
         (cloudflare (config g)).
Proof.
  intros Hall. unfold deleteEntries.
  destruct (deleteEntries_accounts_run respond type hdr recs ids
              (cloudflare (config g)) Hall s) as (s' & Hrun & Hcalls).
  exists s'. split; [exact Hrun |].
  apply issued_since_app. exact Hcalls.
Qed.

(** ** Purging and the configuration *)






(** X20: When the listing call of an account fails, the purge logs the failure,
    deletes nothing for that account and goes on. *)
Theorem deleteEntries_option_listing_fails net type option s h :
  buildHeaders option = Ok h ->
  call_fails (net (length (calls s)) (list_request h option type)) ->
  exists msg,
    deleteEntries_option net type option s =
    (Ok tt,
     add_line (error_line "GET" (api_url (listing_endpoint option type)) msg)
       (record_call (list_request h option type) s)).
Proof.
  intros Hh Hfail.
  destruct (failure_of_failed (api_url (listing_endpoint option type)) _ Hfail)
    as [e He].
  exists (exn_msg e).
  unfold deleteEntries_option. rewrite bind_run.
  pose proof (cf_api_run net (listing_endpoint option type) "GET" option []
                None s h Hh) as Hrun.
  cbv zeta in Hrun. unfold list_request in He. rewrite He in Hrun.
  unfold listing_endpoint in Hrun at 1. rewrite Hrun. reflexivity.
Qed.

(** X21: A listed record without an identifier stops the purge: [KeyError] is
    raised once the records before it have been deleted; the records after it
    are left alone, and the exception leaves [deleteEntries_option]. *)
Theorem deleteEntries_option_missing_id net type option s h d pre ids r post :
  buildHeaders option = Ok h ->
  fst (cf_api net (listing_endpoint option type) "GET" option [] None s)
    = Ok (PDict d) ->
  Py.lookup "result" d = Some (PList (pre ++ r :: post)) ->
  Forall2 (fun r identifier => Py.getitem r "id" = Ok identifier) pre ids ->
  Py.getitem r "id" = Raise (mkExn KeyError "'id'") ->
  exists s',
    deleteEntries_option net type option s = (Raise (mkExn KeyError "'id'"), s')
    /\ issued_since s s' =
       list_request h option type :: map (delete_request h option) ids.
Proof.
  intros Hh Hv Hd Hids Hr.
  destruct (cf_api_total net (listing_endpoint option type) "GET" option [] None s h Hh)
    as (v & s1 & Hrun & Hcalls & _).
  rewrite Hrun in Hv. simpl in Hv. injection Hv as ->.
  unfold deleteEntries_option. rewrite bind_run.
  unfold listing_endpoint in Hrun. rewrite Hrun.
  rewrite bind_lift. unfold and_get_result.
  rewrite (lookup_nonempty _ _ _ Hd). simpl Py.get. rewrite Hd.
  rewrite app_cons_truthy.
  rewrite bind_lift. simpl Py.getitem. rewrite Hd.
  rewrite bind_lift. simpl Py.iter.
  assert (Hloop : forall s0, exists s',
             for_each (pre ++ r :: post) (deleteEntries_record net option) s0
             = (Raise (mkExn KeyError "'id'"), s')
             /\ calls s' = (calls s0 ++ map (delete_request h option) ids)%list).
  { clear Hd Hrun Hcalls. induction Hids as [| r0 id0 pre ids Hr0 _ IH]; intros s0.
    - simpl app. simpl for_each. rewrite bind_run.
      unfold deleteEntries_record. rewrite bind_lift, Hr.
      exists s0. split; [reflexivity | symmetry; apply app_nil_r].
    - simpl app. simpl for_each. rewrite bind_run.
      unfold deleteEntries_record at 1. rewrite bind_lift, Hr0. rewrite bind_run.
      destruct (cf_api_total net (record_endpoint option id0) "DELETE" option []
                  None s0 h Hh) as (v & s2 & Hrun & Hcalls & _).
      unfold record_endpoint in Hrun. rewrite Hrun. unfold print.
      destruct (IH (add_line ("🗑️ Deleted stale record " ++ Py.str id0) s2))
        as (s' & Hrest & Hcalls').
      exists s'. split; [exact Hrest |].
      rewrite Hcalls'. simpl. rewrite Hcalls, <- app_assoc. reflexivity. }
  destruct (Hloop s1) as (s' & Hrest & Hcalls').
  exists s'. split; [exact Hrest |].
  apply issued_since_app. rewrite Hcalls', Hcalls, <- app_assoc. reflexivity.
Qed.

Lemma deleteEntries_one_delete_per_record_witness :
  exists s',
    deleteEntries (stateless Ex2.respond_two) Ex2.g2 "AAAA" initial_state = (Ok tt, s')
    /\ issued_since initial_state s' =
       flat_map (fun option =>
                   list_request (Ex2.hdr option) option "AAAA"
                   :: map (delete_request (Ex2.hdr option) option)
                        [PStr "r1"; PStr "r3"])
         (cloudflare (config Ex2.g2)).
Proof.
  apply (deleteEntries_one_delete_per_record Ex2.respond_two Ex2.g2 "AAAA" Ex2.hdr
           (fun _ => [Ex.stale; Ex.correct]) (fun _ => [PStr "r1"; PStr "r3"])
           initial_state).
  intros option [<- | [<- | []]].
  - split; [reflexivity |]. split; [repeat constructor |].
    eexists _, _. split; [reflexivity |]. split; [left; simpl; lia |].
    split; reflexivity.
  - split; [reflexivity |]. split; [repeat constructor |].
    eexists _, _. split; [reflexivity |]. split; [left; simpl; lia |].
    split; reflexivity.
Defined.

Lemma deleteEntries_option_listing_fails_witness :
  exists msg,
    deleteEntries_option Ex.net_404 "AAAA" Ex.acct initial_state =
    (Ok tt,
     add_line (error_line "GET" (api_url (listing_endpoint Ex.acct "AAAA")) msg)
       (record_call (list_request Ex.headers Ex.acct "AAAA") initial_state)).
Proof.
  apply (deleteEntries_option_listing_fails Ex.net_404 "AAAA" Ex.acct initial_state
           Ex.headers).
  - reflexivity.
  - right. left. eexists. split; [reflexivity | simpl; lia].
Defined.

Lemma deleteEntries_option_missing_id_witness :
  exists s',
    deleteEntries_option (Ex.net_listing [Ex.stale; Ex2.nameless_id; Ex.other]) "A"
      Ex.acct initial_state = (Raise (mkExn KeyError "'id'"), s')
    /\ issued_since initial_state s' =
       list_request Ex.headers Ex.acct "A"
       :: map (delete_request Ex.headers Ex.acct) [PStr "r1"].
Proof.
  apply (deleteEntries_option_missing_id
           (Ex.net_listing [Ex.stale; Ex2.nameless_id; Ex.other]) "A" Ex.acct
           initial_state Ex.headers
           (Ex.listing [Ex.stale; Ex2.nameless_id; Ex.other])
           [Ex.stale] [PStr "r1"] Ex2.nameless_id [Ex.other]);
    try reflexivity.
  repeat constructor.
Defined.

(** ** [commitRecord], account by account *)

Lemma commitRecord_accounts net g ip :
  commitRecord net g ip = for_each (cloudflare (config g)) (commitRecord_option net g ip).
Proof. reflexivity. Qed.

(** X22: A failed zone lookup skips the account and nothing else: the failure is
    logged, no record of the account is listed or written, and
    [commitRecord] goes on with the accounts that follow. *)
Theorem commitRecord_skips_failed_zone net g ip s option rest h :
  cloudflare (config g) = option :: rest ->
  buildHeaders option = Ok h ->
  call_fails (net (length (calls s)) (zone_request h option)) ->
  exists msg,
    commitRecord net g ip s =
    for_each rest (commitRecord_option net g ip)
      (add_line (error_line "GET" (api_url ("zones/" ++ zone_id option)) msg)
         (record_call (zone_request h option) s)).
Proof.
  intros Hcfg Hh Hfail.
  destruct (failure_of_failed (api_url ("zones/" ++ zone_id option)) _ Hfail) as [e He].
  exists (exn_msg e).
  rewrite commitRecord_accounts, Hcfg. simpl for_each. rewrite bind_run.
  unfold commitRecord_option at 1. rewrite bind_run.
  pose proof (cf_api_run net ("zones/" ++ zone_id option) "GET" option [] None s h Hh)
    as Hrun.
  cbv zeta in Hrun. unfold zone_request in He. rewrite He in Hrun.
  rewrite Hrun. reflexivity.
Qed.

Lemma commitRecord_skips_failed_zone_witness :
  exists msg,
    commitRecord Ex.net_404 Ex2.g2 Ex.ip4 initial_state =
    for_each [Ex2.key_account] (commitRecord_option Ex.net_404 Ex2.g2 Ex.ip4)
      (add_line (error_line "GET" (api_url ("zones/" ++ zone_id Ex.acct)) msg)
         (record_call (zone_request Ex.headers Ex.acct) initial_state)).
Proof.
  apply (commitRecord_skips_failed_zone Ex.net_404 Ex2.g2 Ex.ip4 initial_state Ex.acct
           [Ex2.key_account] Ex.headers).
  - reflexivity.
  - reflexivity.
  - right. left. eexists. split; [reflexivity | simpl; lia].
Defined.

(** X23: A target that [prepareDNSRecord] rejects stops the whole of
    [commitRecord]: the exception is raised right after the zone lookup of
    its account; the targets after it and the accounts after its account are
    not reconciled. *)
Theorem commitRecord_stops_at_bad_target
    net g ip s option rest h d result base_domain_name bad targets e :
  cloudflare (config g) = option :: rest ->
  subdomains option = bad :: targets ->
  buildHeaders option = Ok h ->
  fst (cf_api net ("zones/" ++ zone_id option) "GET" option [] None s) = Ok (PDict d) ->
  Py.lookup "result" d = Some result ->
  Py.truthy result = true ->
  Py.getitem result "name" = Ok base_domain_name ->
  prepareDNSRecord g bad base_domain_name ip option = Raise e ->
  exists s',
    commitRecord net g ip s = (Raise e, s')
    /\ issued_since s s' = [zone_request h option].
Proof.
  intros Hcfg Hsub Hh Hv Hd Htruthy Hname Hbad.
  destruct (cf_api_total net ("zones/" ++ zone_id option) "GET" option [] None s h Hh)
    as (v & s1 & Hrun & Hcalls & _).
  rewrite Hrun in Hv. simpl in Hv. injection Hv as ->.
  exists s1. split; [| exact (issued_since_app _ _ _ Hcalls)].
  rewrite commitRecord_accounts, Hcfg. simpl for_each. rewrite bind_run.
  unfold commitRecord_option at 1. rewrite bind_run, Hrun.
  rewrite bind_lift. unfold and_get_result.
  rewrite (lookup_nonempty _ _ _ Hd). simpl Py.get. rewrite Hd, Htruthy.
  rewrite bind_lift. simpl Py.getitem. rewrite Hd.
  rewrite bind_lift, Hname, Hsub. simpl for_each.
  rewrite bind_run, bind_lift, Hbad. reflexivity.
Qed.

Lemma commitRecord_stops_at_bad_target_witness :
  exists s',
    commitRecord Ex2.net_zone Ex2.g_bad Ex.ip4 initial_state
    = (Raise (mkExn AttributeError "'dict' object has no attribute 'strip'"), s')
    /\ issued_since initial_state s' = [zone_request Ex.headers Ex2.bad_account].
Proof.
  apply (commitRecord_stops_at_bad_target Ex2.net_zone Ex2.g_bad Ex.ip4 initial_state
           Ex2.bad_account [Ex.acct] Ex.headers
           [("result", PDict [("name", PStr "example.com")])]
           (PDict [("name", PStr "example.com")]) (PStr "example.com")
           (PDict [("proxied", PBool true)]) [PDict [("name", PStr "home")]]);
    reflexivity.
Defined.

(** ** [updateIPs]: one family does not stop the other *)

(** X26: When [commitRecord] raises for a family, [updateIPs] prints the failure
    and carries on with the families that follow. *)
Theorem updateIPs_continues_after_failure net g key ip ips s e s1 :
  commitRecord net g ip
    (add_line ("🔄 Updating IPs: " ++ Py.repr (ips_json ((key, ip) :: ips))) s)
  = (Raise e, s1) ->
  updateIPs net g ((key, ip) :: ips) s =
  for_each (map snd ips)
    (fun ip' =>
       try_except
         (commitRecord net g ip' ;;
          print ("✅ Successfully updated " ++ ip_type ip' ++ " record to "
                   ++ Py.str (ip_addr ip')))
         isinstance_Exception
         (fun e' => print ("❌ Failed to update " ++ ip_type ip' ++ " record: "
                             ++ exn_msg e')))
    (add_line ("❌ Failed to update " ++ ip_type ip ++ " record: " ++ exn_msg e) s1).
Proof.
  intros Hrun. unfold updateIPs. rewrite bind_run. unfold print at 1.
  simpl map. simpl for_each. rewrite bind_run.
  unfold try_except at 1. rewrite bind_run, Hrun. reflexivity.
Qed.

Lemma updateIPs_continues_after_failure_witness :
  exists s1,
    updateIPs Ex2.net_zone Ex2.g_bad [("ipv4", Ex.ip4); ("ipv6", Ex2.ip6)] initial_state =
    for_each [Ex2.ip6]
      (fun ip' =>
         try_except
           (commitRecord Ex2.net_zone Ex2.g_bad ip' ;;
            print ("✅ Successfully updated " ++ ip_type ip' ++ " record to "
                     ++ Py.str (ip_addr ip')))
           isinstance_Exception
           (fun e' => print ("❌ Failed to update " ++ ip_type ip' ++ " record: "
                               ++ exn_msg e')))
      (add_line ("❌ Failed to update " ++ ip_type Ex.ip4 ++ " record: "
                   ++ "'dict' object has no attribute 'strip'") s1).
Proof.
  eexists.
  apply (updateIPs_continues_after_failure Ex2.net_zone Ex2.g_bad "ipv4" Ex.ip4
           [("ipv6", Ex2.ip6)] initial_state
           (mkExn AttributeError "'dict' object has no attribute 'strip'")).
  reflexivity.
Defined.

Lemma same_flags_call req s : same_flags s (record_call req s).
Proof. repeat split. Qed.

Lemma same_flags_print line s : same_flags s (add_line line s).
Proof. repeat split. Qed.

(** X27: [updateIPs] always returns: nothing that happens while the records of a
    family are reconciled leaves it as an exception.  It sends no DELETE,
    does not sleep and does not touch the warn-once globals. *)
Theorem updateIPs_never_raises net g ips s :
  exists s',
    updateIPs net g ips s = (Ok tt, s')
    /\ Forall not_delete (issued_since s s')
    /\ same_flags s s'
    /\ sleeps s' = sleeps s.
Proof.
  pose proof (updateIPs_no_delete net g ips s) as Hdel.
  pose proof (updateIPs_same_sleeps net g ips s) as Hsl.
  assert (Hfl : same_flags s (snd (updateIPs net g ips s))).
  { apply (steps_updateIPs (fun _ => True) same_flags same_flags_refl same_flags_trans
             same_flags_print (fun req s0 _ => same_flags_call req s0));
      intros; exact I. }
  destruct (updateIPs_returns net g ips s) as [s' Hrun].
  rewrite Hrun in Hdel, Hsl, Hfl. simpl in Hdel, Hsl, Hfl.
  exists s'. split; [exact Hrun |].
  split; [exact (issued_only_since _ _ _ Hdel) |]. split; assumption.
Qed.

(** ** What [commitRecord] sends *)

Lemma prepareDNSRecord_made_for g subdomain base_domain_name ip option fqdn record :
  prepareDNSRecord g subdomain base_domain_name ip option = Ok (fqdn, record) ->
  made_for ip (ttl g) record.
Proof.
  unfold prepareDNSRecord.
  destruct (Py.get subdomain "name" subdomain) as [raw |]; simpl; [| discriminate].
  destruct (Py.strip raw) as [stripped |]; simpl; [| discriminate].
  destruct (option_proxied option) as [default |]; simpl; [| discriminate].
  destruct (Py.get subdomain "proxied" default) as [p |]; simpl; [| discriminate].
  intros [= _ <-]. repeat split.
Qed.

Section CommitRecordRequests.

Variable P : request -> Prop.
Variable net : network.
Variable g : globals.
Variable ip : ip_t.

(** What [P] must grant: the requests [commitRecord] may send for an account
    of the configuration. *)
Hypothesis P_account :
  forall option h,
    In option (cloudflare (config g)) ->
    buildHeaders option = Ok h ->
    P (zone_request h option)
    /\ P (list_request h option (ip_type ip))
    /\ (forall identifier record,
          made_for ip (ttl g) record -> P (put_request h option identifier record))
    /\ (forall record, made_for ip (ttl g) record -> P (post_request h option record)).

Lemma commitRecord_option_issues option :
  In option (cloudflare (config g)) ->
  steps (issued_only P) (commitRecord_option net g ip option).
Proof.
  intros Hin. unfold commitRecord_option.
  apply (steps_bind _ (issued_only_trans P)).
  { apply (steps_cf_api P _ (issued_only_refl P) (issued_only_trans P)
             (issued_only_print P) (issued_only_call P)).
    intros h Hh. apply (P_account option h Hin Hh). }
  intros response.
  apply (steps_bind _ (issued_only_trans P));
    [apply steps_lift, issued_only_refl | intros c].
  destruct (Py.truthy c); [| apply steps_ret, issued_only_refl].
  apply (steps_bind _ (issued_only_trans P));
    [apply steps_lift, issued_only_refl | intros result].
  apply (steps_bind _ (issued_only_trans P));
    [apply steps_lift, issued_only_refl | intros base_domain_name].
  apply (steps_for_each _ (issued_only_refl P) (issued_only_trans P)).
  intros subdomain s. rewrite bind_lift.
  destruct (prepareDNSRecord g subdomain base_domain_name ip option)
    as [[fqdn record] | e] eqn:Hprep; [| apply issued_only_refl].
  pose proof (prepareDNSRecord_made_for _ _ _ _ _ _ _ Hprep) as Hmade.
  apply (steps_processDNSRecord P _ (issued_only_refl P) (issued_only_trans P)
           (issued_only_print P) (issued_only_call P)).
  - intros h Hh. apply (P_account option h Hin Hh).
  - intros h identifier Hh. apply (P_account option h Hin Hh). exact Hmade.
  - intros h Hh. apply (P_account option h Hin Hh). exact Hmade.
Qed.

Lemma commitRecord_issues : steps (issued_only P) (commitRecord net g ip).
Proof.
  rewrite commitRecord_accounts.
  assert (Hloop : forall accounts,
             (forall option, In option accounts -> In option (cloudflare (config g))) ->
             steps (issued_only P) (for_each accounts (commitRecord_option net g ip))).
  { induction accounts as [| option accounts IH]; intros Hin.
    - apply steps_ret, issued_only_refl.
    - simpl for_each. apply (steps_bind _ (issued_only_trans P)).
      + apply commitRecord_option_issues, Hin. left. reflexivity.
      + intros _. apply IH. intros o Ho. apply Hin. right. exact Ho. }
  apply Hloop. auto.
Qed.

End CommitRecordRequests.

(** X24: Every request [commitRecord] sends goes to the provider's API and carries
    the credentials of an account of the configuration: no request is sent
    anywhere else, and none without credentials. *)
Theorem commitRecord_requests_authenticated net g ip s :
  Forall (authenticated (cloudflare (config g)))
    (issued_since s (snd (commitRecord net g ip s))).
Proof.
  apply issued_only_since.
  apply (commitRecord_issues (authenticated (cloudflare (config g))) net g ip).
  intros option h Hin Hh.
  assert (Hauth : forall endpoint method data,
             authenticated (cloudflare (config g)) (cf_request h endpoint method data)).
  { intros endpoint method data. exists option, endpoint.
    split; [exact Hin |]. split; [exact Hh | reflexivity]. }
  repeat split; intros; apply Hauth.
Qed.

(** X25: Every write [commitRecord] sends for a detected address is a POST or a
    PUT of a record of that address: its kind is the kind of the address, its
    content the address, its TTL the TTL in force.  [commitRecord] sends no
    DELETE. *)
Theorem commitRecord_writes_detected_address net g ip s :
  Forall (writes_address ip (ttl g))
    (issued_since s (snd (commitRecord net g ip s))).
Proof.
  apply issued_only_since.
  apply (commitRecord_issues (writes_address ip (ttl g)) net g ip).
  intros option h Hin Hh. repeat split.
  - left. reflexivity.
  - left. reflexivity.
  - intros identifier record Hmade. right.
    split; [right; reflexivity |]. exists record.
    destruct Hmade as (H1 & H2 & H3). repeat split; assumption.
  - intros record Hmade. right.
    split; [left; reflexivity |]. exists record.
    destruct Hmade as (H1 & H2 & H3). repeat split; assumption.
Qed.

(** ** The loop *)

(** X28: The program as [__main__] starts it never sends a DELETE, whatever the
    network answers and however long it runs: purging is switched off there
    and nothing switches it on. *)
Theorem main_never_deletes net cfg kill_now :
  Forall not_delete (calls (snd (main net cfg kill_now))).
Proof.
  unfold main.
  assert (Hloop : forall kill_now,
             steps (issued_only not_delete) (poll_loop net (main_globals cfg) kill_now)).
  { clear kill_now. induction kill_now as [| [] later IH]; simpl.
    - apply steps_ret, issued_only_refl.
    - apply steps_ret, issued_only_refl.
    - apply (steps_bind _ (issued_only_trans not_delete));
        [apply poll_cycle_no_delete; reflexivity | intros _; exact IH]. }
  destruct (Hloop kill_now initial_state) as (rs & Hcalls & Hall).
  rewrite Hcalls. exact Hall.
Qed.

(** X29: A run of the loop that ends normally has slept once per turn, each time
    for the TTL in force; the stop flag is looked at only between turns. *)
Theorem poll_loop_sleeps_once_per_turn net g kill_now :
  forall s s',
    poll_loop net g kill_now s = (Ok tt, s') ->
    sleeps s' = (sleeps s ++ repeat (ttl g) (turns kill_now))%list.
Proof.
  induction kill_now as [| [] later IH]; intros s s' Hrun; simpl in Hrun.
  - injection Hrun as <-. simpl. symmetry. apply app_nil_r.
  - injection Hrun as <-. simpl. symmetry. apply app_nil_r.
  - apply bind_ok_inv in Hrun. destruct Hrun as ([] & s1 & Hcycle & Hrest).
    rewrite (IH _ _ Hrest), (poll_cycle_sleeps _ _ _ _ Hcycle), <- app_assoc.
    reflexivity.
Qed.

Lemma poll_loop_sleeps_once_per_turn_witness :
  sleeps (snd (poll_loop Ex.net_dual Ex.g0 [false; false; true; false] initial_state))
  = (sleeps initial_state ++ repeat (ttl Ex.g0) (turns [false; false; true; false]))%list.
Proof.
  apply (poll_loop_sleeps_once_per_turn Ex.net_dual Ex.g0 [false; false; true; false]
           initial_state).
  reflexivity.
Defined.

(** ** Purging never writes records *)

Lemma get_or_delete_steps_deleteEntries net g type :
  steps (issued_only get_or_delete) (deleteEntries net g type).
Proof.
  apply (steps_deleteEntries get_or_delete _ (issued_only_refl _) (issued_only_trans _)
           (issued_only_print _) (issued_only_call _)).
  - intros req Hm. left. exact Hm.
  - intros req Hm. right. exact Hm.
Qed.

(** [deleteEntries] only lists and deletes: it never creates or updates a
    record. *)
Theorem deleteEntries_never_writes_records net g type s :
  Forall get_or_delete (issued_since s (snd (deleteEntries net g type s))).
Proof.
  apply issued_only_since.
  apply (steps_deleteEntries get_or_delete _ (issued_only_refl _) (issued_only_trans _)
           (issued_only_print _) (issued_only_call _)).
  - intros req Hm. left. exact Hm.
  - intros req Hm. right. exact Hm.
Qed.

(** X30: [handleIPError] prints its warning first.  With purging disabled that is
    all it does; with purging enabled it goes on to list and delete, and
    never creates or updates a record. *)
Theorem handleIPError_warns_then_purges net g ip_type record_type s :
  let line := ("🧩 " ++ ip_type
                 ++ " not detected. Verify your ISP or DNS provider isn't blocking Cloudflare.")%string in
  let s' := snd (handleIPError net g ip_type record_type s) in
  (exists lines, stdout s' = (stdout s ++ line :: lines)%list)
  /\ Forall get_or_delete (issued_since s s')
  /\ (purgeUnknownRecords g = false ->
      handleIPError net g ip_type record_type s = (Ok tt, add_line line s)).
Proof.
  intros line s'. subst s'. unfold handleIPError. rewrite bind_run. unfold print.
  fold line. split; [| split].
  - assert (Hmore : steps printed_more (deleteEntries net g record_type)).
    { apply (steps_deleteEntries (fun _ => True) printed_more).
      - intros s0. exists []. symmetry. apply app_nil_r.
      - intros s1 s2 s3 [l1 H1] [l2 H2]. exists (l1 ++ l2)%list.
        rewrite H2, H1, app_assoc. reflexivity.
      - intros l s0. exists [l]. reflexivity.
      - intros req s0 _. exists []. symmetry. apply app_nil_r.
      - intros; exact I.
      - intros; exact I. }
    destruct (purgeUnknownRecords g); simpl.
    + destruct (Hmore (add_line line s)) as [lines Hlines].
      exists lines. rewrite Hlines. simpl. rewrite <- app_assoc. reflexivity.
    + exists []. reflexivity.
  - destruct (purgeUnknownRecords g); simpl.
    + pose proof (get_or_delete_steps_deleteEntries net g record_type (add_line line s))
        as Hiss.
      exact (issued_only_since _ _ _ Hiss).
    + unfold issued_since. simpl. rewrite skipn_all. constructor.
  - intros ->. reflexivity.
Qed.

(** ** The purge, had the warn-once globals been bound *)

(** X18: In a state where the warn-once globals are bound, with IPv4 detection off
    and purging on, when neither trace endpoint can be reached [getIPs]
    reports nothing and sends: the two attempts, then for every account its
    AAAA listing call followed by one DELETE per listed record. *)
Theorem getIPs_purges_when_globals_bound respond g s b1 b2 m1 m2 hdr recs ids :
  ipv4_enabled g = false ->
  ipv6_enabled g = true ->
  purgeUnknownRecords g = true ->
  shown_ipv6_warning s = Some b1 ->
  shown_ipv6_warning_secondary s = Some b2 ->
  respond (trace_request trace_primary) = TransportError m1 ->
  respond (trace_request trace_secondary) = TransportError m2 ->
  (forall option, In option (cloudflare (config g)) ->
     buildHeaders option = Ok (hdr option)
     /\ Forall2 (fun r identifier => Py.getitem r "id" = Ok identifier)
          (recs option) (ids option)
     /\ exists r d,
          respond (list_request (hdr option) option "AAAA") = Answered r
          /\ (status_code r < 400 \/ 600 <= status_code r)
          /\ json_body r = inr (PDict d)
          /\ Py.lookup "result" d = Some (PList (recs option))) ->
  exists s',
    getIPs (stateless respond) g s = (Ok [], s')
    /\ issued_since s s' =
       trace_request trace_primary :: trace_request trace_secondary
       :: flat_map (fun option =>
                      list_request (hdr option) option "AAAA"
                      :: map (delete_request (hdr option) option) (ids option))
            (cloudflare (config g)).
Proof.
  intros H4 H6 Hp Hf1 Hf2 Hn1 Hn2 Hall.
  destruct (getIPs_ipv6_bound (stateless respond) g s b1 b2 H6 Hf1 Hf2)
    as (s2 & Hcalls2 & Hrun).
  { intros n. exists m1. exact Hn1. }
  { intros n. exists m2. exact Hn2. }
  destruct (deleteEntries_accounts_run respond "AAAA" hdr recs ids
              (cloudflare (config g)) Hall s2) as (s' & Hdel & Hcalls').
  exists s'. split.
  - unfold getIPs, getIPs_ipv4. rewrite H4. rewrite bind_run. unfold ret at 1.
    rewrite bind_run, Hrun, Hp. simpl when. rewrite bind_run.
    unfold deleteEntries. rewrite Hdel. reflexivity.
  - apply issued_since_app. rewrite Hcalls', Hcalls2, <- app_assoc. reflexivity.
Qed.

Lemma getIPs_purges_when_globals_bound_witness :
  exists s',
    getIPs (stateless Ex2.respond_no_ipv6) Ex2.g2_purge Ex2.bound_state = (Ok [], s')
    /\ issued_since Ex2.bound_state s' =
       trace_request trace_primary :: trace_request trace_secondary
       :: flat_map (fun option =>
                      list_request (Ex2.hdr option) option "AAAA"
                      :: map (delete_request (Ex2.hdr option) option)
                           [PStr "r1"; PStr "r3"])
            (cloudflare (config Ex2.g2_purge)).
Proof.
  apply (getIPs_purges_when_globals_bound Ex2.respond_no_ipv6 Ex2.g2_purge
           Ex2.bound_state false false "unreachable" "unreachable" Ex2.hdr
           (fun _ => [Ex.stale; Ex.correct]) (fun _ => [PStr "r1"; PStr "r3"]));
    try reflexivity.
  intros option [<- | [<- | []]].
  - split; [reflexivity |]. split; [repeat constructor |].
    eexists _, _. split; [reflexivity |]. split; [left; simpl; lia |].
    split; reflexivity.
  - split; [reflexivity |]. split; [repeat constructor |].
    eexists _, _. split; [reflexivity |]. split; [left; simpl; lia |].
    split; reflexivity.
Defined.

(** ** Creation *)

Lemma processDNSRecord_unmatched_creates_witness :
  exists s',
    processDNSRecord (Ex.net_listing [Ex.other]) Ex.fqdn Ex.record "A" Ex.acct
      initial_state = (Ok tt, s')
    /\ calls s' = (calls initial_state ++ [list_request Ex.headers Ex.acct "A";
                                           post_request Ex.headers Ex.acct Ex.record])%list.
Proof.
  apply (processDNSRecord_unmatched_creates (Ex.net_listing [Ex.other]) Ex.fqdn
           Ex.record "A" Ex.acct initial_state Ex.headers (Ex.listing [Ex.other])
           Ex.other []);
    reflexivity.
Defined.
